(** * Timestamper: EXIF accessor and batch timestamp assignment

    A shallow embedding of [exif_editor.py] (class [ExifEditor]) and of
    [timestamper.py] (function [process_files]), together with the parts
    of the Python runtime they rely on: [str] methods, [datetime.strptime],
    [datetime.strftime], and [datetime + timedelta * int].

    Python strings are modelled as [string]; a character is a code point
    in the range U+0000..U+00FF. *)

From Stdlib Require Import ZArith Lia Ascii String List Bool.
From stdpp Require Import gmap strings list pretty.

Local Open Scope Z_scope.

(* ===================================================================== *)
(** ** Python [str] primitives *)
(* ===================================================================== *)

Module Py.

Definition code (c : ascii) : N := N_of_ascii c.

(** [\d] of the [re] module and [str.isdecimal]: below U+0100 the only
    decimal digits are 0..9. *)
Definition is_digit (c : ascii) : bool :=
  ((48 <=? code c) && (code c <=? 57))%N.

Definition digit_val (c : ascii) : Z := Z.of_N (code c) - 48.

(** A character class [lo-hi] of a regular expression. *)
Definition in_range (lo hi c : ascii) : bool :=
  ((code lo <=? code c) && (code c <=? code hi))%N.

(** [str.isspace] and [\s] of the [re] module, below U+0100:
    TAB LF VT FF CR, FS GS RS US, SPACE, NEL and NBSP. *)
Definition is_space (c : ascii) : bool :=
  let n := code c in
  (((9 <=? n) && (n <=? 13)) || ((28 <=? n) && (n <=? 32))
   || (n =? 133) || (n =? 160))%N.

(** Line boundaries of [str.splitlines], below U+0100. *)
Definition is_linebreak (c : ascii) : bool :=
  let n := code c in
  (((10 <=? n) && (n <=? 13)) || ((28 <=? n) && (n <=? 30)) || (n =? 133))%N.

Definition truthy (s : string) : bool :=
  match s with EmptyString => false | _ => true end.

Fixpoint lstrip (s : string) : string :=
  match s with
  | String c r => if is_space c then lstrip r else s
  | EmptyString => EmptyString
  end.

(** [rstrip] keeps a character when it is not white space or when
    something remains after it. *)
Fixpoint rstrip (s : string) : string :=
  match s with
  | String c r =>
      match rstrip r with
      | EmptyString => if is_space c then EmptyString else String c EmptyString
      | r' => String c r'
      end
  | EmptyString => EmptyString
  end.

Definition strip (s : string) : string := rstrip (lstrip s).

Definition snoc (s : string) (c : ascii) : string := s +:+ String c EmptyString.

(** [str.splitlines()]: a CR LF pair is one boundary, and no empty last
    line is produced. *)
Fixpoint splitlines_from (cur s : string) : list string :=
  match s with
  | EmptyString => if truthy cur then [cur] else []
  | String c r =>
      if (code c =? 13)%N then
        match r with
        | String c' r' =>
            if (code c' =? 10)%N then cur :: splitlines_from EmptyString r'
            else cur :: splitlines_from EmptyString r
        | EmptyString => [cur]
        end
      else if is_linebreak c then cur :: splitlines_from EmptyString r
      else splitlines_from (snoc cur c) r
  end.

Definition splitlines (s : string) : list string := splitlines_from EmptyString s.

(** [line.split(': ', 1)] when [': ' in line], and [None] otherwise:
    the text before and after the first occurrence of colon-space. *)
Fixpoint split_colon_space (s : string) : option (string * string) :=
  match s with
  | EmptyString => None
  | String c r =>
      match r with
      | String c' r' =>
          if (code c =? 58)%N && (code c' =? 32)%N then Some (EmptyString, r')
          else match split_colon_space r with
               | Some (a, b) => Some (String c a, b)
               | None => None
               end
      | EmptyString => None
      end
  end.

Fixpoint all_digits (s : string) : bool :=
  match s with
  | EmptyString => true
  | String c r => is_digit c && all_digits r
  end.

Fixpoint digits_value (acc : Z) (s : string) : Z :=
  match s with
  | EmptyString => acc
  | String c r => digits_value (10 * acc + digit_val c) r
  end.

(** [int(text)] for unsigned decimal text: surrounding white space is
    ignored; anything else raises [ValueError] (here [None]). *)
Definition int (s : string) : option Z :=
  let t := strip s in
  if truthy t && all_digits t then Some (digits_value 0 t) else None.

Definition digit_char (d : Z) : ascii := ascii_of_N (Z.to_N (48 + d mod 10)).

(** The format specifications [%02d] and [%04d]. *)
Definition pad2 (n : Z) : string :=
  String (digit_char (n / 10)) (String (digit_char n) EmptyString).

Definition pad4 (n : Z) : string :=
  String (digit_char (n / 1000)) (String (digit_char (n / 100)) (pad2 n)).

(** [str(n)] for a natural number below 10000, without padding. *)
Definition str_small (n : Z) : string :=
  if (n <? 10)%Z then String (digit_char n) EmptyString
  else if (n <? 100)%Z then pad2 n
  else if (n <? 1000)%Z then String (digit_char (n / 100)) (pad2 n)
  else pad4 n.

End Py.

(* ===================================================================== *)
(** ** Exceptions and results *)
(* ===================================================================== *)

(** The exception classes that reach the code under study.  All of them
    derive from [Exception].  [OSError] stands for the errors of the
    operating system other than [FileNotFoundError]
    ([NotADirectoryError], [PermissionError], ...). *)
Inductive exn : Type :=
| FileNotFoundError
| ValueError
| OverflowError
| OSError.

Inductive result (A : Type) : Type :=
| Ok (a : A)
| Raise (e : exn).
Arguments Ok {A} a.
Arguments Raise {A} e.

Definition rbind {A B} (r : result A) (k : A -> result B) : result B :=
  match r with
  | Ok a => k a
  | Raise e => Raise e
  end.

Definition is_ok {A} (r : result A) : bool :=
  match r with Ok _ => true | Raise _ => false end.

Declare Scope result_scope.
Delimit Scope result_scope with result.
Notation "'let*' x ':=' r 'in' k" := (rbind r (fun x => k))
  (at level 10, x name, r at level 100, k at level 200) : result_scope.

(* ===================================================================== *)
(** ** A backtracking matcher for the regular expressions of [_strptime]

    [run r s] lists every way [r] matches a prefix of [s], in the order a
    backtracking engine tries them (first alternative first, longest
    repetition first); [re.match] returns the first one. *)
(* ===================================================================== *)

Module Re.

Inductive regex : Type :=
| Lit (c : ascii)
| Range (lo hi : ascii)
| Digit
| Spaces
| Seq (r1 r2 : regex)
| Alt (r1 r2 : regex)
| Group (name : string) (r : regex).

Record found : Type := Found {
  consumed : string;
  rest : string;
  groupdict : list (string * string)
}.

Definition one_char (p : ascii -> bool) (s : string) : list found :=
  match s with
  | String c r => if p c then [Found (String c EmptyString) r []] else []
  | EmptyString => []
  end.

Definition push (c : ascii) (f : found) : found :=
  Found (String c (consumed f)) (rest f) (groupdict f).

(** [\s*], greedy. *)
Fixpoint spaces_star (s : string) : list found :=
  match s with
  | String c r =>
      if Py.is_space c then map (push c) (spaces_star r) ++ [Found EmptyString s []]
      else [Found EmptyString s []]
  | EmptyString => [Found EmptyString s []]
  end.

(** [\s+], greedy. *)
Definition spaces_plus (s : string) : list found :=
  match s with
  | String c r => if Py.is_space c then map (push c) (spaces_star r) else []
  | EmptyString => []
  end.

Definition join (f1 f2 : found) : found :=
  Found (consumed f1 +:+ consumed f2) (rest f2) (groupdict f1 ++ groupdict f2).

Definition capture (name : string) (f : found) : found :=
  Found (consumed f) (rest f) ((name, consumed f) :: groupdict f).

Fixpoint run (r : regex) (s : string) : list found :=
  match r with
  | Lit c => one_char (Ascii.eqb c) s
  | Range lo hi => one_char (Py.in_range lo hi) s
  | Digit => one_char Py.is_digit s
  | Spaces => spaces_plus s
  | Seq r1 r2 => flat_map (fun f1 => map (join f1) (run r2 (rest f1))) (run r1 s)
  | Alt r1 r2 => run r1 s ++ run r2 s
  | Group name r => map (capture name) (run r s)
  end.

Definition re_match (r : regex) (s : string) : option found := head (run r s).

Fixpoint group (d : list (string * string)) (name : string) : string :=
  match d with
  | [] => EmptyString
  | (n, v) :: d' => if String.eqb n name then v else group d' name
  end.

End Re.

(* ===================================================================== *)
(** ** [datetime.datetime] and [datetime.timedelta] *)
(* ===================================================================== *)

Record datetime : Type := Datetime {
  year : Z; month : Z; day : Z;
  hour : Z; minute : Z; second : Z; microsecond : Z
}.

(** A [timedelta] is determined by its total number of microseconds;
    its [days] field is that number divided by 86400000000, rounded
    down. *)
Record timedelta : Type := Timedelta { total_us : Z }.

Module Datetime.

Definition MINYEAR : Z := 1.
Definition MAXYEAR : Z := 9999.
Definition MAXORDINAL : Z := 3652059.
Definition US_PER_DAY : Z := 86400000000.

Definition DAYS_IN_MONTH : list Z :=
  [-1; 31; 28; 31; 30; 31; 30; 31; 31; 30; 31; 30; 31].
Definition DAYS_BEFORE_MONTH : list Z :=
  [-1; 0; 31; 59; 90; 120; 151; 181; 212; 243; 273; 304; 334].

Definition table (t : list Z) (i : Z) : Z := nth (Z.to_nat i) t 0.

Definition is_leap (y : Z) : bool :=
  (y mod 4 =? 0) && (negb (y mod 100 =? 0) || (y mod 400 =? 0)).

Definition days_before_year (y : Z) : Z :=
  let y := y - 1 in y * 365 + y / 4 - y / 100 + y / 400.

Definition days_in_month (y m : Z) : Z :=
  if (m =? 2) && is_leap y then 29 else table DAYS_IN_MONTH m.

Definition days_before_month (y m : Z) : Z :=
  table DAYS_BEFORE_MONTH m + (if (2 <? m) && is_leap y then 1 else 0).

Definition ymd2ord (y m d : Z) : Z :=
  days_before_year y + days_before_month y m + d.

Definition DI400Y : Z := 146097.
Definition DI100Y : Z := 36524.
Definition DI4Y : Z := 1461.

Definition ord2ymd (n : Z) : Z * Z * Z :=
  let n := n - 1 in
  let n400 := n / DI400Y in let n := n mod DI400Y in
  let y := n400 * 400 + 1 in
  let n100 := n / DI100Y in let n := n mod DI100Y in
  let n4 := n / DI4Y in let n := n mod DI4Y in
  let n1 := n / 365 in let n := n mod 365 in
  let y := y + n100 * 100 + n4 * 4 + n1 in
  if (n1 =? 4) || (n100 =? 4) then (y - 1, 12, 31)
  else
    let leapyear := (n1 =? 3) && (negb (n4 =? 24) || (n100 =? 3)) in
    let m := Z.shiftr (n + 50) 5 in
    let preceding :=
      table DAYS_BEFORE_MONTH m + (if (2 <? m) && leapyear then 1 else 0) in
    if n <? preceding then
      let m := m - 1 in
      let preceding :=
        preceding
        - (table DAYS_IN_MONTH m + (if (m =? 2) && leapyear then 1 else 0)) in
      (y, m, n - preceding + 1)
    else (y, m, n - preceding + 1).

Definition check_date_fields (y m d : Z) : bool :=
  (MINYEAR <=? y) && (y <=? MAXYEAR) && (1 <=? m) && (m <=? 12)
  && (1 <=? d) && (d <=? days_in_month y m).

Definition check_time_fields (h mi s us : Z) : bool :=
  (0 <=? h) && (h <=? 23) && (0 <=? mi) && (mi <=? 59)
  && (0 <=? s) && (s <=? 59) && (0 <=? us) && (us <=? 999999).

(** The invariant of every [datetime] object. *)
Definition valid (dt : datetime) : bool :=
  check_date_fields (year dt) (month dt) (day dt)
  && check_time_fields (hour dt) (minute dt) (second dt) (microsecond dt).

(** The constructor [datetime(y, m, d, h, mi, s, us)]. *)
Definition make (y m d h mi s us : Z) : result datetime :=
  if check_date_fields y m d && check_time_fields h mi s us
  then Ok (Datetime y m d h mi s us)
  else Raise ValueError.

(** The constructor of [timedelta], from a number of microseconds:
    [OverflowError] when the magnitude of [days] exceeds 999999999. *)
Definition make_delta (us : Z) : result timedelta :=
  let d := us / US_PER_DAY in
  if (-999999999 <=? d) && (d <=? 999999999) then Ok (Timedelta us)
  else Raise OverflowError.

(** [timedelta.__mul__] with an [int]. *)
Definition delta_mul (td : timedelta) (k : Z) : result timedelta :=
  make_delta (total_us td * k).

(** [datetime.__add__] with a [timedelta]. *)
Definition add (dt : datetime) (td : timedelta) : result datetime :=
  let own :=
    ymd2ord (year dt) (month dt) (day dt) * US_PER_DAY
    + ((hour dt * 60 + minute dt) * 60 + second dt) * 1000000
    + microsecond dt in
  let total := own + total_us td in
  let days := total / US_PER_DAY in
  let in_day := total mod US_PER_DAY in
  let secs := in_day / 1000000 in
  let us := in_day mod 1000000 in
  let h := secs / 3600 in
  let rem := secs mod 3600 in
  if (0 <? days) && (days <=? MAXORDINAL) then
    let '(y, m, d) := ord2ymd days in
    Ok (Datetime y m d h (rem / 60) (rem mod 60) us)
  else Raise OverflowError.

(** The pattern [TimeRE] builds for the format
    [%Y:%m:%d %H:%M:%S]; the blank of the format becomes [\s+]:
<<
    (?P<Y>\d\d\d\d):(?P<m>1[0-2]|0[1-9]|[1-9]):
    (?P<d>3[0-1]|[1-2]\d|0[1-9]|[1-9]| [1-9])\s+
    (?P<H>2[0-3]|[0-1]\d|\d):(?P<M>[0-5]\d|\d):(?P<S>6[0-1]|[0-5]\d|\d)
>> *)
Import Re.

Definition re_Y : regex := Group "Y" (Seq Digit (Seq Digit (Seq Digit Digit))).
Definition re_m : regex :=
  Group "m" (Alt (Seq (Lit "1") (Range "0" "2"))
            (Alt (Seq (Lit "0") (Range "1" "9")) (Range "1" "9"))).
Definition re_d : regex :=
  Group "d" (Alt (Seq (Lit "3") (Range "0" "1"))
            (Alt (Seq (Range "1" "2") Digit)
            (Alt (Seq (Lit "0") (Range "1" "9"))
            (Alt (Range "1" "9") (Seq (Lit " ") (Range "1" "9")))))).
Definition re_H : regex :=
  Group "H" (Alt (Seq (Lit "2") (Range "0" "3"))
            (Alt (Seq (Range "0" "1") Digit) Digit)).
Definition re_M : regex :=
  Group "M" (Alt (Seq (Range "0" "5") Digit) Digit).
Definition re_S : regex :=
  Group "S" (Alt (Seq (Lit "6") (Range "0" "1"))
            (Alt (Seq (Range "0" "5") Digit) Digit)).

Definition format_regex : regex :=
  Seq re_Y (Seq (Lit ":") (Seq re_m (Seq (Lit ":") (Seq re_d (Seq Spaces
  (Seq re_H (Seq (Lit ":") (Seq re_M (Seq (Lit ":") re_S))))))))).

(** [datetime.strptime(data_string, '%Y:%m:%d %H:%M:%S')]. *)
Definition strptime (data_string : string) : result datetime :=
  match re_match format_regex data_string with
  | None => Raise ValueError              (* does not match format *)
  | Some f =>
      if Py.truthy (rest f) then Raise ValueError  (* unconverted data remains *)
      else
        let field name :=
          match Py.int (group (groupdict f) name) with
          | Some v => Ok v
          | None => Raise ValueError
          end in
        (let* y := field "Y" in let* m := field "m" in let* d := field "d" in
         let* h := field "H" in let* mi := field "M" in let* s := field "S" in
         if check_date_fields y m d then make y m d h mi s 0
         else Raise ValueError)%result
  end.

(** [dt.strftime('%Y:%m:%d %H:%M:%S')].  The C library decides how [%Y]
    prints a year below 1000: four digits with leading zeros
    ([pad_year = true]), or the plain number ([pad_year = false]). *)
Definition strftime (pad_year : bool) (dt : datetime) : string :=
  (if pad_year then Py.pad4 (year dt) else Py.str_small (year dt))
  +:+ ":" +:+ Py.pad2 (month dt) +:+ ":" +:+ Py.pad2 (day dt)
  +:+ " " +:+ Py.pad2 (hour dt) +:+ ":" +:+ Py.pad2 (minute dt)
  +:+ ":" +:+ Py.pad2 (second dt).

End Datetime.

(* ===================================================================== *)
(** ** The operating system, the external tool and the trace *)
(* ===================================================================== *)

(** What [subprocess.run] did: the process ran to completion, the
    executable was not found ([FileNotFoundError]), or another exception
    was raised (carrying [str(e)]). *)
Inductive run_outcome : Type :=
| Completed (stdout stderr : string) (returncode : Z)
| NotFound
| Failed (msg : string).

Inductive level : Type := DEBUG | INFO | WARNING | ERROR.

Inductive method : Type := MReadMetadata | MIsWritable | MUpdate.

(** Observable events, in the order they happen.  [EvCall] marks the
    entry of a method of [ExifEditor]; [EvLog] stands for a call of the
    [logging] module, with the text of the message template and the
    values it interpolates; [EvPrint] is a line printed on the standard
    output. *)
Inductive event : Type :=
| EvIsFile (path : string) (r : bool)
| EvAccess (path : string) (r : bool)
| EvRun (command : list string) (o : run_outcome)
| EvCall (m : method) (path : string)
| EvLog (lv : level) (template : string) (args : list string)
| EvPrint (text : string).

(** The environment: the file system as seen through [os.path.isfile]
    and [os.access(path, os.W_OK)], [os.path.basename], the effect of
    running a command line, and the year padding of the C library's
    [strftime]. *)
Class System (W : Type) : Type := {
  isfile : W -> string -> bool;
  access_W_OK : W -> string -> bool;
  basename : string -> string;
  subprocess_run : W -> list string -> W * run_outcome;
  pad_year : bool
}.

Record state (W : Type) : Type := State {
  world : W;
  trace : list event
}.
Arguments State {W} world trace.
Arguments world {W} s.
Arguments trace {W} s.

(** Computations that read and change the world, extend the trace, and
    return a value or raise an exception. *)
Definition M (W A : Type) : Type := state W -> state W * result A.

Definition ret {W A} (a : A) : M W A := fun st => (st, Ok a).

Definition raise {W A} (e : exn) : M W A := fun st => (st, Raise e).

Definition bind {W A B} (m : M W A) (k : A -> M W B) : M W B :=
  fun st =>
    match m st with
    | (st', Ok a) => k a st'
    | (st', Raise e) => (st', Raise e)
    end.

(** [try: m except Exception as e: h e]. *)
Definition try_except {W A} (m : M W A) (h : exn -> M W A) : M W A :=
  fun st =>
    match m st with
    | (st', Ok a) => (st', Ok a)
    | (st', Raise e) => h e st'
    end.

Definition lift {W A} (r : result A) : M W A := fun st => (st, r).

Definition emit {W} (e : event) : M W unit :=
  fun st => (State (world st) (trace st ++ [e]), Ok tt).

Definition log {W} (lv : level) (template : string) (args : list string) : M W unit :=
  emit (EvLog lv template args).

Definition print {W} (text : string) : M W unit := emit (EvPrint text).

Declare Scope io_scope.
Delimit Scope io_scope with io.
Notation "'let*' x ':=' m 'in' k" := (bind m (fun x => k))
  (at level 10, x name, m at level 100, k at level 200) : io_scope.
Notation "'let*' ' p ':=' m 'in' k" := (bind m (fun x => let 'p := x in k))
  (at level 10, p pattern, m at level 100, k at level 200) : io_scope.
Notation "m ';;' k" := (bind m (fun _ => k))
  (at level 100, k at level 200, right associativity) : io_scope.

(* ===================================================================== *)
(** ** [exif_editor.py]: class [ExifEditor] *)
(* ===================================================================== *)

Record ExifEditor : Type := Editor {
  file_path : string;
  _date_time_original : option string;
  _user_comment : option string;
  _writable : option bool;
  _metadata_read : bool
}.

Definition set_writable (e : ExifEditor) (b : bool) : ExifEditor :=
  Editor (file_path e) (_date_time_original e) (_user_comment e) (Some b)
         (_metadata_read e).

Definition EXIFTOOL_COMMAND : string := "exiftool".

(** The argument lists of the three invocations. *)
Definition read_args : list string :=
  ["-s"; "-s"; "-DateTimeOriginal"; "-UserComment"].
Definition probe_args : list string :=
  ["-m"; "-overwrite_original_in_place"; "-UserComment="].
Definition update_args (new_datetime_str new_comment : string) : list string :=
  ["-m"; "-overwrite_original_in_place";
   "-DateTimeOriginal=" +:+ new_datetime_str;
   "-UserComment=" +:+ new_comment].

Definition command_line (e : ExifEditor) (args : list string) : list string :=
  [EXIFTOOL_COMMAND] ++ args ++ [file_path e].

(** Lines 157-159: the annotation written by an update. *)
Definition new_comment (current_comment comment_addition : string) : string :=
  let separator :=
    if Py.truthy current_comment && Py.truthy comment_addition then " " else "" in
  current_comment +:+ separator +:+ comment_addition.

(** The dictionary [metadata] built from the lines of the tool's output. *)
Definition parse_metadata (stdout : string) : gmap string string :=
  fold_left
    (fun (metadata : gmap string string) line =>
       match Py.split_colon_space line with
       | Some (tag, value) => <[Py.strip tag := Py.strip value]> metadata
       | None => metadata
       end)
    (Py.splitlines stdout) ∅.

Definition is_valid_datetime_format (dt_str : string) : bool :=
  match Datetime.strptime dt_str with
  | Ok _ => true
  | Raise ValueError => false
  | Raise _ => false
  end.

Definition parse_datetime (dt_str : string) : result datetime :=
  Datetime.strptime dt_str.

Section Accessor.

Context {W : Type} {sys : System W}.

Local Open Scope io_scope.

Definition format_datetime (dt_obj : datetime) : string :=
  Datetime.strftime pad_year dt_obj.

(** [__init__]. *)
Definition init (path : string) : M W ExifEditor :=
  fun st =>
    let b := isfile (world st) path in
    (emit (EvIsFile path b) ;;
     if b then ret (Editor path None None None false)
     else raise FileNotFoundError) st.

Definition _run_exiftool (e : ExifEditor) (args : list string)
  : M W (string * string * Z) :=
  let command := command_line e args in
  log DEBUG "Running command: {}" command ;;
  fun st =>
    let '(w', o) := subprocess_run (world st) command in
    (emit (EvRun command o) ;;
     match o with
     | Completed stdout stderr returncode =>
         log DEBUG "Exiftool stdout: {}" [stdout] ;;
         log DEBUG "Exiftool stderr: {}" [stderr] ;;
         log DEBUG "Exiftool return code: {}" [pretty returncode] ;;
         ret (Py.strip stdout, Py.strip stderr, returncode)
     | NotFound =>
         log ERROR "'{}' command not found." [EXIFTOOL_COMMAND] ;;
         raise FileNotFoundError
     | Failed msg =>
         log ERROR "Error running exiftool: {}" [msg] ;;
         ret ("", msg, 1)
     end) (State w' (trace st)).

Definition read_metadata (e : ExifEditor) : M W (bool * ExifEditor) :=
  emit (EvCall MReadMetadata (file_path e)) ;;
  if _metadata_read e then ret (true, e)
  else
    let* '(stdout, stderr, return_code) := _run_exiftool e read_args in
    if negb (return_code =? 0) then
      log WARNING "Exiftool could not read metadata for {}. Error: {}"
          [file_path e; stderr] ;;
      ret (false, e)
    else
      let metadata := parse_metadata stdout in
      let e' :=
        Editor (file_path e)
               (metadata !! "DateTimeOriginal")
               (Some (default "" (metadata !! "UserComment")))
               (_writable e) true in
      log DEBUG "Read metadata for {}: DateTimeOriginal='{}', UserComment='{}'"
          [file_path e; default "None" (_date_time_original e');
           default "None" (_user_comment e')] ;;
      ret (true, e').

(** The property [date_time_original]. *)
Definition date_time_original (e : ExifEditor) : M W (option string * ExifEditor) :=
  let* e := (if negb (_metadata_read e)
             then let* '(_, e') := read_metadata e in ret e'
             else ret e) in
  ret (_date_time_original e, e).

(** The property [user_comment]. *)
Definition user_comment (e : ExifEditor) : M W (string * ExifEditor) :=
  let* e := (if negb (_metadata_read e)
             then let* '(_, e') := read_metadata e in ret e'
             else ret e) in
  ret (default "" (_user_comment e), e).

Definition is_writable (e : ExifEditor) : M W (bool * ExifEditor) :=
  emit (EvCall MIsWritable (file_path e)) ;;
  match _writable e with
  | Some b => ret (b, e)
  | None =>
      fun st =>
        let a := access_W_OK (world st) (file_path e) in
        (emit (EvAccess (file_path e) a) ;;
         if negb a then
           log WARNING "File is not writable (OS permissions): {}" [file_path e] ;;
           ret (false, set_writable e false)
         else
           let* '(_, stderr, return_code) := _run_exiftool e probe_args in
           if return_code =? 0 then
             log DEBUG "File appears writable by exiftool: {}" [file_path e] ;;
             ret (true, set_writable e true)
           else
             log WARNING "File may not be supported or writable by exiftool: {}. Error: {}"
                 [file_path e; stderr] ;;
             ret (false, set_writable e false)) st
  end.

Definition update_datetime_and_comment
    (e : ExifEditor) (new_datetime_str comment_addition : string)
  : M W (bool * ExifEditor) :=
  emit (EvCall MUpdate (file_path e)) ;;
  let* '(w, e) := is_writable e in
  if negb w then
    log WARNING "Attempted to write to non-writable file: {}" [file_path e] ;;
    ret (false, e)
  else
    let* '(readable, e) :=
      (if negb (_metadata_read e) then read_metadata e else ret (true, e)) in
    if negb readable then
      log ERROR "Failed to read metadata before writing to {}" [file_path e] ;;
      ret (false, e)
    else
      let* '(current_comment, e) := user_comment e in
      let new_comment := new_comment current_comment comment_addition in
      let args := update_args new_datetime_str new_comment in
      let* '(stdout, stderr, return_code) := _run_exiftool e args in
      if return_code =? 0 then
        log INFO "Successfully updated EXIF for {}" [file_path e] ;;
        ret (true,
             Editor (file_path e) (Some new_datetime_str) (Some new_comment)
                    (_writable e) (_metadata_read e))
      else
        log ERROR "Failed to update EXIF for {}. Error: {} Stdout: {}"
            [file_path e; stderr; stdout] ;;
        ret (false, e).

End Accessor.

(* ===================================================================== *)
(** ** [timestamper.py]: [process_files] *)
(* ===================================================================== *)

(** The local variables of [process_files] that the loop updates. *)
Record counters : Type := Counters {
  processed_count : nat;
  skipped_count : nat;
  error_count : nat;
  file_index : nat
}.

Definition count_processed (advance : bool) (c : counters) : counters :=
  Counters (S (processed_count c)) (skipped_count c) (error_count c)
           (if advance then S (file_index c) else file_index c).

Definition count_skipped (c : counters) : counters :=
  Counters (processed_count c) (S (skipped_count c)) (error_count c) (file_index c).

Definition count_error (c : counters) : counters :=
  Counters (processed_count c) (skipped_count c) (S (error_count c)) (file_index c).

(** Truth value of [editor.date_time_original]: [None] and the empty
    string are false. *)
Definition opt_truthy (o : option string) : bool :=
  match o with Some s => Py.truthy s | None => false end.

Definition fix_comment (fix_id original_dt_str new_datetime_str : string) : string :=
  "AdjustedDateTime_" +:+ fix_id +:+ "[" +:+ original_dt_str +:+ " -> "
  +:+ new_datetime_str +:+ "]".

Definition separator_line : string := "------------------------------".

Section Batch.

Context {W : Type} {sys : System W}.

Local Open Scope io_scope.

(** The body of the [for] loop, lines 107-157.  [interval_delta] is the
    [timedelta] of line 104. *)
Definition process_file
    (n_files : nat) (start_dt : datetime) (interval_delta : timedelta)
    (fix_id : string) (dry_run : bool)
    (c : counters) (index : nat) (path : string) : M W counters :=
  let filename := basename path in
  log INFO "Processing [{}/{}] {}..."
      [pretty (S index); pretty n_files; filename] ;;
  try_except
    (let* editor := init path in
     let* '(readable, editor) := read_metadata editor in
     if negb readable then
       log WARNING "Skipping {}: Could not read initial metadata." [filename] ;;
       ret (count_skipped c)
     else
       let* '(unwritable, editor) :=
         (if negb dry_run
          then let* '(w, editor) := is_writable editor in ret (negb w, editor)
          else ret (false, editor)) in
       if unwritable then
         log WARNING "Skipping {}: File is not writable or not supported by exiftool."
             [filename] ;;
         ret (count_skipped c)
       else
         let* scaled := lift (Datetime.delta_mul interval_delta (Z.of_nat (file_index c))) in
         let* current_dt := lift (Datetime.add start_dt scaled) in
         let new_datetime_str := format_datetime current_dt in
         let* '(d, editor) := date_time_original editor in
         let* '(original_dt_str, editor) :=
           (if opt_truthy d
            then let* '(d', editor) := date_time_original editor in
                 ret (default "None" d', editor)
            else ret ("None", editor)) in
         let fix_comment := fix_comment fix_id original_dt_str new_datetime_str in
         log INFO "  Original DateTime: {}" [original_dt_str] ;;
         log INFO "  Calculated New DateTime: {}" [new_datetime_str] ;;
         log INFO "  Comment to add: {}" [fix_comment] ;;
         if dry_run then
           log INFO "  DRY RUN: Would update {}" [filename] ;;
           ret (count_processed false c)
         else
           let* '(updated, editor) :=
             update_datetime_and_comment editor new_datetime_str fix_comment in
           if updated then
             log INFO "  Successfully updated {}" [filename] ;;
             ret (count_processed true c)
           else
             log ERROR "  Failed to update {}" [filename] ;;
             ret (count_error c))
    (fun ex =>
       match ex with
       | FileNotFoundError =>
           log ERROR "Error processing {}: File not found (should not happen if initial check passed)."
               [filename] ;;
           ret (count_error c)
       | _ =>
           log ERROR "Error processing {}: {}" [filename] ;;
           ret (count_error c)
       end).

(** The [for] loop over [enumerate(files)], from position [index]. *)
Fixpoint process_from
    (n_files : nat) (start_dt : datetime) (interval_delta : timedelta)
    (fix_id : string) (dry_run : bool)
    (c : counters) (index : nat) (files : list string) : M W counters :=
  match files with
  | [] => ret c
  | path :: files' =>
      let* c' := process_file n_files start_dt interval_delta fix_id dry_run
                              c index path in
      process_from n_files start_dt interval_delta fix_id dry_run
                   c' (S index) files'
  end.

(** [process_files]; the result is the value of the counters that the
    summary reports. *)
Definition process_files
    (files : list string) (start_dt : datetime) (interval_delta : timedelta)
    (fix_id : string) (dry_run : bool) : M W counters :=
  let* c := process_from (length files) start_dt interval_delta fix_id dry_run
                         (Counters 0 0 0 0) 0 files in
  print separator_line ;;
  log INFO "Processing Summary:" [] ;;
  log INFO "  Total Files Attempted: {}" [pretty (length files)] ;;
  log INFO "  Successfully Processed{}: {}"
      [if dry_run then " (Dry Run)" else ""; pretty (processed_count c)] ;;
  log INFO "  Skipped (Read Error/Not Writable): {}" [pretty (skipped_count c)] ;;
  log INFO "  Errors: {}" [pretty (error_count c)] ;;
  print separator_line ;;
  ret c.

End Batch.

(** The timestamp text of slot [k]: [start + interval * k], formatted. *)
Definition slot_timestamp {W : Type} {sys : System W}
    (start_dt : datetime) (interval_delta : timedelta) (k : nat) : result string :=
  (let* scaled := Datetime.delta_mul interval_delta (Z.of_nat k) in
   let* current_dt := Datetime.add start_dt scaled in
   Ok (format_datetime current_dt))%result.

(* ===================================================================== *)
(** ** Reading the trace *)
(* ===================================================================== *)

(** The file and the [-DateTimeOriginal=...] and [-UserComment=...]
    arguments of an invocation that has the shape of a combined update
    and returned status 0. *)
Definition committed_args (ev : event) : option (string * string * string) :=
  match ev with
  | EvRun [_; a1; a2; dt_arg; uc_arg; path] (Completed _ _ 0) =>
      if String.eqb a1 "-m" && String.eqb a2 "-overwrite_original_in_place"
      then Some (path, dt_arg, uc_arg) else None
  | _ => None
  end.

(** The successful combined updates of a trace, oldest first. *)
Definition commits (tr : list event) : list (string * string * string) :=
  omap committed_args tr.

(** An invocation with the shape of a combined update. *)
Definition is_update_run (ev : event) : bool :=
  match ev with
  | EvRun [_; a1; a2; _; _; _] _ =>
      String.eqb a1 "-m" && String.eqb a2 "-overwrite_original_in_place"
  | _ => false
  end.

(** An invocation with the shape of the trial write. *)
Definition is_probe_run (ev : event) : bool :=
  match ev with
  | EvRun [_; a1; a2; a3; _] _ =>
      String.eqb a1 "-m" && String.eqb a2 "-overwrite_original_in_place"
      && String.eqb a3 "-UserComment="
  | _ => false
  end.

(** An invocation with the shape of the metadata read. *)
Definition is_read_run (ev : event) : bool :=
  match ev with
  | EvRun [_; a1; a2; a3; a4; _] _ =>
      String.eqb a1 "-s" && String.eqb a2 "-s"
      && String.eqb a3 "-DateTimeOriginal" && String.eqb a4 "-UserComment"
  | _ => false
  end.

(** A read invocation that returned status 0. *)
Definition is_read_pass (ev : event) : bool :=
  match ev with
  | EvRun _ (Completed _ _ 0) => is_read_run ev
  | _ => false
  end.

Definition is_call (m : method) (ev : event) : bool :=
  match ev, m with
  | EvCall MReadMetadata _, MReadMetadata => true
  | EvCall MIsWritable _, MIsWritable => true
  | EvCall MUpdate _, MUpdate => true
  | _, _ => false
  end.

Definition is_access (ev : event) : bool :=
  match ev with EvAccess _ _ => true | _ => false end.

(** The timestamps shown by the log line [Calculated New DateTime]. *)
Definition displayed (ev : event) : option string :=
  match ev with
  | EvLog INFO template [ts] =>
      if String.eqb template "  Calculated New DateTime: {}" then Some ts else None
  | _ => None
  end.

Fixpoint count_where (p : event -> bool) (tr : list event) : nat :=
  match tr with
  | [] => 0
  | ev :: tr' => ((if p ev then 1 else 0) + count_where p tr')%nat
  end.

(** The events of a trace that satisfy [p], oldest first. *)
Fixpoint select (p : event -> bool) (tr : list event) : list event :=
  match tr with
  | [] => []
  | ev :: tr' => if p ev then ev :: select p tr' else select p tr'
  end.

Definition is_run (ev : event) : bool :=
  match ev with EvRun _ _ => true | _ => false end.

(** Events a dry run may produce: no call of the update operation or of
    the writability check, no permission test, no write by the tool. *)
Definition read_only (ev : event) : bool :=
  negb (is_call MUpdate ev || is_call MIsWritable ev || is_access ev
        || is_probe_run ev || is_update_run ev).

(** The tool did not complete with status 0. *)
Definition run_failed (o : run_outcome) : bool :=
  match o with
  | Completed _ _ 0 => false
  | Completed _ _ _ => true
  | NotFound => false
  | Failed _ => true
  end.

(** The operating system denied write permission, or the trial write
    returned a failure status: the file is not writable. *)
Definition shows_unwritable (ev : event) : bool :=
  match ev with
  | EvAccess _ b => negb b
  | EvRun _ o => is_probe_run ev && run_failed o
  | _ => false
  end.

(** Componentwise order on the three statistics. *)
Definition counters_le (c c' : counters) : Prop :=
  (processed_count c <= processed_count c'
   /\ skipped_count c <= skipped_count c'
   /\ error_count c <= error_count c')%nat.

Definition classified (c : counters) : nat :=
  (processed_count c + skipped_count c + error_count c)%nat.

(** The invariant of a real run: the slot counter is the number of
    successful updates so far, each of them carries the timestamp of
    its slot, and each is for one of the files [among]. *)
Definition slots_respected {W : Type} {sys : System W} (start : datetime) (delta : timedelta)
    (among : list string) (c : counters) (tr : list event) : Prop :=
  file_index c = processed_count c
  /\ length (commits tr) = file_index c
  /\ forall k path dt_arg uc_arg,
       commits tr !! k = Some (path, dt_arg, uc_arg) ->
       In path among
       /\ exists ts, slot_timestamp start delta k = Ok ts
                     /\ dt_arg = "-DateTimeOriginal=" +:+ ts.


(* ===================================================================== *)
(** ** A reference environment

    A small file system with a tool that behaves like [exiftool] on the
    three command lines the program issues.  It is used to run the
    program on concrete inputs. *)
(* ===================================================================== *)

Module Sim.

Record file : Type := File {
  os_writable : bool;            (* os.access(path, os.W_OK) *)
  readable : bool;               (* the tool can read the file type *)
  writes_left : nat;             (* writes the tool still completes *)
  DateTimeOriginal : option string;
  UserComment : option string
}.

Record fs : Type := Fs {
  files : gmap string file;
  installed : bool               (* the tool is on the PATH *)
}.

Definition LF : string := String (ascii_of_nat 10) EmptyString.

Definition tag_line (name : string) (v : option string) : list string :=
  match v with
  | Some s => [name +:+ ": " +:+ s]
  | None => []
  end.

Fixpoint unlines (l : list string) : string :=
  match l with
  | [] => ""
  | x :: l' => x +:+ LF +:+ unlines l'
  end.

(** The value written by [-Tag=value]; an empty value deletes the tag. *)
Definition assigned (prefix arg : string) : option string :=
  let v := String.substring (String.length prefix)
                            (String.length arg - String.length prefix) arg in
  if Py.truthy v then Some v else None.

Definition write (w : fs) (path : string) (f : file)
    (dto uc : option string) : fs * run_outcome :=
  match writes_left f with
  | O => (w, Completed "" "Error: file could not be written" 1)
  | S n =>
      (Fs (<[path := File (os_writable f) (readable f) n dto uc]> (files w))
          (installed w),
       Completed "1 image files updated" "" 0)
  end.

Definition exiftool (w : fs) (command : list string) : fs * run_outcome :=
  if negb (installed w) then (w, NotFound)
  else
    match command with
    | _ :: rest =>
        let args := removelast rest in
        let path := List.last rest "" in
        match files w !! path with
        | None => (w, Completed "" "Error: File not found" 1)
        | Some f =>
            if bool_decide (args = read_args) then
              if readable f then
                (w, Completed (unlines (tag_line "DateTimeOriginal" (DateTimeOriginal f)
                                        ++ tag_line "UserComment" (UserComment f)))
                              "" 0)
              else (w, Completed "" "Error: Unknown file type" 1)
            else if bool_decide (args = probe_args) then
              write w path f (DateTimeOriginal f) None
            else
              match args with
              | [_; _; dt_arg; uc_arg] =>
                  write w path f (assigned "-DateTimeOriginal=" dt_arg)
                        (assigned "-UserComment=" uc_arg)
              | _ => (w, Completed "" "Error: unsupported arguments" 1)
              end
        end
    | [] => (w, Failed "empty command")
    end.

#[global] Instance system : System fs := {|
  isfile w p := bool_decide (is_Some (files w !! p));
  access_W_OK w p := default false (os_writable <$> files w !! p);
  basename p := p;
  subprocess_run := exiftool;
  pad_year := true
|}.

(** The same environment on a C library that prints years below 1000
    without leading zeros. *)
Definition system_unpadded : System fs := {|
  isfile w p := bool_decide (is_Some (files w !! p));
  access_W_OK w p := default false (os_writable <$> files w !! p);
  basename p := p;
  subprocess_run := exiftool;
  pad_year := false
|}.

(** A writable photo with the given tags. *)
Definition photo (dto uc : option string) : file := File true true 10 dto uc.

Definition start_state (l : list (string * file)) : state fs :=
  State (Fs (list_to_map l) true) [].

End Sim.

(* ===================================================================== *)
(** ** The program on concrete inputs *)
(* ===================================================================== *)

Module Examples.

Definition start : datetime := Datetime 2023 10 26 10 0 0 0.
Definition thirty_seconds : timedelta := Timedelta 30000000.

(** Three photos; [a.jpg] carries a timestamp and an annotation. *)
Definition three_photos : state Sim.fs :=
  Sim.start_state
    [("a.jpg", Sim.photo (Some "2020:01:01 00:00:00") (Some "prior text"));
     ("b.jpg", Sim.photo None None);
     ("c.jpg", Sim.photo None None)].

(** The same, with [b.jpg] read-only. *)
Definition b_read_only : state Sim.fs :=
  Sim.start_state
    [("a.jpg", Sim.photo (Some "2020:01:01 00:00:00") (Some "prior text"));
     ("b.jpg", Sim.File false true 10 None None);
     ("c.jpg", Sim.photo None None)].

(** One photo on which the tool completes a single write. *)
Definition one_write_left : state Sim.fs :=
  Sim.start_state
    [("a.jpg", Sim.File true true 1 (Some "2020:01:01 00:00:00") (Some "prior text"))].

Definition fresh : ExifEditor := Editor "a.jpg" None None None false.

Definition timestamps (tr : list event) : list string :=
  map (fun x => x.1.2) (commits tr).

End Examples.

(* ===================================================================== *)
(** ** The claims in the words of the specification *)
(* ===================================================================== *)

Module Spec.

(** The join rule of an annotation edit: a single space if both texts
    are non-empty, nothing otherwise. *)
Definition joined (c e : string) : string :=
  match c, e with
  | EmptyString, _ => e
  | _, EmptyString => c
  | _, _ => c +:+ " " +:+ e
  end.

(** The value of two and four decimal digits. *)
Definition num2 (a b : ascii) : Z := 10 * Py.digit_val a + Py.digit_val b.
Definition num4 (a b c d : ascii) : Z :=
  1000 * Py.digit_val a + 100 * Py.digit_val b + num2 c d.

Definition colon : ascii := ":".
Definition blank : ascii := " ".

(** The fields of a text of the exact shape [YYYY:MM:DD HH:MM:SS]:
    nineteen characters, digits zero-padded, no other character. *)
Definition canonical_fields (s : string) : option datetime :=
  match list_ascii_of_string s with
  | [y1; y2; y3; y4; c1; m1; m2; c2; d1; d2; sp; h1; h2; c3; n1; n2; c4; s1; s2] =>
      if forallb Py.is_digit [y1; y2; y3; y4; m1; m2; d1; d2; h1; h2; n1; n2; s1; s2]
         && forallb (Ascii.eqb colon) [c1; c2; c3; c4] && Ascii.eqb blank sp
      then Some (Datetime (num4 y1 y2 y3 y4) (num2 m1 m2) (num2 d1 d2)
                          (num2 h1 h2) (num2 n1 n2) (num2 s1 s2) 0)
      else None
  | _ => None
  end.

(** A canonical timestamp text: the exact shape, naming a valid calendar
    date and time of day. *)
Definition is_canonical (s : string) : bool :=
  match canonical_fields s with
  | Some dt => Datetime.valid dt
  | None => false
  end.

Fixpoint all_space (s : string) : bool :=
  match s with
  | EmptyString => true
  | String c r => Py.is_space c && all_space r
  end.

(** One or two decimal digits. *)
Definition short_number (t : string) : Prop :=
  Py.all_digits t = true /\ (String.length t = 1 \/ String.length t = 2)%nat.

(** The texts [datetime.strptime] accepts for [%Y:%m:%d %H:%M:%S]: a
    four-digit year; month, day, hour, minute and second of one or two
    digits (the day may also be a blank and one digit); colons between
    them and any non-empty run of white space between date and time;
    the numbers naming a valid date and time of day. *)
Definition accepted (s : string) (dt : datetime) : Prop :=
  exists Y m pad d ws H M S,
    s = Y +:+ ":" +:+ m +:+ ":" +:+ pad +:+ d +:+ ws +:+ H +:+ ":" +:+ M +:+ ":" +:+ S
    /\ Py.all_digits Y = true /\ String.length Y = 4%nat
    /\ short_number m
    /\ short_number d /\ (pad = "" \/ pad = " " /\ String.length d = 1%nat)
    /\ ws <> "" /\ all_space ws = true
    /\ short_number H /\ short_number M /\ short_number S
    /\ dt = Datetime (Py.digits_value 0 Y) (Py.digits_value 0 m) (Py.digits_value 0 d)
                     (Py.digits_value 0 H) (Py.digits_value 0 M) (Py.digits_value 0 S) 0
    /\ Datetime.valid dt = true.

End Spec.

(* ===================================================================== *)
(** ** Auxiliary notions for reasoning about the matcher *)
(* ===================================================================== *)

Module ReFacts.
Import Re.

(** Single-character regular expressions and their character class. *)
Definition is_class (r : regex) : bool :=
  match r with Lit _ | Range _ _ | Digit => true | _ => false end.

Definition cls (r : regex) : ascii -> bool :=
  match r with
  | Lit c => Ascii.eqb c
  | Range lo hi => Py.in_range lo hi
  | Digit => Py.is_digit
  | _ => fun _ => false
  end.

(** The matches of two character classes in sequence. *)
Definition two (p q : ascii -> bool) (s : string) : list found :=
  match s with
  | String a (String b r) =>
      if p a && q b then [Found (String a (String b EmptyString)) r []] else []
  | _ => []
  end.

(** A text followed by something that is not a digit. *)
Definition no_digit_ahead (s : string) : Prop :=
  match s with
  | String c _ => Py.is_digit c = false
  | EmptyString => True
  end.

Definition no_space_ahead (s : string) : Prop :=
  match s with
  | String c _ => Py.is_space c = false
  | EmptyString => True
  end.

(** [f] is the match a backtracking engine finds first. *)
Definition starts (l : list found) (f : found) : Prop := exists tl, l = f :: tl.

(** [f] matches a prefix of [s] and captures it under [name]. *)
Definition field_match (name : string) (f : found) (s : string) : Prop :=
  s = consumed f +:+ rest f /\ groupdict f = [(name, consumed f)].

End ReFacts.


(* ===================================================================== *)
(** ** The command line, the directory listing and the entry point *)
(* ===================================================================== *)

(** The microseconds between the start of day 0 of the calendar and a
    [datetime]: the [timedelta] that [datetime.__add__] adds to. *)
Definition elapsed_us (dt : datetime) : Z :=
  Datetime.ymd2ord (year dt) (month dt) (day dt) * Datetime.US_PER_DAY
  + ((hour dt * 60 + minute dt) * 60 + second dt) * 1000000
  + microsecond dt.

(** An invocation that found no executable, and one that failed in
    another way (a status other than 0, or another exception). *)
Definition is_missing_run (ev : event) : bool :=
  match ev with EvRun _ NotFound => true | _ => false end.

Definition is_failed_run (ev : event) : bool :=
  match ev with EvRun _ o => run_failed o | _ => false end.

(** [a < b] on [str]: lexicographic on code points; a proper prefix is
    smaller. *)
Fixpoint str_lt (a b : string) : bool :=
  match a, b with
  | _, EmptyString => false
  | EmptyString, String _ _ => true
  | String x a', String y b' =>
      (Py.code x <? Py.code y)%N || ((Py.code x =? Py.code y)%N && str_lt a' b')
  end.

(** [list.sort]: the sort is stable and compares with [<] only.  For a
    strict weak order every stable sort returns the same list, so the
    algorithm (here: insertion from the right) is immaterial. *)
Section Sort.

Context {A : Type} (lt : A -> A -> bool).

Fixpoint insort (x : A) (l : list A) : list A :=
  match l with
  | [] => [x]
  | y :: l' => if lt y x then y :: insort x l' else x :: l
  end.

Definition list_sort (l : list A) : list A := foldr insort [] l.

End Sort.

(** A list in ascending order: no element is smaller than one before
    it. *)
Fixpoint ascending {A : Type} (lt : A -> A -> bool) (l : list A) : Prop :=
  match l with
  | [] => True
  | x :: l' => Forall (fun y => lt y x = false) l' /\ ascending lt l'
  end.

(** [list.sort(key=...)]: the keys are computed first, one per element;
    the elements are then ordered by [<] on their keys. *)
Definition key_lt {A : Type} (a b : Z * A) : bool := (a.1 <? b.1)%Z.

Definition list_sort_key {A : Type} (keys : list Z) (l : list A) : list A :=
  map snd (list_sort key_lt (zip keys l)).

(** What [timestamper.py] needs from the operating system and from the
    interpreter besides [System]:
    - [listdir w d] is [os.listdir(d)]: the names, or the exception it
      raises ([FileNotFoundError] for a missing directory, [OSError] for
      [NotADirectoryError], [PermissionError] and the like);
    - [path_join] is [os.path.join], which depends on the platform;
    - [getctime] and [getmtime] are [os.path.getctime] and
      [os.path.getmtime]: the time stamp, or the exception they raise
      ([FileNotFoundError] when the file is gone, [OSError] otherwise);
      a time stamp is a finite float, here the number it denotes scaled
      to an integer, which keeps the order;
    - [isdir] is [os.path.isdir];
    - [time_time w] is [int(time.time())];
    - [help_text] is what [parser.print_help()] prints, which depends on
      the program name and the width of the terminal. *)
Class Host (W : Type) : Type := {
  listdir : W -> string -> result (list string);
  path_join : string -> string -> string;
  getctime : W -> string -> result Z;
  getmtime : W -> string -> result Z;
  isdir : W -> string -> bool;
  time_time : W -> Z;
  help_text : string
}.

(** A [float] given on the command line.  The program uses it in two
    ways: it prints it, and it converts it with
    [datetime.timedelta(seconds=...)], which rounds to a microsecond and
    raises [OverflowError] (or [ValueError] for a NaN) when there is no
    such [timedelta]. *)
Record pyfloat : Type := Float {
  float_repr : string;
  to_timedelta : result timedelta
}.

(** The [Namespace] that [parser.parse_args()] returns. *)
Record Namespace : Type := Args {
  directory : string;
  start_time : string;
  interval : pyfloat;
  sort_by : string;
  dry_run : bool;
  verbose : bool
}.

(** How a function that may call [sys.exit] ends. *)
Inductive flow (A : Type) : Type :=
| Return (a : A)
| Exit (status : Z).
Arguments Return {A} a.
Arguments Exit {A} status.

Section Program.

Context {W : Type} {sys : System W} {host : Host W}.

Local Open Scope io_scope.

(** The comprehension of line 77: the names of the directory that are
    regular files, in the order of the listing, joined to the directory. *)
Definition regular_files (w : W) (directory : string) (names : list string)
  : list string :=
  map (path_join directory)
      (List.filter (fun f => isfile w (path_join directory f)) names).

(** The regular files of a directory in the order of its listing, and
    none when the directory cannot be listed. *)
Definition listed (w : W) (directory : string) : list string :=
  match listdir w directory with
  | Ok names => regular_files w directory names
  | Raise _ => []
  end.

(** The keys of [files.sort(key=...)], computed in the order of the
    list: the first exception of the key function leaves the sort. *)
Fixpoint sort_keys (key : string -> result Z) (files : list string)
  : result (list Z) :=
  match files with
  | [] => Ok []
  | f :: files' =>
      (let* k := key f in
       let* keys := sort_keys key files' in
       Ok (k :: keys))%result
  end.

(** The files of time stamp [t]. *)
Definition has_key (key : string -> result Z) (t : Z) (p : string) : bool :=
  match key p with
  | Ok k => (k =? t)%Z
  | Raise _ => false
  end.

(** Lines 88-93. *)
Definition sort_files (w : W) (sort_key : string) (files : list string)
  : result (list string) :=
  if String.eqb sort_key "name" then Ok (list_sort str_lt files)
  else if String.eqb sort_key "created" then
    (let* keys := sort_keys (getctime w) files in
     Ok (list_sort_key keys files))%result
  else if String.eqb sort_key "modified" then
    (let* keys := sort_keys (getmtime w) files in
     Ok (list_sort_key keys files))%result
  else Ok files.

(** [get_sorted_files].  The handler of line 80 covers the listing and
    catches [FileNotFoundError] only; the sort is outside it. *)
Definition get_sorted_files (directory sort_key : string) : M W (list string) :=
  fun st =>
    match listdir (world st) directory with
    | Raise FileNotFoundError =>
        (log ERROR "Error accessing directory: {}" [directory] ;;
         ret []) st
    | Raise ex => raise ex st
    | Ok names =>
        let files := regular_files (world st) directory names in
        (if negb (match files with [] => false | _ => true end) then
           log WARNING "No files found in directory: {}" [directory] ;;
           ret []
         else
           let* files := lift (sort_files (world st) sort_key files) in
           log INFO "Found {} files, sorted by {}." [pretty (length files); sort_key] ;;
           ret files) st
    end.

(** [parse_arguments].  [argc] is [len(sys.argv)]; [parsed] is what
    [parser.parse_args()] does: it returns a [Namespace], or leaves the
    program with a status of its own (2 for a command line it rejects).
    [--verbose] only changes which records the logger displays; the trace
    keeps all of them with their level. *)
Definition parse_arguments (argc : nat) (parsed : Namespace + Z)
  : M W (flow Namespace) :=
  if (argc <? 4)%nat then
    print help_text ;;
    ret (Exit 1)
  else
    match parsed with
    | inr status => ret (Exit status)
    | inl args =>
        if negb (is_valid_datetime_format (start_time args)) then
          log ERROR "Invalid start_time format: '{}'. Expected 'YYYY:MM:DD HH:MM:SS'."
              [start_time args] ;;
          print help_text ;;
          ret (Exit 1)
        else
          fun st =>
            (if negb (isdir (world st) (directory args)) then
               log ERROR "Directory not found: {}" [directory args] ;;
               ret (Exit 1)
             else ret (Return args)) st
    end.

(** [main].  The conversion of the interval is line 104, the first step
    of [process_files] that can raise. *)
Definition main (argc : nat) (parsed : Namespace + Z) : M W (flow unit) :=
  print "+-----------------------------+" ;;
  print "|         Timestamper         |" ;;
  print "+-----------------------------+" ;;
  let* a := parse_arguments argc parsed in
  match a with
  | Exit status => ret (Exit status)
  | Return args =>
      fun st =>
        let fix_id := pretty (time_time (world st)) in
        (log INFO "Starting run with Fix ID: {}" [fix_id] ;;
         log INFO "Target Directory: {}" [directory args] ;;
         log INFO "Start Time: {}" [start_time args] ;;
         log INFO "Interval: {} seconds" [float_repr (interval args)] ;;
         log INFO "Sort By: {}" [sort_by args] ;;
         (if dry_run args then
            log WARNING "--- DRY RUN MODE ENABLED: No files will be modified. ---" []
          else ret tt) ;;
         match parse_datetime (start_time args) with
         | Raise ValueError =>
             log ERROR "Error parsing start_time '{}': {}" [start_time args] ;;
             ret (Exit 1)
         | Raise ex => raise ex
         | Ok start_datetime_obj =>
             let* files_to_process :=
               get_sorted_files (directory args) (sort_by args) in
             if negb (match files_to_process with [] => false | _ => true end) then
               log INFO "No files to process. Exiting." [] ;;
               ret (Exit 0)
             else
               print separator_line ;;
               let* interval_delta := lift (to_timedelta (interval args)) in
               let* _ := process_files files_to_process start_datetime_obj
                                       interval_delta fix_id (dry_run args) in
               (if dry_run args then print "--- DRY RUN COMPLETE ---"
                else
                  print "+----------------------+" ;;
                  print "| ✨ Adjustment Done ✨ |" ;;
                  print "+----------------------+") ;;
               ret (Return tt)
         end) st
  end.

End Program.

(** A host for the simulated file system: one directory [shots] with a
    fixed listing, a directory [locked] that may not be listed, POSIX
    paths, and given time stamps. *)
Module SimHost.

Definition host (names : list string) (ctime mtime : string -> result Z) (now : Z)
  : Host Sim.fs := {|
  listdir w d :=
    if String.eqb d "shots" then Ok names
    else if String.eqb d "locked" then Raise OSError
    else Raise FileNotFoundError;
  path_join d f := d +:+ "/" +:+ f;
  getctime w p := ctime p;
  getmtime w p := mtime p;
  isdir w d := String.eqb d "shots" || String.eqb d "locked";
  time_time w := now;
  help_text := "usage: timestamper.py [-h] directory start_time interval"
|}.

(** Three photos in [shots], listed out of order, and a subdirectory. *)
Definition listing : list string := ["c.jpg"; "a.jpg"; "sub"; "b.jpg"].

Definition shots : state Sim.fs :=
  Sim.start_state
    [("shots/a.jpg", Sim.photo (Some "2020:01:01 00:00:00") (Some "prior text"));
     ("shots/b.jpg", Sim.photo None None);
     ("shots/c.jpg", Sim.photo None None)].

Definition by_letter (p : string) : result Z :=
  if String.eqb p "shots/a.jpg" then Ok 30%Z
  else if String.eqb p "shots/b.jpg" then Ok 10%Z
  else if String.eqb p "shots/c.jpg" then Ok 10%Z
  else Raise FileNotFoundError.

#[global] Instance here : Host Sim.fs := host listing by_letter by_letter 1700000000.

Definition namespace (dry : bool) : Namespace :=
  Args "shots" "2023:10:26 10:00:00" (Float "30.0" (Ok (Timedelta 30000000)))
       "name" dry false.

End SimHost.

(** Further inputs: a file the tool cannot read, a system without the
    tool, the last second of the calendar, and the accessor of [a.jpg]
    after a read. *)
Module Cases.

Definition unreadable : state Sim.fs :=
  Sim.start_state [("a.jpg", Sim.File true false 10 None None)].

Definition no_tool : state Sim.fs :=
  State (Sim.Fs (Sim.files (world Examples.three_photos)) false) [].

Definition last_moment : datetime := Datetime 9999 12 31 23 59 59 0.

Definition cached : ExifEditor :=
  Editor "a.jpg" (Some "2020:01:01 00:00:00") (Some "prior text") None true.

End Cases.
(* ===================================================================== *)
(** ** Characters and strings *)
(* ===================================================================== *)

Lemma code_inj (a b : ascii) : Py.code a = Py.code b -> a = b.
Proof.
  unfold Py.code. intros H.
  rewrite <- (ascii_N_embedding a), <- (ascii_N_embedding b). by rewrite H.
Qed.

Lemma code_bound (a : ascii) : (Py.code a < 256)%N.
Proof. apply N_ascii_bounded. Qed.

Lemma ascii_eqb_code (a b : ascii) : Ascii.eqb a b = (Py.code a =? Py.code b)%N.
Proof.
  destruct (Ascii.eqb_spec a b) as [->|Hne].
  - by rewrite N.eqb_refl.
  - symmetry. apply N.eqb_neq. intros H. by apply Hne, code_inj.
Qed.

(** Turns the character tests in the context and the goal into linear
    facts about character codes. *)
Ltac char_facts :=
  unfold Py.is_digit, Py.in_range, Py.is_space, Py.is_linebreak in *;
  rewrite ?ascii_eqb_code in *;
  cbn [Py.code N_of_ascii N_of_digits] in *;
  repeat match goal with
  | H : _ && _ = true |- _ => apply andb_true_iff in H; destruct H
  | H : _ || _ = false |- _ => apply orb_false_iff in H; destruct H
  | H : (_ <=? _)%N = true |- _ => apply N.leb_le in H
  | H : (_ <=? _)%N = false |- _ => apply N.leb_gt in H
  | H : (_ =? _)%N = true |- _ => apply N.eqb_eq in H
  | H : (_ =? _)%N = false |- _ => apply N.eqb_neq in H
  | H : _ && _ = false |- _ => apply andb_false_iff in H; destruct H
  | H : _ || _ = true |- _ => apply orb_true_iff in H; destruct H
  end.

Lemma digit_not_space (c : ascii) : Py.is_digit c = true -> Py.is_space c = false.
Proof.
  intros H. destruct (Py.is_space c) eqn:E; [|done].
  char_facts; lia.
Qed.

Lemma colon_not_digit : Py.is_digit ":" = false.
Proof. reflexivity. Qed.

Lemma space_not_digit (c : ascii) : Py.is_space c = true -> Py.is_digit c = false.
Proof.
  intros H. destruct (Py.is_digit c) eqn:E; [|done].
  by rewrite (digit_not_space c E) in H.
Qed.

Lemma digit_val_range (c : ascii) :
  Py.is_digit c = true -> 0 <= Py.digit_val c <= 9.
Proof. intros H. unfold Py.digit_val. char_facts. lia. Qed.

Lemma digit_char_val (c : ascii) (q : Z) :
  Py.is_digit c = true -> Py.digit_char (10 * q + Py.digit_val c) = c.
Proof.
  intros H. pose proof (digit_val_range c H) as Hr.
  unfold Py.digit_char.
  replace ((10 * q + Py.digit_val c) mod 10) with (Py.digit_val c)
    by (rewrite Z.add_comm, Z.mul_comm, Z.mod_add by lia;
        symmetry; apply Z.mod_small; lia).
  unfold Py.digit_val in *.
  replace (Z.to_N (48 + (Z.of_N (Py.code c) - 48))) with (Py.code c) by lia.
  apply ascii_N_embedding.
Qed.

Lemma digit_char_digit (c : ascii) :
  Py.is_digit c = true -> Py.digit_char (Py.digit_val c) = c.
Proof.
  intros H. pose proof (digit_char_val c 0 H) as E.
  by rewrite Z.mul_0_r, Z.add_0_l in E.
Qed.

Lemma pad2_num2 (a b : ascii) :
  Py.is_digit a = true -> Py.is_digit b = true ->
  Py.pad2 (Spec.num2 a b) = String a (String b EmptyString).
Proof.
  intros Ha Hb. unfold Py.pad2, Spec.num2.
  pose proof (digit_val_range a Ha). pose proof (digit_val_range b Hb).
  rewrite (digit_char_val b _ Hb).
  assert ((10 * Py.digit_val a + Py.digit_val b) / 10 = Py.digit_val a) as ->
    by (symmetry; apply Z.div_unique with (r := Py.digit_val b); lia).
  by rewrite (digit_char_digit a Ha).
Qed.

Lemma pad4_num4 (a b c d : ascii) :
  Py.is_digit a = true -> Py.is_digit b = true ->
  Py.is_digit c = true -> Py.is_digit d = true ->
  Py.pad4 (Spec.num4 a b c d) = String a (String b (String c (String d EmptyString))).
Proof.
  intros Ha Hb Hc Hd. unfold Py.pad4, Py.pad2, Spec.num4, Spec.num2.
  pose proof (digit_val_range a Ha). pose proof (digit_val_range b Hb).
  pose proof (digit_val_range c Hc). pose proof (digit_val_range d Hd).
  assert ((1000 * Py.digit_val a + 100 * Py.digit_val b
           + (10 * Py.digit_val c + Py.digit_val d)) / 1000 = Py.digit_val a) as ->
    by (symmetry; apply Z.div_unique
          with (r := 100 * Py.digit_val b + (10 * Py.digit_val c + Py.digit_val d)); lia).
  assert ((1000 * Py.digit_val a + 100 * Py.digit_val b
           + (10 * Py.digit_val c + Py.digit_val d)) / 100
          = 10 * Py.digit_val a + Py.digit_val b) as ->
    by (symmetry; apply Z.div_unique
          with (r := 10 * Py.digit_val c + Py.digit_val d); lia).
  assert ((1000 * Py.digit_val a + 100 * Py.digit_val b
           + (10 * Py.digit_val c + Py.digit_val d)) / 10
          = 10 * (10 * Py.digit_val a + Py.digit_val b) + Py.digit_val c) as ->
    by (symmetry; apply Z.div_unique with (r := Py.digit_val d); lia).
  replace (1000 * Py.digit_val a + 100 * Py.digit_val b
           + (10 * Py.digit_val c + Py.digit_val d))
    with (10 * (10 * (10 * Py.digit_val a + Py.digit_val b) + Py.digit_val c)
          + Py.digit_val d) by lia.
  by rewrite !digit_char_val, digit_char_digit.
Qed.

Lemma str_small_pad4 (n : Z) : 1000 <= n -> Py.str_small n = Py.pad4 n.
Proof.
  intros H. unfold Py.str_small.
  destruct (Z.ltb_spec n 10); [lia|].
  destruct (Z.ltb_spec n 100); [lia|].
  destruct (Z.ltb_spec n 1000); [lia|]. done.
Qed.

Lemma string_app_cons (x : ascii) (s t : string) :
  String x s +:+ t = String x (s +:+ t).
Proof. reflexivity. Qed.

Lemma string_app_empty_l (t : string) : "" +:+ t = t.
Proof. reflexivity. Qed.

Lemma string_app_empty_r (s : string) : s +:+ "" = s.
Proof. induction s as [|x s IH]; [done|]. by rewrite string_app_cons, IH. Qed.

Lemma string_app_assoc (s t u : string) : (s +:+ t) +:+ u = s +:+ t +:+ u.
Proof.
  induction s as [|x s IH]; [done|]. by rewrite !string_app_cons, IH.
Qed.

Create Rewrite HintDb strs.
#[export] Hint Rewrite string_app_cons string_app_empty_l string_app_empty_r : strs.

(** The join of lines 157-159 is the join rule of the specification. *)
Lemma new_comment_joined (c e : string) : new_comment c e = Spec.joined c e.
Proof.
  unfold new_comment, Spec.joined.
  destruct c as [|a c]; [done|].
  destruct e as [|b e]; [|done].
  cbn [Py.truthy andb]. by rewrite !string_app_empty_r.
Qed.

(* ===================================================================== *)
(** ** The matcher on the fields of the timestamp pattern *)
(* ===================================================================== *)

Section RegexFacts.

Import Re ReFacts Datetime.

Lemma run_class r s : is_class r = true -> run r s = one_char (cls r) s.
Proof. by destruct r. Qed.

Lemma run_two r1 r2 s :
  is_class r1 = true -> is_class r2 = true ->
  run (Seq r1 r2) s = two (cls r1) (cls r2) s.
Proof.
  intros H1 H2. cbn [run]. rewrite (run_class r1 s H1).
  destruct s as [|a [|b r]]; cbn [one_char two]; [reflexivity| |].
  - destruct (cls r1 a); cbn; [|reflexivity].
    by rewrite (run_class r2 _ H2).
  - destruct (cls r1 a); cbn; [|reflexivity].
    rewrite (run_class r2 _ H2). cbn [one_char].
    destruct (cls r2 b); reflexivity.
Qed.

Lemma run_alt r1 r2 s : run (Alt r1 r2) s = run r1 s ++ run r2 s.
Proof. reflexivity. Qed.

Lemma run_group n r s : run (Group n r) s = map (capture n) (run r s).
Proof. reflexivity. Qed.

Lemma run_seq r1 r2 s :
  run (Seq r1 r2) s = flat_map (fun f1 => map (join f1) (run r2 (rest f1))) (run r1 s).
Proof. reflexivity. Qed.

(** Unfolds a field pattern into tests on the first two characters. *)
Ltac field_run :=
  rewrite run_group; rewrite ?run_alt;
  rewrite ?run_two by reflexivity; rewrite ?run_class by reflexivity;
  cbn [cls].


Lemma starts_seq r1 r2 s f1 f2 :
  starts (run r1 s) f1 -> starts (run r2 (rest f1)) f2 ->
  starts (run (Seq r1 r2) s) (join f1 f2).
Proof.
  intros [t1 E1] [t2 E2]. rewrite run_seq, E1. cbn [flat_map]. rewrite E2.
  cbn [map app]. by eexists.
Qed.

Lemma in_run_seq r1 r2 s f :
  In f (run (Seq r1 r2) s) ->
  exists f1 f2, In f1 (run r1 s) /\ In f2 (run r2 (rest f1)) /\ f = join f1 f2.
Proof.
  rewrite run_seq. intros H. apply in_flat_map in H as (f1 & H1 & H).
  apply in_map_iff in H as (f2 & <- & H2). eauto.
Qed.

Lemma starts_lit c r :
  starts (run (Lit c) (String c r)) (Found (String c "") r []).
Proof. cbn [run one_char]. rewrite Ascii.eqb_refl. by eexists. Qed.

Lemma in_run_lit c s f :
  In f (run (Lit c) s) -> s = String c (rest f) /\ f = Found (String c "") (rest f) [].
Proof.
  cbn [run]. destruct s as [|a r]; cbn [one_char]; [done|].
  destruct (Ascii.eqb_spec c a) as [->|]; [|done].
  intros [<-|[]]. done.
Qed.

(** Decides the tests on characters left by [field_run]: each branch
    either yields the expected first match or contradicts the
    hypotheses on the characters. *)
Ltac settle_tests :=
  repeat match goal with
  | |- context [if ?b then _ else _] => destruct b eqn:?
  end;
  cbn [map app capture consumed rest groupdict];
  first [ solve [eexists; reflexivity]
        | exfalso; try done; unfold Py.digit_val in *; char_facts; lia ].

Ltac short_cases t Hl :=
  destruct t as [|?a [|?b [|? ?]]]; cbn in Hl; try lia; clear Hl.

Ltac first_field :=
  match goal with
  | Hd : Py.all_digits _ = true, Hn : no_digit_ahead ?rest |- _ =>
      field_run; autorewrite with strs; cbn in Hd;
      destruct rest as [|?c ?r]; cbn [two one_char no_digit_ahead] in *;
      settle_tests
  end.

Lemma first_m t rest :
  Spec.short_number t -> 1 <= Py.digits_value 0 t <= 12 -> no_digit_ahead rest ->
  starts (run re_m (t +:+ rest)) (Found t rest [("m", t)]).
Proof.
  intros [Hd [Hl|Hl]] Hv Hn; unfold re_m; short_cases t Hl; cbn in Hv; first_field.
Qed.

Lemma first_H t rest :
  Spec.short_number t -> 0 <= Py.digits_value 0 t <= 23 -> no_digit_ahead rest ->
  starts (run re_H (t +:+ rest)) (Found t rest [("H", t)]).
Proof.
  intros [Hd [Hl|Hl]] Hv Hn; unfold re_H; short_cases t Hl; cbn in Hv; first_field.
Qed.

Lemma first_M t rest :
  Spec.short_number t -> 0 <= Py.digits_value 0 t <= 59 -> no_digit_ahead rest ->
  starts (run re_M (t +:+ rest)) (Found t rest [("M", t)]).
Proof.
  intros [Hd [Hl|Hl]] Hv Hn; unfold re_M; short_cases t Hl; cbn in Hv; first_field.
Qed.

Lemma first_S t rest :
  Spec.short_number t -> 0 <= Py.digits_value 0 t <= 59 -> no_digit_ahead rest ->
  starts (run re_S (t +:+ rest)) (Found t rest [("S", t)]).
Proof.
  intros [Hd [Hl|Hl]] Hv Hn; unfold re_S; short_cases t Hl; cbn in Hv; first_field.
Qed.

Lemma first_d t rest :
  Spec.short_number t -> 1 <= Py.digits_value 0 t <= 31 -> no_digit_ahead rest ->
  starts (run re_d (t +:+ rest)) (Found t rest [("d", t)]).
Proof.
  intros [Hd [Hl|Hl]] Hv Hn; unfold re_d; short_cases t Hl; cbn in Hv; first_field.
Qed.

Lemma first_d_blank a rest :
  Py.is_digit a = true -> 1 <= Py.digit_val a ->
  starts (run re_d (String " " (String a rest)))
         (Found (String " " (String a "")) rest [("d", String " " (String a ""))]).
Proof.
  intros Hd Hv. unfold re_d. field_run. cbn [two one_char]. settle_tests.
Qed.

Lemma first_Y t rest :
  Py.all_digits t = true -> String.length t = 4%nat ->
  starts (run re_Y (t +:+ rest)) (Found t rest [("Y", t)]).
Proof.
  intros Hd Hl.
  destruct t as [|a [|b [|c [|d [|? ?]]]]]; try done. clear Hl.
  cbn in Hd. repeat (apply andb_true_iff in Hd as [? Hd]).
  autorewrite with strs. unfold re_Y.
  cbn [run one_char flat_map map app].
  repeat (match goal with
          | H : Py.is_digit ?x = true |- context [Py.is_digit ?x] => rewrite H
          end;
          cbn [one_char flat_map map app join capture consumed Re.rest groupdict]).
  autorewrite with strs. by eexists.
Qed.

Lemma first_spaces_star ws rest :
  Spec.all_space ws = true -> no_space_ahead rest ->
  starts (spaces_star (ws +:+ rest)) (Found ws rest []).
Proof.
  intros Hs Hn. induction ws as [|c ws IH]; autorewrite with strs.
  - destruct rest as [|c r]; cbn in *; [by eexists|]. rewrite Hn. by eexists.
  - cbn in Hs. apply andb_true_iff in Hs as [Hc Hs].
    cbn [spaces_star]. rewrite Hc. destruct (IH Hs) as [tl ->].
    cbn [map app push consumed Re.rest groupdict]. by eexists.
Qed.

Lemma first_spaces ws rest :
  ws <> "" -> Spec.all_space ws = true -> no_space_ahead rest ->
  starts (run Spaces (ws +:+ rest)) (Found ws rest []).
Proof.
  intros Hne Hs Hn. destruct ws as [|c ws]; [done|].
  cbn in Hs. apply andb_true_iff in Hs as [Hc Hs].
  autorewrite with strs. cbn [run spaces_plus]. rewrite Hc.
  destruct (first_spaces_star ws rest Hs Hn) as [tl ->].
  cbn [map push consumed Re.rest groupdict]. by eexists.
Qed.

Ltac in_cases H :=
  repeat match type of H with
  | context [if ?b then _ else _] => destruct b eqn:?
  end;
  cbn [map app capture consumed rest groupdict In] in H;
  repeat match type of H with
  | _ \/ _ => destruct H as [H|H]
  end;
  try done; subst.

Lemma is_digit_intro (c : ascii) :
  (48 <= Py.code c)%N -> (Py.code c <= 57)%N -> Py.is_digit c = true.
Proof.
  intros H1 H2. unfold Py.is_digit.
  apply andb_true_iff. split; by apply N.leb_le.
Qed.

Ltac digit_goal :=
  cbn [Py.all_digits consumed capture];
  rewrite ?andb_true_iff; repeat split;
  apply is_digit_intro; char_facts; lia.

Ltac short_goal :=
  split; [digit_goal | cbn; lia].

Ltac in_field :=
  match goal with
  | |- In _ _ -> _ =>
      field_run; intros H;
      match type of H with
      | context [two _ _ ?s] =>
          destruct s as [|?a [|?b ?r]]; cbn [two one_char] in H; in_cases H
      end
  end.

Lemma in_m f s :
  In f (run re_m s) -> field_match "m" f s /\ Spec.short_number (consumed f).
Proof. unfold re_m. in_field; (split; [by split | short_goal]). Qed.

Lemma in_H f s :
  In f (run re_H s) -> field_match "H" f s /\ Spec.short_number (consumed f).
Proof. unfold re_H. in_field; (split; [by split | short_goal]). Qed.

Lemma in_M f s :
  In f (run re_M s) -> field_match "M" f s /\ Spec.short_number (consumed f).
Proof. unfold re_M. in_field; (split; [by split | short_goal]). Qed.

Lemma in_S f s :
  In f (run re_S s) -> field_match "S" f s /\ Spec.short_number (consumed f).
Proof. unfold re_S. in_field; (split; [by split | short_goal]). Qed.

Lemma in_d f s :
  In f (run re_d s) ->
  field_match "d" f s /\
  exists pad d, consumed f = pad +:+ d /\ Spec.short_number d
                /\ (pad = "" \/ pad = " " /\ String.length d = 1%nat).
Proof.
  unfold re_d. in_field; (split; [by split|]).
  all: first
    [ eexists "", _; split; [reflexivity|]; split; [short_goal | by left]
    | match goal with
      | H : (Ascii.eqb " " ?a) && _ = true |- _ =>
          let E := fresh in
          apply andb_true_iff in H as [E H]; apply Ascii.eqb_eq in E; subst a
      end;
      eexists " ", _; split; [reflexivity|]; split; [short_goal | by right] ].
Qed.

Lemma in_Y f s :
  In f (run re_Y s) ->
  field_match "Y" f s /\ Py.all_digits (consumed f) = true
  /\ String.length (consumed f) = 4%nat.
Proof.
  unfold re_Y. rewrite run_group. intros H.
  apply in_map_iff in H as (f0 & <- & H).
  apply in_run_seq in H as (f1 & f2 & H1 & H & ->).
  apply in_run_seq in H as (f3 & f4 & H3 & H & ->).
  rewrite run_two in H by done. rewrite run_class in H1, H3 by done.
  destruct s as [|a s]; cbn [one_char cls] in H1; [done|].
  destruct (Py.is_digit a) eqn:Ha; [|done]. destruct H1 as [<-|[]].
  cbn [rest] in H3.
  destruct s as [|b s]; cbn [one_char cls] in H3; [done|].
  destruct (Py.is_digit b) eqn:Hb; [|done]. destruct H3 as [<-|[]].
  cbn [rest] in H.
  destruct s as [|c [|d s]]; cbn [two cls] in H; try done.
  destruct (Py.is_digit c) eqn:Hc; [|done].
  destruct (Py.is_digit d) eqn:Hd; [|done].
  destruct H as [<-|[]].
  cbn [capture join consumed rest groupdict field_match].
  autorewrite with strs. cbn [Py.all_digits String.length].
  rewrite Ha, Hb, Hc, Hd. by repeat split.
Qed.

Lemma in_spaces_star f s :
  In f (spaces_star s) ->
  s = consumed f +:+ rest f /\ groupdict f = [] /\ Spec.all_space (consumed f) = true.
Proof.
  revert f. induction s as [|c s IH]; intros f H.
  - destruct H as [<-|[]]. done.
  - cbn [spaces_star] in H. destruct (Py.is_space c) eqn:Hc.
    + apply in_app_iff in H as [H|[<-|[]]]; [|done].
      apply in_map_iff in H as (f0 & <- & H0).
      destruct (IH _ H0) as (E & G & A).
      cbn. rewrite Hc, A, G. rewrite string_app_cons, <- E. done.
    + destruct H as [<-|[]]. done.
Qed.

Lemma in_spaces f s :
  In f (run Spaces s) ->
  s = consumed f +:+ rest f /\ groupdict f = []
  /\ consumed f <> "" /\ Spec.all_space (consumed f) = true.
Proof.
  cbn [run]. destruct s as [|c s]; cbn [spaces_plus]; [done|].
  destruct (Py.is_space c) eqn:Hc; [|done].
  intros H. apply in_map_iff in H as (f0 & <- & H0).
  destruct (in_spaces_star _ _ H0) as (E & G & A).
  cbn. rewrite Hc, A, G. rewrite string_app_cons, <- E. done.
Qed.

End RegexFacts.

(* ===================================================================== *)
(** ** [strptime] accepts exactly the texts of [Spec.accepted] *)
(* ===================================================================== *)

Section StrptimeFacts.
Import Re ReFacts Datetime.

Lemma rstrip_digits t : Py.all_digits t = true -> Py.rstrip t = t.
Proof.
  induction t as [|c t IH]; [done|]. cbn [Py.all_digits Py.rstrip].
  intros [Hc Ht]%andb_true_iff. rewrite (IH Ht).
  destruct t; [|done]. by rewrite (digit_not_space c Hc).
Qed.

Lemma int_digits t :
  Py.all_digits t = true -> t <> "" -> Py.int t = Some (Py.digits_value 0 t).
Proof.
  intros Hd Hne. unfold Py.int, Py.strip.
  destruct t as [|c t]; [done|].
  pose proof Hd as Hd'. cbn [Py.all_digits] in Hd'.
  apply andb_true_iff in Hd' as [Hc _].
  cbn [Py.lstrip]. rewrite (digit_not_space c Hc), (rstrip_digits _ Hd), Hd. done.
Qed.

Lemma int_blank_digits t :
  Py.all_digits t = true -> t <> "" ->
  Py.int (" " +:+ t) = Some (Py.digits_value 0 t).
Proof.
  intros Hd Hne. rewrite <- (int_digits t Hd Hne).
  unfold Py.int, Py.strip. by autorewrite with strs.
Qed.

Lemma short_nonempty t : Spec.short_number t -> t <> "".
Proof. intros [_ [H|H]] ->; done. Qed.

Lemma short_no_digit_ahead_colon r : no_digit_ahead (":" +:+ r).
Proof. done. Qed.

Lemma spaces_no_digit_ahead ws r :
  ws <> "" -> Spec.all_space ws = true -> no_digit_ahead (ws +:+ r).
Proof.
  destruct ws as [|c ws]; [done|]. intros _ [Hc _]%andb_true_iff.
  by apply space_not_digit.
Qed.

Lemma digits_no_space_ahead t r :
  t <> "" -> Py.all_digits t = true -> no_space_ahead (t +:+ r).
Proof.
  destruct t as [|c t]; [done|]. intros _ [Hc _]%andb_true_iff.
  by apply digit_not_space.
Qed.

Lemma valid_fields dt :
  valid dt = true ->
  check_date_fields (year dt) (month dt) (day dt) = true
  /\ check_time_fields (hour dt) (minute dt) (second dt) (microsecond dt) = true.
Proof. unfold valid. by intros [? ?]%andb_true_iff. Qed.

Lemma date_fields_range y m d :
  check_date_fields y m d = true -> 1 <= y <= 9999 /\ 1 <= m <= 12 /\ 1 <= d <= 31.
Proof.
  unfold check_date_fields, MINYEAR, MAXYEAR. intros H.
  repeat (apply andb_true_iff in H as [H ?]).
  repeat match goal with H : (_ <=? _) = true |- _ => apply Z.leb_le in H end.
  assert (days_in_month y m <= 31); [|lia].
  unfold days_in_month. destruct (_ && _); [lia|].
  assert (m = 1 \/ m = 2 \/ m = 3 \/ m = 4 \/ m = 5 \/ m = 6 \/ m = 7 \/ m = 8
          \/ m = 9 \/ m = 10 \/ m = 11 \/ m = 12) as Hm by lia.
  repeat destruct Hm as [->|Hm]; try subst m; vm_compute; discriminate.
Qed.

Lemma time_fields_range h mi s us :
  check_time_fields h mi s us = true ->
  0 <= h <= 23 /\ 0 <= mi <= 59 /\ 0 <= s <= 59 /\ 0 <= us <= 999999.
Proof.
  unfold check_time_fields. intros H.
  repeat (apply andb_true_iff in H as [H ?]).
  repeat match goal with H : (_ <=? _) = true |- _ => apply Z.leb_le in H end.
  lia.
Qed.

Lemma starts_seq_to r1 r2 s f1 f2 f :
  starts (run r1 s) f1 -> starts (run r2 (rest f1)) f2 -> f = join f1 f2 ->
  starts (run (Seq r1 r2) s) f.
Proof. intros H1 H2 ->. by apply starts_seq. Qed.

(** The first match of the whole pattern on an accepted text. *)
Lemma first_format Y m pad d ws H M S :
  Py.all_digits Y = true -> String.length Y = 4%nat ->
  Spec.short_number m -> 1 <= Py.digits_value 0 m <= 12 ->
  Spec.short_number d -> 1 <= Py.digits_value 0 d <= 31 ->
  (pad = "" \/ pad = " " /\ String.length d = 1%nat) ->
  ws <> "" -> Spec.all_space ws = true ->
  Spec.short_number H -> 0 <= Py.digits_value 0 H <= 23 ->
  Spec.short_number M -> 0 <= Py.digits_value 0 M <= 59 ->
  Spec.short_number S -> 0 <= Py.digits_value 0 S <= 59 ->
  starts (run format_regex
            (Y +:+ ":" +:+ m +:+ ":" +:+ pad +:+ d +:+ ws +:+ H +:+ ":" +:+ M +:+ ":" +:+ S))
         (Found (Y +:+ ":" +:+ m +:+ ":" +:+ pad +:+ d +:+ ws +:+ H +:+ ":" +:+ M +:+ ":" +:+ S)
                ""
                [("Y", Y); ("m", m); ("d", pad +:+ d); ("H", H); ("M", M); ("S", S)]).
Proof.
  intros HY HYl Hm Hmv Hd Hdv Hpad Hws Hsp HH HHv HM HMv HS HSv.
  assert (Hd' : starts (run re_d (pad +:+ d +:+ ws +:+ H +:+ ":" +:+ M +:+ ":" +:+ S))
                 (Found (pad +:+ d) (ws +:+ H +:+ ":" +:+ M +:+ ":" +:+ S)
                        [("d", pad +:+ d)])).
  { destruct Hpad as [->|[-> Hl]].
    - autorewrite with strs. apply first_d; [done..|].
      by apply spaces_no_digit_ahead.
    - destruct Hd as [Hd _]. destruct d as [|a [|? ?]]; try done.
      cbn in Hd, Hdv. apply andb_true_iff in Hd as [Ha _].
      autorewrite with strs. apply first_d_blank; [done|lia]. }
  unfold format_regex.
  eapply starts_seq_to; [by apply first_Y| |].
  { cbn [rest]. autorewrite with strs.
    eapply starts_seq; [apply starts_lit|]. cbn [rest].
    eapply starts_seq; [by apply first_m|]. cbn [rest]. autorewrite with strs.
    eapply starts_seq; [apply starts_lit|]. cbn [rest].
    eapply starts_seq; [apply Hd'|]. cbn [rest].
    eapply starts_seq.
    { apply first_spaces; [done..|].
      apply digits_no_space_ahead; [by apply short_nonempty|by destruct HH]. }
    cbn [rest].
    eapply starts_seq; [by apply first_H|]. cbn [rest]. autorewrite with strs.
    eapply starts_seq; [apply starts_lit|]. cbn [rest].
    eapply starts_seq; [by apply first_M|]. cbn [rest]. autorewrite with strs.
    eapply starts_seq; [apply starts_lit|]. cbn [rest].
    rewrite <- (string_app_empty_r S) at 1. by apply first_S. }
  unfold join. cbn [consumed rest groupdict app].
  autorewrite with strs. by rewrite !string_app_assoc.
Qed.

Lemma int_short t : Spec.short_number t -> Py.int t = Some (Py.digits_value 0 t).
Proof. intros Ht. apply int_digits; [by destruct Ht|by apply short_nonempty]. Qed.

Lemma strptime_complete s dt : Spec.accepted s dt -> strptime s = Ok dt.
Proof.
  intros (Y & m & pad & d & ws & H & M & S & -> & HY & HYl & Hm & Hd & Hpad
          & Hws & Hsp & HH & HM & HS & -> & Hv).
  apply valid_fields in Hv as [Hdate Htime].
  cbn [year month day hour minute second microsecond] in *.
  pose proof (date_fields_range _ _ _ Hdate) as (? & ? & ?).
  pose proof (time_fields_range _ _ _ _ Htime) as (? & ? & ? & ?).
  destruct (first_format Y m pad d ws H M S) as [tl E]; try done.
  unfold strptime, re_match. rewrite E. cbn [head rest Py.truthy groupdict].
  cbn [group String.eqb Ascii.eqb Bool.eqb].
  assert (Py.int Y = Some (Py.digits_value 0 Y)) as ->
    by (apply int_digits; [done|by destruct Y]).
  assert (Py.int (pad +:+ d) = Some (Py.digits_value 0 d)) as ->.
  { destruct Hpad as [->|[-> _]].
    - by apply int_short.
    - apply int_blank_digits; [by destruct Hd|by apply short_nonempty]. }
  rewrite !int_short by done. cbn [rbind].
  unfold make. by rewrite Hdate, Htime.
Qed.

Lemma strptime_sound s dt : strptime s = Ok dt -> Spec.accepted s dt.
Proof.
  unfold strptime, re_match.
  destruct (run format_regex s) as [|f tl] eqn:E; [done|]. cbn [head].
  assert (In f (run format_regex s)) as Hin by (rewrite E; by left). clear E tl.
  destruct (rest f) as [|? ?] eqn:Hrest; [|done]. cbn [Py.truthy].
  unfold format_regex in Hin.
  apply in_run_seq in Hin as (fY & f1 & HY & Hin & ->).
  apply in_run_seq in Hin as (c1 & f2 & Hc1 & Hin & ->).
  apply in_run_seq in Hin as (fm & f3 & Hm & Hin & ->).
  apply in_run_seq in Hin as (c2 & f4 & Hc2 & Hin & ->).
  apply in_run_seq in Hin as (fd & f5 & Hd & Hin & ->).
  apply in_run_seq in Hin as (fw & f6 & Hw & Hin & ->).
  apply in_run_seq in Hin as (fH & f7 & HH & Hin & ->).
  apply in_run_seq in Hin as (c3 & f8 & Hc3 & Hin & ->).
  apply in_run_seq in Hin as (fM & fS & HM & Hin & ->).
  apply in_run_seq in Hin as (c4 & fS' & Hc4 & HS & ->).
  apply in_Y in HY as ((EY & GY) & DY & LY).
  apply in_run_lit in Hc1 as (E1 & ->).
  apply in_m in Hm as ((Em & Gm) & Sm).
  apply in_run_lit in Hc2 as (E2 & ->).
  apply in_d in Hd as ((Ed & Gd) & pad & d & Edd & Sd & Hpad).
  apply in_spaces in Hw as (Ew & Gw & Nw & Aw).
  apply in_H in HH as ((EH & GH) & SH).
  apply in_run_lit in Hc3 as (E3 & ->).
  apply in_M in HM as ((EM & GM) & SM).
  apply in_run_lit in Hc4 as (E4 & ->).
  apply in_S in HS as ((ES & GS) & SS).
  cbn [join consumed rest groupdict] in *.
  rewrite GY, Gm, Gd, Gw, GH, GM, GS. cbn [app].
  cbn [group String.eqb Ascii.eqb Bool.eqb].
  assert (Py.int (consumed fY) = Some (Py.digits_value 0 (consumed fY))) as ->
    by (apply int_digits; [done|by destruct (consumed fY)]).
  assert (Py.int (consumed fd) = Some (Py.digits_value 0 d)) as ->.
  { rewrite Edd. destruct Hpad as [->|[-> _]].
    - by apply int_short.
    - apply int_blank_digits; [by destruct Sd|by apply short_nonempty]. }
  rewrite !int_short by done. cbn [rbind].
  destruct (check_date_fields _ _ _) eqn:Hdate; [|done].
  unfold make. rewrite Hdate. cbn [andb].
  destruct (check_time_fields _ _ _ _) eqn:Htime; [|done].
  intros [= <-].
  exists (consumed fY), (consumed fm), pad, d, (consumed fw),
         (consumed fH), (consumed fM), (consumed fS').
  repeat split; try done.
  - rewrite EY, E1, Em, E2, Ed, Ew, EH, E3, EM, E4, ES, Hrest, Edd.
    autorewrite with strs. by rewrite !string_app_assoc.
  - by destruct Sm.
  - by destruct Sm.
  - by destruct Sd.
  - by destruct Sd.
  - by destruct SH.
  - by destruct SH.
  - by destruct SM.
  - by destruct SM.
  - by destruct SS.
  - by destruct SS.
  - unfold valid. cbn [year month day hour minute second microsecond].
    by rewrite Hdate, Htime.
Qed.

End StrptimeFacts.

(* ===================================================================== *)
(** ** Canonical texts *)
(* ===================================================================== *)

Lemma canonical_shape (s : string) (dt : datetime) :
  Spec.canonical_fields s = Some dt ->
  exists y1 y2 y3 y4 m1 m2 d1 d2 h1 h2 n1 n2 s1 s2,
    s = String y1 (String y2 (String y3 (String y4 (String ":" (String m1 (String m2
        (String ":" (String d1 (String d2 (String " " (String h1 (String h2 (String ":"
        (String n1 (String n2 (String ":" (String s1 (String s2 ""))))))))))))))))))
    /\ forallb Py.is_digit [y1; y2; y3; y4; m1; m2; d1; d2; h1; h2; n1; n2; s1; s2] = true
    /\ dt = Datetime (Spec.num4 y1 y2 y3 y4) (Spec.num2 m1 m2) (Spec.num2 d1 d2)
                     (Spec.num2 h1 h2) (Spec.num2 n1 n2) (Spec.num2 s1 s2) 0.
Proof.
  unfold Spec.canonical_fields. intros H.
  do 19 (destruct s as [|? s]; [by cbn in H|]).
  destruct s; [|by cbn in H].
  cbn [list_ascii_of_string] in H.
  destruct (forallb Py.is_digit _) eqn:Hd; [|done].
  cbn [andb] in H.
  destruct (forallb (Ascii.eqb Spec.colon) _) eqn:Hc; [|done].
  cbn [andb] in H.
  destruct (Ascii.eqb Spec.blank _) eqn:Hb; [|done].
  injection H as <-.
  cbn [forallb] in Hc. repeat (apply andb_true_iff in Hc as [?%Ascii.eqb_eq Hc]).
  apply Ascii.eqb_eq in Hb. subst.
  by repeat eexists.
Qed.

Lemma digits_value_2 (a b : ascii) :
  Py.digits_value 0 (String a (String b "")) = Spec.num2 a b.
Proof. cbn [Py.digits_value]. unfold Spec.num2. lia. Qed.

Lemma digits_value_4 (a b c d : ascii) :
  Py.digits_value 0 (String a (String b (String c (String d "")))) = Spec.num4 a b c d.
Proof. cbn [Py.digits_value]. unfold Spec.num4, Spec.num2. lia. Qed.

Lemma canonical_accepted (s : string) (dt : datetime) :
  Spec.canonical_fields s = Some dt -> Datetime.valid dt = true ->
  Spec.accepted s dt.
Proof.
  intros H Hv.
  apply canonical_shape in H
    as (y1 & y2 & y3 & y4 & m1 & m2 & d1 & d2 & h1 & h2 & n1 & n2 & s1 & s2
        & -> & Hd & ->).
  cbn [forallb] in Hd. repeat (apply andb_true_iff in Hd as [? Hd]).
  exists (String y1 (String y2 (String y3 (String y4 "")))),
         (String m1 (String m2 "")), "", (String d1 (String d2 "")), " ",
         (String h1 (String h2 "")), (String n1 (String n2 "")),
         (String s1 (String s2 "")).
  rewrite digits_value_4, !digits_value_2.
  unfold Spec.short_number. cbn [Py.all_digits String.length Spec.all_space].
  repeat match goal with H : Py.is_digit _ = true |- _ => rewrite H; clear H end.
  repeat split; try done; auto.
Qed.

Lemma canonical_strftime (s : string) (dt : datetime) (pad : bool) :
  Spec.canonical_fields s = Some dt ->
  pad = true \/ 1000 <= year dt ->
  Datetime.strftime pad dt = s.
Proof.
  intros H Hp.
  apply canonical_shape in H
    as (y1 & y2 & y3 & y4 & m1 & m2 & d1 & d2 & h1 & h2 & n1 & n2 & s1 & s2
        & -> & Hd & ->).
  cbn [forallb] in Hd. repeat (apply andb_true_iff in Hd as [? Hd]).
  unfold Datetime.strftime. cbn [year month day hour minute second] in *.
  assert ((if pad then Py.pad4 (Spec.num4 y1 y2 y3 y4)
           else Py.str_small (Spec.num4 y1 y2 y3 y4))
          = Py.pad4 (Spec.num4 y1 y2 y3 y4)) as ->.
  { destruct pad; [done|]. destruct Hp as [?|Hp]; [done|].
    by apply str_small_pad4. }
  rewrite pad4_num4, !pad2_num2 by done.
  by autorewrite with strs.
Qed.

(* ===================================================================== *)
(** ** Calendar arithmetic *)
(* ===================================================================== *)

Section DateFacts.
Import Datetime.

Lemma delta_mul_0 (td : timedelta) : delta_mul td 0 = Ok (Timedelta 0).
Proof. unfold delta_mul, make_delta. by rewrite Z.mul_0_r. Qed.

Lemma days_before_year_step (y : Z) :
  days_before_year (y + 1) = days_before_year y + 365 + (if is_leap y then 1 else 0).
Proof.
  unfold days_before_year, is_leap.
  replace (y + 1 - 1) with y by lia.
  destruct (Z.eqb_spec (y mod 4) 0); destruct (Z.eqb_spec (y mod 100) 0);
    destruct (Z.eqb_spec (y mod 400) 0); cbn [negb andb orb];
    Z.div_mod_to_equations; lia.
Qed.

Lemma days_before_year_bounds (y : Z) :
  1 <= y <= 10000 -> 0 <= days_before_year y <= 3652059.
Proof. unfold days_before_year. intros H. Z.div_mod_to_equations. lia. Qed.

Lemma ymd2ord_bounds (y m d : Z) :
  check_date_fields y m d = true -> 1 <= ymd2ord y m d <= MAXORDINAL.
Proof.
  intros H. pose proof (date_fields_range _ _ _ H) as (Hy & Hm & Hd).
  unfold check_date_fields in H. apply andb_true_iff in H as [_ Hdim%Z.leb_le].
  pose proof (days_before_year_bounds y ltac:(lia)).
  pose proof (days_before_year_bounds (y + 1) ltac:(lia)) as Hn.
  rewrite days_before_year_step in Hn.
  unfold ymd2ord, MAXORDINAL, days_before_month, days_in_month in *.
  assert (m = 1 \/ m = 2 \/ m = 3 \/ m = 4 \/ m = 5 \/ m = 6 \/ m = 7 \/ m = 8
          \/ m = 9 \/ m = 10 \/ m = 11 \/ m = 12) as Hc by lia.
  destruct (is_leap y);
    repeat destruct Hc as [->|Hc]; try subst m;
    cbn [Z.eqb Z.ltb Z.compare Pos.compare Pos.compare_cont andb Pos.eqb] in *;
    repeat match goal with
    | |- context [table ?t ?k] =>
        let v := eval vm_compute in (table t k) in change (table t k) with v
    | H : context [table ?t ?k] |- _ =>
        let v := eval vm_compute in (table t k) in change (table t k) with v in H
    end; lia.
Qed.

Lemma add_zero_ok (dt : datetime) :
  valid dt = true -> exists dt', add dt (Timedelta 0) = Ok dt'.
Proof.
  intros Hv. apply valid_fields in Hv as [Hd Ht].
  pose proof (ymd2ord_bounds _ _ _ Hd) as Ho.
  pose proof (time_fields_range _ _ _ _ Ht) as (? & ? & ? & ?).
  unfold add. cbn [total_us].
  set (o := ymd2ord _ _ _) in *.
  set (tod := ((hour dt * 60 + minute dt) * 60 + second dt) * 1000000 + microsecond dt).
  assert (0 <= tod < US_PER_DAY) by (unfold tod, US_PER_DAY; lia).
  replace (o * US_PER_DAY + ((hour dt * 60 + minute dt) * 60 + second dt) * 1000000
           + microsecond dt + 0) with (tod + o * US_PER_DAY) by (unfold tod; lia).
  rewrite Z.div_add, Z.div_small by (unfold US_PER_DAY in *; lia).
  destruct (Z.ltb_spec 0 (0 + o)); [|lia].
  destruct (Z.leb_spec (0 + o) MAXORDINAL); [|lia].
  cbn [andb]. destruct (ord2ymd _) as [[? ?] ?]. by eexists.
Qed.

End DateFacts.


(* ===================================================================== *)
(** ** Symbolic execution of the accessor and of the loop body *)
(* ===================================================================== *)

Lemma commits_app (a b : list event) : commits (a ++ b) = commits a ++ commits b.
Proof. apply omap_app. Qed.

Lemma count_where_app (p : event -> bool) (a b : list event) :
  count_where p (a ++ b) = (count_where p a + count_where p b)%nat.
Proof. induction a as [|x a IH]; cbn [app count_where]; [done|]. rewrite IH. lia. Qed.

Section Exec.
Context {W : Type} {sys : System W}.

Ltac unfold_io :=
  unfold process_file, update_datetime_and_comment, is_writable, user_comment,
    date_time_original, read_metadata, _run_exiftool, init,
    bind, try_except, log, emit, ret, raise, lift in *.

Ltac exec_simpl :=
  cbn [negb andb orb fst snd world trace _metadata_read _writable _date_time_original
       _user_comment file_path set_writable Z.eqb] in *.

Ltac exec_step :=
  match goal with
  | |- context [if negb ?x then _ else _] =>
      match x with
      | context [if _ then _ else _] => fail 1
      | context [match _ with _ => _ end] => fail 1
      | (?v =? 0) => is_var v; destruct v
      | _ => destruct x eqn:?
      end
  | |- context [if (?v =? 0) then _ else _] => is_var v; destruct v
  | |- context [match ?x with _ => _ end] =>
      match x with
      | context [match _ with _ => _ end] => fail 1
      | _ => destruct x eqn:?
      end
  end.

Ltac exec :=
  unfold_io; cbn beta iota zeta; exec_simpl;
  repeat (exec_step; exec_simpl; try discriminate).

Ltac trace_norm :=
  cbn [trace world]; rewrite <- ?app_assoc; cbn [app].

Ltac read_events :=
  cbn [omap list_omap committed_args is_update_run is_probe_run is_read_run
       is_read_pass is_call is_access displayed read_only shows_unwritable
       run_failed count_where select is_run forallb existsb
       command_line read_args probe_args update_args EXIFTOOL_COMMAND app
       String.eqb Ascii.eqb Bool.eqb andb orb negb Nat.add].

Ltac commits_norm :=
  trace_norm; rewrite ?commits_app; unfold commits; read_events.

(** *** The loop body *)

Lemma process_file_counts n start delta fix_id dry c i p st :
  exists st' c', process_file n start delta fix_id dry c i p st = (st', Ok c')
    /\ (c' = count_processed (negb dry) c \/ c' = count_skipped c \/ c' = count_error c).
Proof. exec; eexists _, _; (split; [reflexivity|]); auto. Qed.

(** One file of a real run either commits the timestamp of the current
    slot and advances the slot, or commits nothing and keeps the slot. *)
Lemma process_file_commits n start delta fix_id c i p st :
  exists st' c', process_file n start delta fix_id false c i p st = (st', Ok c')
    /\ ((c' = count_processed true c
         /\ exists scaled dt uc,
              Datetime.delta_mul delta (Z.of_nat (file_index c)) = Ok scaled
              /\ Datetime.add start scaled = Ok dt
              /\ commits (trace st')
                 = commits (trace st)
                   ++ [(p, "-DateTimeOriginal=" +:+ format_datetime dt, uc)])
        \/ ((c' = count_skipped c \/ c' = count_error c)
            /\ commits (trace st') = commits (trace st))).
Proof.
  exec; eexists _, _; (split; [reflexivity|]).
  all: try (right; split; [auto|]; commits_norm; by rewrite ?app_nil_r).
  all: left; split; [done|]; eexists _, _, _; split; [done|]; split; [done|];
       commits_norm; reflexivity.
Qed.

(** One file of a dry run: only the read step touches the tool, and the
    file counts as processed exactly when the read returned status 0. *)
Lemma process_file_dry n start delta fix_id c i p st :
  Datetime.valid start = true -> file_index c = 0%nat ->
  exists st' c' new,
    process_file n start delta fix_id true c i p st = (st', Ok c')
    /\ trace st' = trace st ++ new
    /\ forallb read_only new = true
    /\ processed_count c' = (processed_count c + count_where is_read_pass new)%nat
    /\ file_index c' = 0%nat.
Proof.
  intros Hv Hfi. destruct (add_zero_ok start Hv) as [dt0 Hadd].
  unfold process_file. rewrite Hfi. cbn [Z.of_nat]. rewrite delta_mul_0.
  exec; try (rewrite Hadd in *; simplify_eq).
  all: eexists _, _, _; (split; [reflexivity|]); trace_norm;
       (split; [reflexivity|]); read_events;
       cbn [processed_count file_index count_processed count_skipped count_error];
       repeat split; lia.
Qed.

(** One file of a real run on which the permission test or the trial
    write fails is skipped, and the update operation is not called. *)
Lemma process_file_unwritable n start delta fix_id c i p st :
  exists st' r new,
    process_file n start delta fix_id false c i p st = (st', r)
    /\ trace st' = trace st ++ new
    /\ (existsb shows_unwritable new = true ->
        r = Ok (count_skipped c)
        /\ count_where (is_call MUpdate) new = 0%nat
        /\ count_where is_update_run new = 0%nat).
Proof.
  exec; eexists _, _, _; (split; [reflexivity|]); trace_norm;
    (split; [reflexivity|]); read_events; done.
Qed.


(** *** The update operation *)

Ltac leaf := eexists; split; [trace_norm; reflexivity|]; read_events.

Lemma update_unwritable_memo e ts ed st :
  _writable e = Some false ->
  update_datetime_and_comment e ts ed st
  = (State (world st)
           (trace st ++ [EvCall MUpdate (file_path e); EvCall MIsWritable (file_path e);
                         EvLog WARNING "Attempted to write to non-writable file: {}"
                               [file_path e]]),
     Ok (false, e)).
Proof.
  intros H. unfold update_datetime_and_comment, is_writable, bind, log, emit, ret.
  rewrite H. cbn [negb fst snd world trace]. by trace_norm.
Qed.

Lemma update_unwritable e ts ed st b e' :
  (update_datetime_and_comment e ts ed st).2 = Ok (b, e') ->
  _writable e' = Some false ->
  b = false
  /\ exists new, trace (update_datetime_and_comment e ts ed st).1 = trace st ++ new
                 /\ select is_update_run new = [].
Proof.
  exec; intros [= <- <-] Hw; exec_simpl; try congruence;
    (split; [done|]); leaf; done.
Qed.


(** The combined update, when the metadata is already cached: the only
    invocation with the shape of an update carries the cached annotation
    joined with the edit. *)
Lemma update_run_cached e ts ed st :
  _metadata_read e = true ->
  exists new, trace (update_datetime_and_comment e ts ed st).1 = trace st ++ new
    /\ (select is_update_run new = []
        \/ exists o, select is_update_run new
                     = [EvRun (command_line e
                                 (update_args ts
                                    (new_comment (default "" (_user_comment e)) ed)))
                              o]).
Proof.
  intros Hr. exec; try congruence; leaf; first [by left | right; by eexists].
Qed.

(** The combined update on an accessor that has neither read nor probed:
    the trial write comes first, the read second, and the annotation that
    is written is the one that read reports. *)
Lemma update_run_fresh e ts ed st :
  _metadata_read e = false -> _writable e = None ->
  exists new, trace (update_datetime_and_comment e ts ed st).1 = trace st ++ new
    /\ (select is_update_run new = []
        \/ exists w1 w2 so se so' se' o,
             subprocess_run (world st) (command_line e probe_args)
             = (w1, Completed so se 0)
             /\ subprocess_run w1 (command_line e read_args)
                = (w2, Completed so' se' 0)
             /\ select is_run new
                = [EvRun (command_line e probe_args) (Completed so se 0);
                   EvRun (command_line e read_args) (Completed so' se' 0);
                   EvRun (command_line e
                            (update_args ts
                               (new_comment
                                  (default "" (parse_metadata (Py.strip so') !! "UserComment"))
                                  ed)))
                         o]).
Proof.
  intros Hr Hw. exec; try congruence; leaf; first [by left | right].
  all: eexists _, _, _, _, _, _, _; split; [reflexivity|]; split;
    [ match goal with
      | H : subprocess_run ?w _ = _ |- subprocess_run ?w _ = _ => apply H
      end
    | reflexivity ].
Qed.


(** The combined update on an accessor that probed before it read: no
    trial write is repeated, the read comes first, and the annotation
    that is written is the one that read reports. *)
Lemma update_run_probed e ts ed st :
  _metadata_read e = false -> _writable e = Some true ->
  exists new, trace (update_datetime_and_comment e ts ed st).1 = trace st ++ new
    /\ (select is_update_run new = []
        \/ exists w1 so se o,
             subprocess_run (world st) (command_line e read_args)
             = (w1, Completed so se 0)
             /\ select is_run new
                = [EvRun (command_line e read_args) (Completed so se 0);
                   EvRun (command_line e
                            (update_args ts
                               (new_comment
                                  (default "" (parse_metadata (Py.strip so) !! "UserComment"))
                                  ed)))
                         o]).
Proof.
  intros Hr Hw. exec; try congruence; leaf; first [by left | right].
  all: by eexists _, _, _, _.
Qed.

(** Reading through the properties of an accessor whose metadata is
    cached touches neither the tool nor the trace. *)
Lemma accessors_cached e st :
  _metadata_read e = true ->
  date_time_original e st = (st, Ok (_date_time_original e, e))
  /\ user_comment e st = (st, Ok (default "" (_user_comment e), e)).
Proof.
  intros H. unfold date_time_original, user_comment, bind, ret.
  rewrite H. by cbn [negb].
Qed.

(** What the update operation leaves in the cache. *)
Lemma update_cache e ts ed st :
  match (update_datetime_and_comment e ts ed st).2 with
  | Ok (true, e') =>
      exists cur,
        _date_time_original e' = Some ts
        /\ _user_comment e' = Some (new_comment cur ed)
        /\ _metadata_read e' = true
        /\ (_metadata_read e = true -> cur = default "" (_user_comment e))
  | Ok (false, e') =>
      (_metadata_read e = true ->
       _date_time_original e' = _date_time_original e
       /\ _user_comment e' = _user_comment e)
      /\ (_metadata_read e = false ->
          (_date_time_original e' = _date_time_original e
           /\ _user_comment e' = _user_comment e)
          \/ (exists st1 e1 w' so se,
                is_writable e (State (world st)
                                     (trace st ++ [EvCall MUpdate (file_path e)]))
                = (st1, Ok (true, e1))
                /\ subprocess_run (world st1) (command_line e read_args)
                   = (w', Completed so se 0)
                /\ _date_time_original e'
                   = parse_metadata (Py.strip so) !! "DateTimeOriginal"
                /\ _user_comment e'
                   = Some (default "" (parse_metadata (Py.strip so) !! "UserComment"))))
  | Raise _ => True
  end.
Proof.
  exec; try done.
  all: try (eexists; repeat split; done).
  all: split; [done|]; intros _; try (by left).
  all: right; eexists _, _, _, _, _; split; [reflexivity|]; split;
    [ match goal with
      | H : subprocess_run ?w (command_line _ read_args) = _ |- _ => apply H
      end
    | done ].
Qed.

(** *** The loop *)

Lemma process_from_app n start delta fix_id dry c i l1 l2 st :
  process_from n start delta fix_id dry c i (l1 ++ l2) st
  = match process_from n start delta fix_id dry c i l1 st with
    | (st1, Ok c1) =>
        process_from n start delta fix_id dry c1 (i + length l1) l2 st1
    | (st1, Raise ex) => (st1, Raise ex)
    end.
Proof.
  revert c i st. induction l1 as [|p l1 IH]; intros c i st.
  - cbn [app process_from ret length]. by rewrite Nat.add_0_r.
  - cbn [app process_from length]. unfold bind.
    destruct (process_file _ _ _ _ _ _ _ _ _) as [st1 [c1|ex]]; [|done].
    rewrite IH. by replace (S i + length l1)%nat with (i + S (length l1))%nat by lia.
Qed.

(** Every file is classified once, and no statistic ever decreases. *)
Lemma process_from_counts n start delta fix_id dry c i l st :
  exists st' c',
    process_from n start delta fix_id dry c i l st = (st', Ok c')
    /\ classified c' = (classified c + length l)%nat
    /\ counters_le c c'.
Proof.
  revert c i st. induction l as [|p l IH]; intros c i st.
  - eexists _, _. split; [reflexivity|]. unfold counters_le. cbn [length]. lia.
  - cbn [process_from length]. unfold bind.
    destruct (process_file_counts n start delta fix_id dry c i p st)
      as (st1 & c1 & E1 & Hc). rewrite E1.
    destruct (IH c1 (S i) st1) as (st' & c' & E2 & Hsum & Hle). rewrite E2.
    eexists _, _. split; [reflexivity|].
    unfold counters_le, classified in *.
    destruct Hc as [-> | [-> | ->]]; cbn in *; lia.
Qed.

Lemma process_from_slots n start delta fix_id among c i l st :
  (forall p, In p l -> In p among) ->
  slots_respected start delta among c (trace st) ->
  exists st' c',
    process_from n start delta fix_id false c i l st = (st', Ok c')
    /\ slots_respected start delta among c' (trace st').
Proof.
  revert c i st. induction l as [|p l IH]; intros c i st Hl Hinv.
  - by eexists _, _.
  - cbn [process_from]. unfold bind.
    destruct (process_file_commits n start delta fix_id c i p st)
      as (st1 & c1 & E1 & Hstep). rewrite E1.
    apply IH; [intros q Hq; apply Hl; by right|].
    destruct Hinv as (Hfp & Hlen & Hslots). unfold slots_respected.
    destruct Hstep as [(Ec & scaled & dt & uc & Hmul & Hadd & Etr)|(Hc & Etr)];
      rewrite Etr; [subst c1|].
    + split; [cbn; by rewrite Hfp|].
      split; [rewrite length_app; cbn; lia|].
      intros k path a u Hk.
      destruct (decide (k < length (commits (trace st)))%nat) as [Hlt|Hge].
      * rewrite lookup_app_l in Hk by done. by eapply Hslots.
      * rewrite lookup_app_r in Hk by lia.
        destruct (k - length (commits (trace st)))%nat as [|?] eqn:E; [|done].
        injection Hk as <- <- <-.
        split; [apply Hl; by left|].
        assert (k = file_index c) as -> by lia.
        eexists. split; [|reflexivity].
        unfold slot_timestamp. rewrite Hmul. cbn [rbind]. by rewrite Hadd.
    + split; [destruct Hc as [-> | ->]; cbn; lia|].
      split; [destruct Hc as [-> | ->]; cbn; lia|done].
Qed.

Lemma process_from_dry n start delta fix_id c i l st :
  Datetime.valid start = true -> file_index c = 0%nat ->
  exists st' c' new,
    process_from n start delta fix_id true c i l st = (st', Ok c')
    /\ trace st' = trace st ++ new
    /\ forallb read_only new = true
    /\ processed_count c' = (processed_count c + count_where is_read_pass new)%nat.
Proof.
  intros Hv. revert c i st. induction l as [|p l IH]; intros c i st Hfi.
  - exists st, c, []. cbn. rewrite app_nil_r. repeat split; lia.
  - cbn [process_from]. unfold bind.
    destruct (process_file_dry n start delta fix_id c i p st Hv Hfi)
      as (st1 & c1 & new1 & E1 & Htr1 & Hro1 & Hp1 & Hfi1). rewrite E1.
    destruct (IH c1 (S i) st1 Hfi1) as (st' & c' & new2 & E2 & Htr2 & Hro2 & Hp2).
    rewrite E2.
    exists st', c', (new1 ++ new2). split; [done|].
    split; [by rewrite Htr2, Htr1, app_assoc|].
    split; [by rewrite forallb_app, Hro1, Hro2|].
    rewrite count_where_app. lia.
Qed.

(** The summary that [process_files] logs after the loop. *)
Lemma process_files_unfold files start delta fix_id dry st st' c' :
  process_from (length files) start delta fix_id dry (Counters 0 0 0 0) 0 files st
  = (st', Ok c') ->
  exists summary,
    process_files files start delta fix_id dry st
    = (State (world st') (trace st' ++ summary), Ok c')
    /\ forallb read_only summary = true
    /\ commits summary = []
    /\ count_where is_read_pass summary = 0%nat
    /\ omap displayed summary = [].
Proof.
  intros H. unfold process_files, bind. rewrite H.
  unfold log, print, emit, ret. cbn [world trace].
  eexists. split; [trace_norm; reflexivity|].
  unfold commits. read_events. done.
Qed.

(** One file of a dry run displays the timestamp of slot 0. *)
Lemma process_file_dry_display n start delta fix_id c i p st dt0 :
  Datetime.add start (Timedelta 0) = Ok dt0 -> file_index c = 0%nat ->
  exists new,
    trace (process_file n start delta fix_id true c i p st).1 = trace st ++ new
    /\ Forall (eq (format_datetime dt0)) (omap displayed new).
Proof.
  intros Hadd Hfi.
  unfold process_file. rewrite Hfi. cbn [Z.of_nat]. rewrite delta_mul_0.
  exec; try (rewrite Hadd in *; simplify_eq).
  all: eexists; (split; [trace_norm; reflexivity|]); read_events;
       repeat constructor.
Qed.


(* ===================================================================== *)
(** ** The claims about the accessor and the batch *)
(* ===================================================================== *)


(** C5. In a dry run, from a valid start timestamp: the update operation
    is never called and no update is issued, the writability check is
    never performed (no call, no permission test, no trial write), and
    the number of files counted as processed is the number of read
    invocations that returned status 0. *)
Theorem dry_run_only_reads
    (files : list string) (start : datetime) (delta : timedelta)
    (fix_id : string) (w : W) :
  Datetime.valid start = true ->
  let r := process_files files start delta fix_id true (State w []) in
  exists c, r.2 = Ok c
    /\ forallb read_only (trace r.1) = true
    /\ count_where (is_call MUpdate) (trace r.1) = 0%nat
    /\ processed_count c = count_where is_read_pass (trace r.1).
Proof.
  intros Hv. cbv zeta.
  destruct (process_from_dry (length files) start delta fix_id (Counters 0 0 0 0) 0
              files (State w []) Hv eq_refl)
    as (st' & c' & new & E & Htr & Hro & Hp).
  destruct (process_files_unfold _ _ _ _ _ _ _ _ E) as (summary & -> & Hs & _ & Hn & _).
  cbn [fst snd trace] in *. rewrite Htr. cbn [app].
  exists c'. split; [done|].
  assert (forallb read_only (new ++ summary) = true) as Hall
    by (by rewrite forallb_app, Hro, Hs).
  split; [done|]. split.
  - clear -Hall. induction (new ++ summary) as [|ev l IH]; [done|].
    cbn [forallb count_where] in *. apply andb_true_iff in Hall as [Hev Hl].
    rewrite (IH Hl). unfold read_only in Hev.
    by destruct (is_call MUpdate ev).
  - rewrite count_where_app, Hn. cbn [processed_count] in Hp. lia.
Qed.

(** C9. Whatever the mode, after any prefix of the list every file seen
    so far has been classified exactly once, so the three statistics add
    up to the number of files processed; they add up to the length of
    the list at the end, and none of them ever decreases. *)
Theorem every_file_classified_once
    (pre mid post : list string) (start : datetime) (delta : timedelta)
    (fix_id : string) (dry_run : bool) (st : state W) :
  let files := pre ++ mid ++ post in
  let after l :=
    (process_from (length files) start delta fix_id dry_run (Counters 0 0 0 0) 0 l st).2 in
  exists c1 c2 c,
    after pre = Ok c1 /\ after (pre ++ mid) = Ok c2
    /\ (process_files files start delta fix_id dry_run st).2 = Ok c
    /\ classified c1 = length pre
    /\ classified c2 = length (pre ++ mid)
    /\ classified c = length files
    /\ counters_le c1 c2 /\ counters_le c2 c.
Proof.
  cbv zeta. set (n := length (pre ++ mid ++ post)).
  destruct (process_from_counts n start delta fix_id dry_run (Counters 0 0 0 0) 0 pre st)
    as (st1 & c1 & E1 & S1 & _).
  destruct (process_from_counts n start delta fix_id dry_run c1 (0 + length pre) mid st1)
    as (st2 & c2 & E2 & S2 & L2).
  destruct (process_from_counts n start delta fix_id dry_run c2
              (0 + length (pre ++ mid)) post st2)
    as (st3 & c3 & E3 & S3 & L3).
  assert (process_from n start delta fix_id dry_run (Counters 0 0 0 0) 0 (pre ++ mid) st
          = (st2, Ok c2)) as E12
    by (by rewrite process_from_app, E1).
  assert (process_from n start delta fix_id dry_run (Counters 0 0 0 0) 0
            (pre ++ mid ++ post) st = (st3, Ok c3)) as E123
    by (by rewrite app_assoc, process_from_app, E12).
  destruct (process_files_unfold _ _ _ _ _ _ _ _ E123) as (summary & -> & _).
  exists c1, c2, c3. rewrite E1, E12. cbn [snd].
  unfold classified, counters_le in *. cbn in S1. subst n.
  rewrite !length_app in *. repeat split; try done; lia.
Qed.

(** C7. A file that is not writable never reaches the combined update.
    In the accessor: with the flag already at not-writable the update
    operation returns false at once, leaving the world untouched; and
    whenever the flag is not-writable after the call, the call returned
    false and issued no update.  In the batch: when the permission test
    or the trial write fails, the file is counted as skipped and the
    update operation is neither called nor run. *)
Theorem unwritable_never_updated :
  (forall e ts ed (st : state W),
     _writable e = Some false ->
     update_datetime_and_comment e ts ed st
     = (State (world st)
              (trace st ++ [EvCall MUpdate (file_path e);
                            EvCall MIsWritable (file_path e);
                            EvLog WARNING "Attempted to write to non-writable file: {}"
                                  [file_path e]]),
        Ok (false, e)))
  /\ (forall e ts ed (st : state W) b e',
        (update_datetime_and_comment e ts ed st).2 = Ok (b, e') ->
        _writable e' = Some false ->
        b = false
        /\ exists new,
             trace (update_datetime_and_comment e ts ed st).1 = trace st ++ new
             /\ select is_update_run new = [])
  /\ (forall n start delta fix_id c i p (st : state W),
        let r := process_file n start delta fix_id false c i p st in
        exists new,
          trace r.1 = trace st ++ new
          /\ (existsb shows_unwritable new = true ->
              r.2 = Ok (count_skipped c)
              /\ count_where (is_call MUpdate) new = 0%nat
              /\ count_where is_update_run new = 0%nat)).
Proof.
  split; [apply update_unwritable_memo|].
  split; [apply update_unwritable|].
  intros n start delta fix_id c i p st. cbv zeta.
  destruct (process_file_unwritable n start delta fix_id c i p st)
    as (st' & r & new & -> & Htr & H).
  by exists new.
Qed.

(** What one call of the combined update does, by the outcome of its
    update invocation. *)
Lemma update_outcome (e : ExifEditor) (ts ed : string) (st : state W) :
  exists new,
    trace (update_datetime_and_comment e ts ed st).1 = trace st ++ new
    /\ ((select is_update_run new = []
         /\ match (update_datetime_and_comment e ts ed st).2 with
            | Ok (b, e') =>
                b = false
                /\ _date_time_original e' = _date_time_original e
                /\ _user_comment e' = _user_comment e
            | Raise ex => ex = FileNotFoundError
            end)
        \/ exists (d0 c0 : option string) (w2 w3 : W) (o : run_outcome),
             (if _metadata_read e
              then d0 = _date_time_original e /\ c0 = _user_comment e
              else exists w1 so se,
                     subprocess_run w1 (command_line e read_args)
                     = (w2, Completed so se 0)
                     /\ In (EvRun (command_line e read_args) (Completed so se 0)) new
                     /\ d0 = parse_metadata (Py.strip so) !! "DateTimeOriginal"
                     /\ c0 = Some (default "" (parse_metadata (Py.strip so)
                                               !! "UserComment")))
             /\ subprocess_run w2
                  (command_line e (update_args ts (new_comment (default "" c0) ed)))
                = (w3, o)
             /\ world (update_datetime_and_comment e ts ed st).1 = w3
             /\ select is_update_run new
                = [EvRun (command_line e
                            (update_args ts (new_comment (default "" c0) ed))) o]
             /\ (forall so se, o = Completed so se 0 ->
                 exists e',
                   (update_datetime_and_comment e ts ed st).2 = Ok (true, e')
                   /\ _date_time_original e' = Some ts
                   /\ _user_comment e' = Some (new_comment (default "" c0) ed)
                   /\ _metadata_read e' = true)
             /\ (run_failed o = true ->
                 exists e',
                   (update_datetime_and_comment e ts ed st).2 = Ok (false, e')
                   /\ _date_time_original e' = d0
                   /\ _user_comment e' = c0)
             /\ (o = NotFound ->
                 (update_datetime_and_comment e ts ed st).2 = Raise FileNotFoundError)).
Proof.
  exec; leaf.
  all: try (left; split; [reflexivity|]; done).
  all: right; eexists _, _, _, _, _; split;
    [ first [ split; reflexivity
            | eexists _, _, _; split; [eassumption|]; split;
              [cbn [In]; repeat (first [left; reflexivity | right])|];
              split; reflexivity ]
    | ].
  all: split; [eassumption|]; split; [reflexivity|]; split; [reflexivity|].
  all: split; [let Heq := fresh in
               intros ? ? Heq;
               first [discriminate Heq | eexists; split; [reflexivity|]; done]|].
  all: split; [cbn [run_failed]; intros ?;
               first [discriminate | eexists; split; [reflexivity|]; done]|].
  all: intros ?; first [discriminate | reflexivity].
Qed.

(** C8, as amended.  One call of the combined update makes at most one
    update invocation, and what it returns and leaves in the cache is
    decided by the outcome of that invocation.  The cached timestamp and
    annotation at the time the write is issued are those from before the
    call if the metadata had been read, and otherwise those that the
    call's own lazy read obtained from the tool.  If the invocation
    completes with status 0, the call returns true, the cache holds the
    new timestamp and the joined annotation, and the properties return
    them without running the tool.  If the invocation fails, the call
    returns false and the cache holds the values it held when the write
    was issued.  If no executable is found the call raises
    [FileNotFoundError].  If no update invocation is made (the file is
    not writable, or the lazy read failed), the call returns false with
    both cached fields as before the call. *)
Theorem update_cache_on_success_and_failure
    (e : ExifEditor) (ts ed : string) (st : state W) :
  exists new,
    trace (update_datetime_and_comment e ts ed st).1 = trace st ++ new
    /\ ((select is_update_run new = []
         /\ match (update_datetime_and_comment e ts ed st).2 with
            | Ok (b, e') =>
                b = false
                /\ _date_time_original e' = _date_time_original e
                /\ _user_comment e' = _user_comment e
            | Raise ex => ex = FileNotFoundError
            end)
        \/ exists (d0 c0 : option string) (w2 w3 : W) (o : run_outcome),
             (if _metadata_read e
              then d0 = _date_time_original e /\ c0 = _user_comment e
              else exists w1 so se,
                     subprocess_run w1 (command_line e read_args)
                     = (w2, Completed so se 0)
                     /\ In (EvRun (command_line e read_args) (Completed so se 0)) new
                     /\ d0 = parse_metadata (Py.strip so) !! "DateTimeOriginal"
                     /\ c0 = Some (default "" (parse_metadata (Py.strip so)
                                               !! "UserComment")))
             /\ subprocess_run w2
                  (command_line e (update_args ts (new_comment (default "" c0) ed)))
                = (w3, o)
             /\ world (update_datetime_and_comment e ts ed st).1 = w3
             /\ select is_update_run new
                = [EvRun (command_line e
                            (update_args ts (new_comment (default "" c0) ed))) o]
             /\ (forall so se, o = Completed so se 0 ->
                 exists e',
                   (update_datetime_and_comment e ts ed st).2 = Ok (true, e')
                   /\ _date_time_original e' = Some ts
                   /\ _user_comment e' = Some (new_comment (default "" c0) ed)
                   /\ forall st2 : state W,
                        date_time_original e' st2 = (st2, Ok (Some ts, e'))
                        /\ user_comment e' st2
                           = (st2, Ok (new_comment (default "" c0) ed, e')))
             /\ (run_failed o = true ->
                 exists e',
                   (update_datetime_and_comment e ts ed st).2 = Ok (false, e')
                   /\ _date_time_original e' = d0
                   /\ _user_comment e' = c0)
             /\ (o = NotFound ->
                 (update_datetime_and_comment e ts ed st).2 = Raise FileNotFoundError)).
Proof.
  destruct (update_outcome e ts ed st) as (new & Htr & [Hno | Hrun]).
  - exists new. split; [done|]. by left.
  - destruct Hrun as (d0 & c0 & w2 & w3 & o & Hheld & Hsub & Hw & Hsel & Hok & Hfail & Hnf).
    exists new. split; [done|]. right. exists d0, c0, w2, w3, o.
    split; [done|]. split; [done|]. split; [done|]. split; [done|].
    split; [|by split].
    intros so se Ho. destruct (Hok so se Ho) as (e' & Hr & Hd & Hu & Hread).
    exists e'. split; [done|]. split; [done|]. split; [done|].
    intros st2. destruct (accessors_cached e' st2 Hread) as [-> ->].
    by rewrite Hd, Hu.
Qed.



(** In a dry run every displayed timestamp is the one of slot 0. *)
Lemma dry_run_displays_slot_zero
    (files : list string) (start : datetime) (delta : timedelta)
    (fix_id : string) (st : state W) (dt0 : datetime) :
  Datetime.valid start = true ->
  Datetime.add start (Timedelta 0) = Ok dt0 ->
  exists new,
    trace (process_files files start delta fix_id true st).1 = trace st ++ new
    /\ Forall (eq (format_datetime dt0)) (omap displayed new).
Proof.
  intros Hv Hadd.
  assert (forall l c i st0, file_index c = 0%nat ->
            exists st' c' new,
              process_from (length files) start delta fix_id true c i l st0 = (st', Ok c')
              /\ trace st' = trace st0 ++ new
              /\ Forall (eq (format_datetime dt0)) (omap displayed new)) as Hloop.
  { induction l as [|p l IH]; intros c i st0 Hfi.
    - exists st0, c, []. by rewrite app_nil_r.
    - cbn [process_from]. unfold bind.
      destruct (process_file_dry_display (length files) start delta fix_id c i p st0 dt0
                  Hadd Hfi) as (new1 & Htr1 & Hd1).
      destruct (process_file_dry (length files) start delta fix_id c i p st0 Hv Hfi)
        as (st1 & c1 & ? & E1 & _ & _ & _ & Hfi1).
      rewrite E1 in *. cbn [fst] in Htr1.
      destruct (IH c1 (S i) st1 Hfi1) as (st' & c' & new2 & E2 & Htr2 & Hd2).
      rewrite E2. exists st', c', (new1 ++ new2).
      split; [done|]. split; [by rewrite Htr2, Htr1, app_assoc|].
      rewrite omap_app. by apply Forall_app. }
  destruct (Hloop files (Counters 0 0 0 0) 0%nat st eq_refl)
    as (st' & c' & new & E & Htr & Hd).
  destruct (process_files_unfold _ _ _ _ _ _ _ _ E) as (summary & -> & _ & _ & _ & Hs).
  exists (new ++ summary). cbn [fst trace].
  split; [by rewrite Htr, app_assoc|].
  by rewrite omap_app, Hs, app_nil_r.
Qed.


(* ===================================================================== *)
(** ** Further properties of the accessor *)
(* ===================================================================== *)

(** X1. A metadata read that succeeded is not repeated: every later
    call answers true from the cache, changes neither the world nor the
    accessor, and runs nothing. *)
Theorem read_metadata_idempotent (e e1 : ExifEditor) (st st1 : state W) :
  read_metadata e st = (st1, Ok (true, e1)) ->
  _metadata_read e1 = true
  /\ forall st2 : state W,
       read_metadata e1 st2
       = (State (world st2) (trace st2 ++ [EvCall MReadMetadata (file_path e1)]),
          Ok (true, e1)).
Proof.
  intros H.
  assert (_metadata_read e1 = true) as Hr.
  { revert H. exec; intros [= <- <-]; done. }
  split; [done|]. intros st2.
  unfold read_metadata, bind, emit, ret. by rewrite Hr.
Qed.

(** X2. A metadata read that answers false leaves the accessor exactly
    as it was (so the next call asks the tool again), after exactly one
    invocation of the tool. *)
Theorem read_metadata_failure_keeps_accessor (e e1 : ExifEditor) (st st1 : state W) :
  read_metadata e st = (st1, Ok (false, e1)) ->
  e1 = e /\ _metadata_read e = false
  /\ exists new, trace st1 = trace st ++ new
                 /\ count_where is_run new = 1%nat
                 /\ count_where is_read_run new = 1%nat.
Proof.
  exec; intros [= <- <-]; (split; [done|]); (split; [done|]); leaf; done.
Qed.

(** X3. The writability check is memoized: whatever it answers is
    stored in the flag, the cached metadata is untouched, and every
    later call repeats the answer without testing permissions or running
    the tool. *)
Theorem is_writable_memoized (e e1 : ExifEditor) (st st1 : state W) (b : bool) :
  is_writable e st = (st1, Ok (b, e1)) ->
  _writable e1 = Some b
  /\ e1 = set_writable e b
  /\ forall st2 : state W,
       is_writable e1 st2
       = (State (world st2) (trace st2 ++ [EvCall MIsWritable (file_path e1)]),
          Ok (b, e1)).
Proof.
  intros H.
  assert (_writable e1 = Some b /\ e1 = set_writable e b) as [Hw He].
  { revert H. exec; intros [= <- <- <-]; try done.
    all: split; [done|]; destruct e; unfold set_writable; cbn in *; congruence. }
  split; [done|]. split; [done|]. intros st2.
  unfold is_writable, bind, emit, ret. by rewrite Hw.
Qed.

(** X4. The writability check runs the tool at most once, and not at
    all when the flag is already known or the operating system denies
    write permission; in those two cases the world is left as it was. *)
Theorem is_writable_probes_at_most_once (e : ExifEditor) (st : state W) :
  exists new,
    trace (is_writable e st).1 = trace st ++ new
    /\ (count_where is_run new <= 1)%nat
    /\ count_where is_run new = count_where is_probe_run new
    /\ (_writable e <> None \/ access_W_OK (world st) (file_path e) = false ->
        count_where is_run new = 0%nat /\ world (is_writable e st).1 = world st).
Proof.
  exec; leaf; (split; [lia|]); (split; [done|]); intros [?|?]; done.
Qed.

(** X5. How the three operations of the accessor treat the failures
    of the tool.  They raise nothing but [FileNotFoundError], and exactly
    when one of their invocations found no executable.  Every other
    failure (a status other than 0, or another exception of the
    invocation) is turned into a false result: an operation that answers
    true has made no invocation that failed. *)
Theorem accessor_raises_only_when_tool_missing
    (e : ExifEditor) (ts ed : string) (st : state W) :
  let handled (r : state W * result (bool * ExifEditor)) : Prop :=
    exists new,
      trace r.1 = trace st ++ new
      /\ match r.2 with
         | Raise ex =>
             ex = FileNotFoundError /\ existsb is_missing_run new = true
         | Ok (b, _) =>
             existsb is_missing_run new = false
             /\ (existsb is_failed_run new = true -> b = false)
         end in
  handled (read_metadata e st)
  /\ handled (is_writable e st)
  /\ handled (update_datetime_and_comment e ts ed st).
Proof.
  cbv zeta. split; [|split].
  all: exec; leaf; cbn [existsb is_missing_run is_failed_run run_failed orb];
    split; try done; intros; congruence.
Qed.

(* ===================================================================== *)
(** ** Further properties of the batch *)
(* ===================================================================== *)

(** X6. A path that is no regular file when its turn comes is counted
    as an error, in a real run and in a dry run alike, without any
    invocation of the tool and without any change of the world. *)
Theorem missing_file_is_an_error n start delta fix_id dry c i p st :
  isfile (world st) p = false ->
  exists new,
    process_file n start delta fix_id dry c i p st
    = (State (world st) (trace st ++ new), Ok (count_error c))
    /\ count_where is_run new = 0%nat.
Proof.
  intros H. unfold process_file, init, bind, try_except, log, emit, ret, raise.
  cbn [world trace]. rewrite H. cbn [world trace].
  eexists. split; [trace_norm; reflexivity|]. done.
Qed.

(** One file when no executable is found: an error, and the executable
    is still missing afterwards. *)
Lemma process_file_tool_missing (gone : W -> Prop)
    n start delta fix_id dry c i p st :
  (forall w cmd, gone w ->
     gone (subprocess_run w cmd).1 /\ (subprocess_run w cmd).2 = NotFound) ->
  gone (world st) ->
  exists st', process_file n start delta fix_id dry c i p st = (st', Ok (count_error c))
    /\ gone (world st')
    /\ commits (trace st') = commits (trace st).
Proof.
  intros Hg H0.
  pose proof (Hg (world st) (command_line (Editor p None None None false) read_args) H0)
    as [Hg1 Hn].
  unfold process_file, read_metadata, _run_exiftool, init,
    bind, try_except, log, emit, ret, raise.
  cbn [world trace file_path _metadata_read negb].
  destruct (isfile (world st) p); cbn [world trace file_path _metadata_read negb].
  - destruct (subprocess_run (world st) _) as [w1 o] eqn:Hrun. cbn [fst snd] in *.
    subst o. cbn [world trace].
    eexists. split; [reflexivity|]. split; [done|].
    commits_norm. by rewrite ?app_nil_r.
  - eexists. split; [reflexivity|]. split; [done|].
    commits_norm. by rewrite ?app_nil_r.
Qed.

Lemma process_from_tool_missing (gone : W -> Prop)
    n start delta fix_id dry c i l st :
  (forall w cmd, gone w ->
     gone (subprocess_run w cmd).1 /\ (subprocess_run w cmd).2 = NotFound) ->
  gone (world st) ->
  exists st', process_from n start delta fix_id dry c i l st
              = (st', Ok (Counters (processed_count c) (skipped_count c)
                                   (error_count c + length l) (file_index c)))
    /\ commits (trace st') = commits (trace st).
Proof.
  intros Hg. revert c i st. induction l as [|p l IH]; intros c i st H0.
  - eexists. split; [|reflexivity]. cbn [process_from length]. unfold ret.
    rewrite Nat.add_0_r. by destruct c.
  - destruct (process_file_tool_missing gone n start delta fix_id dry c i p st Hg H0)
      as (st1 & E1 & G1 & C1).
    destruct (IH (count_error c) (S i) st1 G1) as (st2 & E2 & C2).
    exists st2. split; [|congruence].
    cbn [process_from]. unfold bind at 1. rewrite E1, E2.
    do 2 f_equal. destruct c; cbn. f_equal. lia.
Qed.

(** X7. Where no [exiftool] executable can be found, a batch counts
    every file as an error, none as processed or skipped, and changes no
    file, in a real run and in a dry run alike.  [gone] is any property
    of the world that makes every invocation fail to start and that such
    a failed invocation preserves. *)
Theorem missing_tool_fails_every_file (gone : W -> Prop)
    files start delta fix_id dry st :
  (forall w cmd, gone w ->
     gone (subprocess_run w cmd).1 /\ (subprocess_run w cmd).2 = NotFound) ->
  gone (world st) ->
  (process_files files start delta fix_id dry st).2
  = Ok (Counters 0 0 (length files) 0)
  /\ commits (trace (process_files files start delta fix_id dry st).1)
     = commits (trace st).
Proof.
  intros Hg H0.
  destruct (process_from_tool_missing gone (length files) start delta fix_id dry
              (Counters 0 0 0 0) 0 files st Hg H0) as (st1 & E1 & C1).
  cbn [processed_count skipped_count error_count file_index Nat.add] in E1.
  destruct (process_files_unfold _ _ _ _ _ _ _ _ E1) as (summary & -> & _ & Hc & _).
  cbn [fst snd trace]. split; [done|].
  by rewrite commits_app, Hc, app_nil_r.
Qed.

(** One file of a real run whose slot has no timestamp commits nothing
    and is no success. *)
Lemma process_file_overflow n start delta fix_id c i p st ex :
  slot_timestamp start delta (file_index c) = Raise ex ->
  exists st' c', process_file n start delta fix_id false c i p st = (st', Ok c')
    /\ (c' = count_skipped c \/ c' = count_error c)
    /\ commits (trace st') = commits (trace st).
Proof.
  intros H.
  destruct (process_file_commits n start delta fix_id c i p st)
    as (st' & c' & E & [(_ & scaled & dt & uc & Hm & Ha & _) | [Hc Ht]]).
  - unfold slot_timestamp in H. rewrite Hm in H. cbn [rbind] in H.
    rewrite Ha in H. done.
  - by exists st', c'.
Qed.

(** X8. Once the timestamp of the current slot lies outside the range
    of [datetime] (or the scaled interval outside the range of
    [timedelta]), a real run updates no further file: every remaining
    file is skipped or counted as an error, and the slot stays where it
    is. *)
Theorem out_of_range_slot_stops_updates n start delta fix_id c i l st ex :
  slot_timestamp start delta (file_index c) = Raise ex ->
  exists st' c',
    process_from n start delta fix_id false c i l st = (st', Ok c')
    /\ processed_count c' = processed_count c
    /\ file_index c' = file_index c
    /\ (skipped_count c' + error_count c'
        = skipped_count c + error_count c + length l)%nat
    /\ commits (trace st') = commits (trace st).
Proof.
  revert c i st. induction l as [|p l IH]; intros c i st H.
  - exists st, c. cbn [process_from length]. unfold ret. repeat split; lia.
  - destruct (process_file_overflow n start delta fix_id c i p st ex H)
      as (st1 & c1 & E1 & Hc & C1).
    assert (file_index c1 = file_index c /\ processed_count c1 = processed_count c
            /\ (skipped_count c1 + error_count c1
                = skipped_count c + error_count c + 1)%nat) as (Hf & Hp & Hs).
    { destruct Hc as [-> | ->]; destruct c; cbn; repeat split; lia. }
    rewrite <- Hf in H.
    destruct (IH c1 (S i) st1 H) as (st2 & c2 & E2 & P2 & F2 & S2 & C2).
    exists st2, c2. split.
    { cbn [process_from]. unfold bind at 1. by rewrite E1. }
    cbn [length]. repeat split; try congruence; lia.
Qed.

(** One file of a real run: what an update commits. *)
Lemma process_file_audit n start delta fix_id c i p st :
  exists st' c', process_file n start delta fix_id false c i p st = (st', Ok c')
    /\ ((c' = count_processed true c
         /\ exists w1 out err scaled dt,
              subprocess_run (world st)
                (command_line (Editor p None None None false) read_args)
              = (w1, Completed out err 0)
              /\ Datetime.delta_mul delta (Z.of_nat (file_index c)) = Ok scaled
              /\ Datetime.add start scaled = Ok dt
              /\ commits (trace st')
                 = commits (trace st)
                   ++ [(p, "-DateTimeOriginal=" +:+ format_datetime dt,
                        "-UserComment="
                        +:+ new_comment
                              (default "" (parse_metadata (Py.strip out) !! "UserComment"))
                              (fix_comment fix_id
                                 (match parse_metadata (Py.strip out) !! "DateTimeOriginal" with
                                  | Some d => if Py.truthy d then d else "None"
                                  | None => "None"
                                  end)
                                 (format_datetime dt)))])
        \/ (c' = count_skipped c \/ c' = count_error c)).
Proof.
  exec; eexists _, _; (split; [reflexivity|]).
  all: try (right; auto; fail).
  all: left; split; [done|]; eexists _, _, _, _, _; split; [reflexivity|];
       split; [done|]; split; [done|]; commits_norm.
  all: unfold set_writable; cbn [file_path default].
  all: destruct (parse_metadata (Py.strip stdout) !! "DateTimeOriginal") as [d|];
       cbn [opt_truthy default] in *; rewrite ?Heqb1; try reflexivity;
       try discriminate.
Qed.

(** X9. The audit trail of a real run.  When a file is updated, the
    single update invocation writes the timestamp of the current slot,
    and an annotation made of the annotation that the read at the start
    of the step returned (before the trial write), joined with the edit
    [AdjustedDateTime_<fix_id>[<original> -> <new>]], where <original>
    is the timestamp tag the same read returned, or [None]. *)
Theorem committed_annotation_keeps_the_read_one n start delta fix_id c i p st st' :
  process_file n start delta fix_id false c i p st
  = (st', Ok (count_processed true c)) ->
  exists w1 out err ts,
    subprocess_run (world st) (command_line (Editor p None None None false) read_args)
    = (w1, Completed out err 0)
    /\ slot_timestamp start delta (file_index c) = Ok ts
    /\ let metadata := parse_metadata (Py.strip out) in
       let original :=
         match metadata !! "DateTimeOriginal" with
         | Some d => if Py.truthy d then d else "None"
         | None => "None"
         end in
       commits (trace st')
       = commits (trace st)
         ++ [(p, "-DateTimeOriginal=" +:+ ts,
              "-UserComment="
              +:+ new_comment (default "" (metadata !! "UserComment"))
                              (fix_comment fix_id original ts))].
Proof.
  intros H.
  destruct (process_file_audit n start delta fix_id c i p st)
    as (st1 & c1 & E & [(_ & w1 & out & err & scaled & dt & Hr & Hm & Ha & Hc) | Hc]).
  - rewrite E in H. injection H as ->.
    exists w1, out, err, (format_datetime dt). split; [done|]. split; [|done].
    unfold slot_timestamp. rewrite Hm. cbn [rbind]. by rewrite Ha.
  - exfalso. rewrite E in H. injection H as _ Hq.
    apply (f_equal processed_count) in Hq.
    destruct Hc as [-> | ->]; destruct c; cbn in Hq; lia.
Qed.

(** X23. The two properties read lazily.  On an accessor that has
    read they answer from the cache: the state, trace included, and the
    accessor are as before, and the value is the cached one
    ([user_comment] an empty text for an absent annotation).  Otherwise
    they make exactly one invocation of the tool, the read; what they
    return is what the accessor holds afterwards; and after a read that
    failed the accessor is as before, so the next access asks the tool
    again. *)
Theorem properties_read_lazily (e : ExifEditor) (st : state W) :
  (_metadata_read e = true ->
   date_time_original e st = (st, Ok (_date_time_original e, e))
   /\ user_comment e st = (st, Ok (default "" (_user_comment e), e)))
  /\ (exists new,
        trace (date_time_original e st).1 = trace st ++ new
        /\ count_where is_run new = (if _metadata_read e then 0 else 1)%nat
        /\ count_where is_read_run new = count_where is_run new
        /\ forall d e', (date_time_original e st).2 = Ok (d, e') ->
             d = _date_time_original e' /\ (_metadata_read e' = false -> e' = e))
  /\ (exists new,
        trace (user_comment e st).1 = trace st ++ new
        /\ count_where is_run new = (if _metadata_read e then 0 else 1)%nat
        /\ count_where is_read_run new = count_where is_run new
        /\ forall s e', (user_comment e st).2 = Ok (s, e') ->
             s = default "" (_user_comment e') /\ (_metadata_read e' = false -> e' = e)).
Proof.
  split; [apply accessors_cached|].
  split.
  all: exec.
  all: try (exists []; rewrite app_nil_r; split; [done|]; split; [done|];
            split; [done|]; intros ? ? [= <- <-]; split; [done|]; congruence).
  all: leaf; split; [done|]; split; [done|]; try done.
  all: intros ? ? [= <- <-]; split; [done|]; cbn [_metadata_read]; congruence.
Qed.
End Exec.

(* ===================================================================== *)
(** ** The claims about the timestamp helpers *)
(* ===================================================================== *)

Lemma strptime_raises (s : string) (ex : exn) :
  Datetime.strptime s = Raise ex -> ex = ValueError.
Proof.
  unfold Datetime.strptime, Datetime.make.
  repeat match goal with
  | |- context [match ?x with _ => _ end] =>
      match x with
      | context [match _ with _ => _ end] => fail 1
      | _ => destruct x
      end
  | |- context [rbind (Ok _) _] => cbn [rbind]
  | |- context [rbind (Raise _) _] => cbn [rbind]
  end; congruence.
Qed.


(* ===================================================================== *)
(** ** The program on the examples of the specification *)
(* ===================================================================== *)

Section Runs.

Import Examples.

(** Three readable and writable files, interval 30 seconds. *)
Example three_files_thirty_seconds :
  let r := process_files ["a.jpg"; "b.jpg"; "c.jpg"] start thirty_seconds "123" false
                         three_photos in
  r.2 = Ok (Counters 3 0 0 3)
  /\ commits (trace r.1)
     = [("a.jpg", "-DateTimeOriginal=2023:10:26 10:00:00",
         "-UserComment=prior text AdjustedDateTime_123[2020:01:01 00:00:00 -> 2023:10:26 10:00:00]");
        ("b.jpg", "-DateTimeOriginal=2023:10:26 10:00:30",
         "-UserComment=AdjustedDateTime_123[None -> 2023:10:26 10:00:30]");
        ("c.jpg", "-DateTimeOriginal=2023:10:26 10:01:00",
         "-UserComment=AdjustedDateTime_123[None -> 2023:10:26 10:01:00]")].
Proof. vm_compute. done. Qed.

(** The same with [b.jpg] failing the writability check: it is skipped
    and [c.jpg] takes its slot. *)
Example skipped_file_frees_its_slot :
  let r := process_files ["a.jpg"; "b.jpg"; "c.jpg"] start thirty_seconds "123" false
                         b_read_only in
  r.2 = Ok (Counters 2 1 0 2)
  /\ timestamps (trace r.1)
     = ["-DateTimeOriginal=2023:10:26 10:00:00"; "-DateTimeOriginal=2023:10:26 10:00:30"].
Proof. vm_compute. done. Qed.

(** A negative interval crosses midnight backwards. *)
Example negative_interval :
  let r := process_files ["b.jpg"; "c.jpg"] (Datetime 2024 1 1 0 0 0 0)
                         (Timedelta (-5000000)) "123" false three_photos in
  timestamps (trace r.1)
  = ["-DateTimeOriginal=2024:01:01 00:00:00"; "-DateTimeOriginal=2023:12:31 23:59:55"].
Proof. vm_compute. done. Qed.

(** C2 on the code: a dry run over three readable files displays the
    start timestamp three times, where the real run over the same files
    commits start, start + 30 s and start + 60 s. *)
Lemma dry_run_preview_repeats_start :
  omap displayed
       (trace (process_files ["a.jpg"; "b.jpg"; "c.jpg"] start thirty_seconds "123" true
                             three_photos).1)
  = ["2023:10:26 10:00:00"; "2023:10:26 10:00:00"; "2023:10:26 10:00:00"]
  /\ timestamps
       (trace (process_files ["a.jpg"; "b.jpg"; "c.jpg"] start thirty_seconds "123" false
                             three_photos).1)
     = ["-DateTimeOriginal=2023:10:26 10:00:00"; "-DateTimeOriginal=2023:10:26 10:00:30";
        "-DateTimeOriginal=2023:10:26 10:01:00"].
Proof. vm_compute. done. Qed.


(** What C3 names explicitly is rejected: month 13, characters after the
    text, a text cut short. *)
Example rejected_texts :
  is_valid_datetime_format "2023:13:26 10:00:00" = false
  /\ is_valid_datetime_format "2023:10:26 10:00:00 " = false
  /\ is_valid_datetime_format "2023:10:26 10:00" = false
  /\ is_valid_datetime_format "2023:02:29 10:00:00" = false
  /\ parse_datetime "2023:13:26 10:00:00" = Raise ValueError.
Proof. vm_compute. done. Qed.

(** C4 as stated fails where the C library does not pad the year: the
    canonical text of a year below 1000 comes back without its leading
    zero. *)
Lemma year_below_1000_loses_padding :
  Spec.is_canonical "0999:01:01 00:00:00" = true
  /\ parse_datetime "0999:01:01 00:00:00" = Ok (Datetime 999 1 1 0 0 0 0)
  /\ @format_datetime Sim.fs Sim.system_unpadded (Datetime 999 1 1 0 0 0 0)
     = "999:01:01 00:00:00".
Proof. vm_compute. done. Qed.

(** [dry_run_only_reads] on the three photos. *)
Lemma dry_run_only_reads_witness :
  Datetime.valid start = true
  /\ let r := process_files ["a.jpg"; "b.jpg"; "c.jpg"] start thirty_seconds "123" true
                            (State (world three_photos) []) in
     exists c, r.2 = Ok c
       /\ forallb read_only (trace r.1) = true
       /\ count_where (is_call MUpdate) (trace r.1) = 0%nat
       /\ processed_count c = count_where is_read_pass (trace r.1).
Proof.
  split; [reflexivity|].
  apply (@dry_run_only_reads Sim.fs Sim.system). reflexivity.
Defined.

(** C8 as stated fails on an accessor that has not read yet: the trial
    write succeeds, the lazy read fills the cache, the combined update
    fails, and the call returns false with a cache that differs from the
    one before the call. *)
Lemma failed_update_after_lazy_read :
  _date_time_original fresh = None /\ _user_comment fresh = None
  /\ (update_datetime_and_comment fresh "2023:10:26 10:00:00" "edit" one_write_left).2
     = Ok (false, Editor "a.jpg" (Some "2020:01:01 00:00:00") (Some "") (Some true) true).
Proof. vm_compute. done. Qed.

(** C10 on the three photos: called on a fresh accessor, the combined
    update loses the annotation of [a.jpg]; called after a read, it keeps
    it. *)
Example annotation_lost_without_prior_read :
  commits (trace (update_datetime_and_comment fresh "2023:10:26 10:00:00" "edit"
                                              three_photos).1)
  = [("a.jpg", "-DateTimeOriginal=2023:10:26 10:00:00", "-UserComment=edit")]
  /\ commits (trace (bind (read_metadata fresh)
                          (fun '(_, e) =>
                             update_datetime_and_comment e "2023:10:26 10:00:00" "edit")
                          three_photos).1)
     = [("a.jpg", "-DateTimeOriginal=2023:10:26 10:00:00", "-UserComment=prior text edit")].
Proof. vm_compute. done. Qed.

End Runs.

(* ===================================================================== *)
(** ** Sorting *)
(* ===================================================================== *)

Section SortFacts.

Context {A : Type} (lt : A -> A -> bool).

Lemma insort_perm (x : A) (l : list A) : Permutation (insort lt x l) (x :: l).
Proof.
  induction l as [|y l IH]; cbn [insort]; [done|].
  destruct (lt y x); [|done].
  rewrite IH. apply perm_swap.
Qed.

Lemma list_sort_perm (l : list A) : Permutation (list_sort lt l) l.
Proof.
  induction l as [|x l IH]; cbn [list_sort foldr]; [done|].
  fold (list_sort lt l). by rewrite insort_perm, IH.
Qed.

Hypothesis lt_asym : forall a b, lt a b = true -> lt b a = false.
Hypothesis le_trans : forall a b c, lt b a = false -> lt c b = false -> lt c a = false.

Lemma insort_ascending (x : A) (l : list A) :
  ascending lt l -> ascending lt (insort lt x l).
Proof.
  induction l as [|y l IH]; cbn [insort ascending]; [by split|].
  intros [Hy Hl]. destruct (lt y x) eqn:E.
  - cbn [ascending]. split; [|by apply IH].
    rewrite insort_perm. constructor; [by apply lt_asym|done].
  - cbn [ascending]. split; [|done].
    constructor; [done|].
    eapply Forall_impl; [exact Hy|]. cbn. intros z Hz. by eapply le_trans.
Qed.

Lemma list_sort_ascending (l : list A) : ascending lt (list_sort lt l).
Proof.
  induction l as [|x l IH]; cbn [list_sort foldr]; [done|].
  by apply insort_ascending.
Qed.

End SortFacts.

Lemma str_lt_irrefl (a : string) : str_lt a a = false.
Proof.
  induction a as [|x a IH]; cbn [str_lt]; [done|].
  rewrite N.ltb_irrefl, N.eqb_refl. done.
Qed.

Lemma str_lt_asym (a b : string) : str_lt a b = true -> str_lt b a = false.
Proof.
  revert b. induction a as [|x a IH]; intros [|y b]; cbn [str_lt]; try done.
  intros H. apply orb_true_iff in H as [H | [H1 H2]%andb_true_iff].
  - apply N.ltb_lt in H.
    rewrite (proj2 (N.ltb_ge _ _)) by lia.
    rewrite (proj2 (N.eqb_neq _ _)) by lia. done.
  - apply N.eqb_eq in H1. rewrite H1, N.ltb_irrefl, N.eqb_refl. cbn. by apply IH.
Qed.

Lemma str_le_trans (a b c : string) :
  str_lt b a = false -> str_lt c b = false -> str_lt c a = false.
Proof.
  revert b c. induction a as [|x a IH]; intros [|y b] [|z c]; cbn [str_lt]; try done.
  intros H1 H2.
  apply orb_false_iff in H1 as [H1 H1'], H2 as [H2 H2'].
  apply N.ltb_ge in H1, H2.
  apply orb_false_iff. split; [apply N.ltb_ge; lia|].
  destruct (Py.code z =? Py.code x)%N eqn:E; [|done]. apply N.eqb_eq in E.
  assert (Py.code y = Py.code x) as Eyx by lia.
  rewrite Eyx, N.eqb_refl in H1'. rewrite E, Eyx, N.eqb_refl in H2'.
  cbn in *. by eapply IH.
Qed.

(** Strings that do not precede one another are equal: on names the
    order is total. *)
Lemma str_lt_total (a b : string) :
  str_lt a b = false -> str_lt b a = false -> a = b.
Proof.
  revert b. induction a as [|x a IH]; intros [|y b]; cbn [str_lt]; try done.
  intros [H1 H1']%orb_false_iff [H2 H2']%orb_false_iff.
  apply N.ltb_ge in H1, H2.
  assert (Py.code x = Py.code y) as E by lia.
  rewrite E, N.eqb_refl in H1', H2'. cbn in *.
  f_equal; [|by apply IH].
  unfold Py.code in E. rewrite <- (ascii_N_embedding x), <- (ascii_N_embedding y).
  by rewrite E.
Qed.

Lemma key_lt_asym {A} (a b : Z * A) : key_lt a b = true -> key_lt b a = false.
Proof. unfold key_lt. intros ?%Z.ltb_lt. apply Z.ltb_ge. lia. Qed.

Lemma key_le_trans {A} (a b c : Z * A) :
  key_lt b a = false -> key_lt c b = false -> key_lt c a = false.
Proof. unfold key_lt. intros ?%Z.ltb_ge ?%Z.ltb_ge. apply Z.ltb_ge. lia. Qed.

(** The sort is stable: the elements of one key keep their order. *)
Lemma insort_key_stable {A} (k : Z) (x : Z * A) (l : list (Z * A)) :
  List.filter (fun p => p.1 =? k) (insort key_lt x l)
  = List.filter (fun p => p.1 =? k) (x :: l).
Proof.
  induction l as [|y l IH]; cbn [insort]; [done|].
  destruct (key_lt y x) eqn:E; [|done].
  unfold key_lt in E. apply Z.ltb_lt in E.
  cbn [List.filter] in *. rewrite IH.
  destruct (x.1 =? k) eqn:Ex, (y.1 =? k) eqn:Ey; try done.
  apply Z.eqb_eq in Ex, Ey. lia.
Qed.

Lemma list_sort_key_stable {A} (k : Z) (l : list (Z * A)) :
  List.filter (fun p => p.1 =? k) (list_sort key_lt l)
  = List.filter (fun p => p.1 =? k) l.
Proof.
  induction l as [|x l IH]; cbn [list_sort foldr]; [done|].
  fold (list_sort (@key_lt A) l). rewrite insort_key_stable.
  cbn [List.filter]. by rewrite IH.
Qed.

(* ===================================================================== *)
(** ** The directory listing *)
(* ===================================================================== *)

Lemma snd_zip_same {A B} (ks : list A) (l : list B) :
  length ks = length l -> map snd (zip ks l) = l.
Proof.
  revert l. induction ks as [|k ks IH]; intros [|x l]; cbn; try done.
  intros [= H]. by rewrite IH.
Qed.

Lemma ascending_fst {A} (l : list (Z * A)) :
  ascending key_lt l -> ascending Z.ltb (map fst l).
Proof.
  induction l as [|x l IH]; cbn [ascending map]; [done|].
  intros [H1 H2]. split; [|by apply IH].
  clear -H1. induction H1; cbn [map]; constructor; auto.
Qed.

Lemma filter_key_snd (key : string -> result Z) (t : Z) (l : list (Z * string)) :
  Forall (fun q => key q.2 = Ok q.1) l ->
  List.filter (has_key key t) (map snd l)
  = map snd (List.filter (fun q => q.1 =? t) l).
Proof.
  induction 1 as [|q l Hq _ IH]; cbn [map List.filter]; [done|].
  rewrite IH. unfold has_key at 1. rewrite Hq.
  by destruct (q.1 =? t).
Qed.

Lemma sort_keys_Ok (key : string -> result Z) (files : list string) (keys : list Z) :
  sort_keys key files = Ok keys <-> Forall2 (fun p k => key p = Ok k) files keys.
Proof.
  revert keys. induction files as [|f files IH]; intros keys; cbn [sort_keys].
  - split.
    + intros [= <-]. constructor.
    + intros H. by inversion H.
  - destruct (key f) as [k|ex] eqn:Ek; cbn [rbind].
    + destruct (sort_keys key files) as [ks|ex] eqn:Es; cbn [rbind].
      * split.
        -- intros [= <-]. constructor; [done|]. by apply IH.
        -- intros H. inversion H as [|? k' ? ks' Hk Hks]; subst.
           apply IH in Hks. congruence.
      * split; [done|]. intros H. inversion H as [|? k' ? ks' Hk Hks]; subst.
        apply IH in Hks. done.
    + split; [done|]. intros H. inversion H; congruence.
Qed.

(** The sort raises when the key of a file does, and only then. *)
Lemma sort_keys_Raise (key : string -> result Z) (files : list string) :
  (forall ex, sort_keys key files = Raise ex ->
              exists p, In p files /\ key p = Raise ex)
  /\ (forall p ex, In p files -> key p = Raise ex ->
                   exists ex', sort_keys key files = Raise ex').
Proof.
  induction files as [|f files [IH1 IH2]]; cbn [sort_keys].
  - split; [done|]. intros p ex [].
  - split.
    + intros ex. destruct (key f) as [k|ex0] eqn:Ek; cbn [rbind].
      * destruct (sort_keys key files) as [ks|ex1] eqn:Es; cbn [rbind]; [done|].
        intros [= <-]. destruct (IH1 ex1 eq_refl) as (p & Hp & Hk).
        exists p. split; [by right|done].
      * intros [= <-]. exists f. split; [by left|done].
    + intros p ex [<- | Hp] Hk.
      * rewrite Hk. cbn [rbind]. by eexists.
      * destruct (key f) as [k|ex0]; cbn [rbind]; [|by eexists].
        destruct (IH2 p ex Hp Hk) as [ex' ->]. cbn [rbind]. by eexists.
Qed.

Lemma keyed_zip (key : string -> result Z) (files : list string) (keys : list Z) :
  sort_keys key files = Ok keys ->
  length keys = length files
  /\ Forall (fun q => key q.2 = Ok q.1) (zip keys files).
Proof.
  intros H. apply sort_keys_Ok in H.
  induction H; cbn [zip zip_with length]; [done|].
  destruct IHForall2 as [-> ?]. split; [done|]. constructor; auto.
Qed.

Lemma keyed_unzip (key : string -> result Z) (l : list (Z * string)) :
  Forall (fun q => key q.2 = Ok q.1) l ->
  sort_keys key (map snd l) = Ok (map fst l).
Proof.
  intros H. apply sort_keys_Ok.
  induction H; cbn [map]; constructor; auto.
Qed.

(** Sorting by a time stamp: the keys of the result ascend, files of one
    key keep their order, and the result permutes the input. *)
Lemma sort_by_key_ok (key : string -> result Z) (files : list string) (keys : list Z) :
  sort_keys key files = Ok keys ->
  let l := list_sort_key keys files in
  Permutation l files
  /\ (exists ks, sort_keys key l = Ok ks /\ ascending Z.ltb ks)
  /\ forall t, List.filter (has_key key t) l = List.filter (has_key key t) files.
Proof.
  intros E. destruct (keyed_zip key files keys E) as [Hl Hz].
  assert (Forall (fun q => key q.2 = Ok q.1) (list_sort key_lt (zip keys files))) as Hs.
  { by rewrite list_sort_perm. }
  cbn zeta. unfold list_sort_key. split; [|split].
  - rewrite <- (snd_zip_same keys files Hl) at 2.
    apply Permutation_map, list_sort_perm.
  - exists (map fst (list_sort key_lt (zip keys files))).
    split; [by apply keyed_unzip|].
    apply ascending_fst, list_sort_ascending.
    + apply key_lt_asym.
    + apply key_le_trans.
  - intros t. rewrite (filter_key_snd key t _ Hs), list_sort_key_stable.
    rewrite <- (filter_key_snd key t _ Hz). by rewrite snd_zip_same.
Qed.

Section ProgramFacts.

Context {W : Type} {sys : System W} {host : Host W}.

Lemma sort_files_perm w k files l :
  sort_files w k files = Ok l -> Permutation l files.
Proof.
  unfold sort_files.
  destruct (String.eqb k "name").
  { intros [= <-]. apply list_sort_perm. }
  destruct (String.eqb k "created").
  { destruct (sort_keys (getctime w) files) as [keys|] eqn:E; cbn [rbind]; [|done].
    intros [= <-]. apply (sort_by_key_ok _ _ _ E). }
  destruct (String.eqb k "modified").
  { destruct (sort_keys (getmtime w) files) as [keys|] eqn:E; cbn [rbind]; [|done].
    intros [= <-]. apply (sort_by_key_ok _ _ _ E). }
  by intros [= <-].
Qed.

Lemma regular_files_isfile w d names :
  Forall (fun p => isfile w p = true) (regular_files w d names).
Proof.
  unfold regular_files. induction names as [|f names IH]; cbn [List.filter map]; [done|].
  destruct (isfile w (path_join d f)) eqn:E; cbn [map]; auto.
Qed.

(** X10. Whatever the sort key, what [get_sorted_files] returns is a
    rearrangement of the regular files of the directory (each name joined
    to the directory, in particular none when the directory is missing):
    nothing is lost, added or repeated.  The call logs one record, runs
    no tool and leaves the world as it is. *)
Theorem get_sorted_files_lists_regular_files d k st st' l :
  get_sorted_files d k st = (st', Ok l) ->
  Permutation l (listed (world st) d)
  /\ Forall (fun p => isfile (world st) p = true) l
  /\ exists lv template args,
       st' = State (world st) (trace st ++ [EvLog lv template args]).
Proof.
  unfold get_sorted_files, listed, bind, log, emit, ret, lift, raise.
  destruct (listdir (world st) d) as [names|ex]; cbn [world trace].
  - pose proof (regular_files_isfile (world st) d names) as Hf.
    destruct (regular_files (world st) d names) as [|p files] eqn:E; cbn [negb].
    + intros [= <- <-]. repeat split; eauto.
    + destruct (sort_files (world st) k (p :: files)) as [l'|ex] eqn:Es; [|done].
      intros [= <- <-]. apply sort_files_perm in Es.
      split; [done|]. split; [|eauto].
      by rewrite Es.
  - destruct ex; try done. intros [= <- <-]. repeat split; eauto.
Qed.

(** X11. Sorted by name, the paths that [get_sorted_files] returns
    ascend in the order of [str]: no path is smaller than one before it.
    The call raises exactly when [os.listdir] raises something other than
    [FileNotFoundError], which the handler of line 80 does not catch, and
    it raises that exception; a [FileNotFoundError] of the listing gives
    the empty list. *)
Theorem get_sorted_files_by_name d st :
  match (get_sorted_files d "name" st).2 with
  | Ok l => ascending str_lt l
  | Raise ex => listdir (world st) d = Raise ex /\ ex <> FileNotFoundError
  end
  /\ (forall ex, listdir (world st) d = Raise ex -> ex <> FileNotFoundError ->
                 (get_sorted_files d "name" st).2 = Raise ex)
  /\ (listdir (world st) d = Raise FileNotFoundError ->
      (get_sorted_files d "name" st).2 = Ok []).
Proof.
  unfold get_sorted_files, bind, log, emit, ret, lift, raise.
  destruct (listdir (world st) d) as [names|ex]; cbn [world trace fst snd].
  - split; [|done].
    destruct (regular_files (world st) d names) as [|p files]; cbn [negb snd]; [done|].
    unfold sort_files. cbn [String.eqb Ascii.eqb Bool.eqb andb snd].
    apply list_sort_ascending; [apply str_lt_asym|apply str_le_trans].
  - destruct ex; cbn [snd].
    all: split; [done|]; split; [|done]; intros ? [= <-] ?; done.
Qed.

(** X12. Sorted by creation or modification time, [get_sorted_files]
    returns the files with ascending time stamps, files of equal time
    stamp in the order of the listing.  When a listed file has no time
    stamp any more, the exception of the key function leaves
    [get_sorted_files], whose handler covers the listing only: the call
    returns only if every listed file has a time stamp.  What it raises
    is an exception of the key function on a listed file, or what
    [os.listdir] raised other than [FileNotFoundError]. *)
Theorem get_sorted_files_by_time d k key st :
  (k = "created" /\ key = getctime (world st))
  \/ (k = "modified" /\ key = getmtime (world st)) ->
  match (get_sorted_files d k st).2 with
  | Ok l =>
      (exists ks, sort_keys key l = Ok ks /\ ascending Z.ltb ks)
      /\ forall t, List.filter (has_key key t) l
                   = List.filter (has_key key t) (listed (world st) d)
  | Raise ex =>
      (listdir (world st) d = Raise ex /\ ex <> FileNotFoundError)
      \/ (exists p, In p (listed (world st) d) /\ key p = Raise ex)
  end
  /\ (forall p ex, In p (listed (world st) d) -> key p = Raise ex ->
                   exists ex', (get_sorted_files d k st).2 = Raise ex').
Proof.
  intros Hk.
  unfold get_sorted_files, listed, bind, log, emit, ret, lift, raise.
  destruct (listdir (world st) d) as [names|ex]; cbn [world trace fst snd].
  2: { destruct ex; cbn [snd].
       all: split; [|by intros ? ? []].
       all: first [ by split; [exists []|] | left; by split ]. }
  destruct (regular_files (world st) d names) as [|p files] eqn:E; cbn [negb snd].
  { split; [|by intros ? ? []]. split; [by exists []|done]. }
  assert (sort_files (world st) k (p :: files)
          = rbind (sort_keys key (p :: files))
                  (fun keys => Ok (list_sort_key keys (p :: files)))) as ->.
  { unfold sort_files. destruct Hk as [[-> ->] | [-> ->]]; reflexivity. }
  destruct (sort_keys_Raise key (p :: files)) as [Hr1 Hr2].
  destruct (sort_keys key (p :: files)) as [keys|ex] eqn:Es; cbn [rbind snd].
  - destruct (sort_by_key_ok key (p :: files) keys Es) as (_ & H2 & H3).
    split; [by split|].
    intros q ex Hq Hkq. destruct (Hr2 q ex Hq Hkq) as [ex' ?]. done.
  - split; [right; by apply Hr1|]. intros. by eexists.
Qed.

End ProgramFacts.

(* ===================================================================== *)
(** ** The entry point *)
(* ===================================================================== *)

Section MainFacts.

Context {W : Type} {sys : System W} {host : Host W}.

Ltac main_step :=
  match goal with
  | |- context [if negb (match ?l with [] => _ | _ :: _ => _ end) then _ else _] =>
      destruct l eqn:?
  | |- context [if negb ?x then _ else _] => destruct x eqn:?
  | |- context [match ?x with _ => _ end] =>
      match x with
      | context [match _ with _ => _ end] => fail 1
      | context [if _ then _ else _] => fail 1
      | _ => destruct x eqn:?
      end
  end.
Ltac main_exec :=
  unfold main, parse_arguments, bind, log, print, emit, ret, raise, lift;
  cbn [world trace fst snd negb];
  repeat (main_step; cbn [world trace fst snd negb]; try discriminate).
Ltac trace_norm := cbn [trace world]; rewrite <- ?app_assoc; cbn [app].

(** The state [get_sorted_files] leaves: the world as it was, and at
    most one log record. *)
Lemma get_sorted_files_state d k st :
  exists new,
    (get_sorted_files d k st).1 = State (world st) (trace st ++ new)
    /\ forallb read_only new = true
    /\ count_where is_run new = 0%nat
    /\ ((get_sorted_files d k st).2 = Ok [] -> listed (world st) d = []).
Proof.
  unfold get_sorted_files, listed, bind, log, emit, ret, lift, raise.
  destruct (listdir (world st) d) as [names|ex]; cbn [world trace fst snd].
  - destruct (regular_files (world st) d names) as [|p files] eqn:E; cbn [negb fst snd].
    + eexists. split; [reflexivity|]. done.
    + destruct (sort_files (world st) k (p :: files)) as [l|ex] eqn:Es; cbn [fst snd].
      * eexists. split; [reflexivity|]. split; [done|]. split; [done|].
        intros [= ->]. apply sort_files_perm in Es.
        by apply Permutation_nil_cons in Es.
      * exists []. rewrite app_nil_r. split; [by destruct st|]. done.
  - destruct ex; cbn [fst snd].
    all: first [ eexists; split; [reflexivity|]; done
               | exists []; rewrite app_nil_r; split; [by destruct st|]; done ].
Qed.

(** A text that [strptime] accepts denotes a valid [datetime] without
    microseconds. *)
Lemma strptime_valid s dt :
  Datetime.strptime s = Ok dt -> Datetime.valid dt = true /\ microsecond dt = 0.
Proof.
  intros H. apply strptime_sound in H.
  destruct H as (Y & m & pad & d & ws & H & M & S & _ & _ & _ & _ & _ & _
                 & _ & _ & _ & _ & _ & -> & Hv).
  by split.
Qed.

(** X13. What [parse_arguments] returns has been validated: there are
    at least three arguments, the directory exists, and the start time
    parses to a valid date and time.  So the [ValueError] handler of
    [main], which parses the same text with the same function, is never
    entered.  A validation that passes prints and logs nothing. *)
Theorem parse_arguments_validates argc parsed st st' args :
  parse_arguments argc parsed st = (st', Ok (Return args)) ->
  st' = st /\ parsed = inl args /\ (4 <= argc)%nat
  /\ isdir (world st) (directory args) = true
  /\ exists dt, parse_datetime (start_time args) = Ok dt
                /\ Datetime.valid dt = true /\ microsecond dt = 0.
Proof.
  unfold parse_arguments, bind, log, print, emit, ret.
  destruct (argc <? 4)%nat eqn:Ea; [done|]. apply Nat.ltb_ge in Ea.
  destruct parsed as [a|status]; [|done].
  unfold is_valid_datetime_format, parse_datetime.
  destruct (Datetime.strptime (start_time a)) as [dt|ex] eqn:Ep.
  2: { by destruct ex. }
  cbn [negb]. destruct (isdir (world st) (directory a)) eqn:Ed; cbn [negb]; [|done].
  intros [= <- <-]. repeat split; try done.
  exists dt. split; [done|]. exact (strptime_valid _ _ Ep).
Qed.

(** The shape of what [process_files] returns. *)
Lemma process_files_returns files start delta fix_id dry st :
  exists st' c, process_files files start delta fix_id dry st = (st', Ok c).
Proof.
  destruct (process_from_counts (length files) start delta fix_id dry
              (Counters 0 0 0 0) 0 files st) as (st1 & c1 & E & _).
  destruct (process_files_unfold _ _ _ _ _ _ _ _ E) as (summary & -> & _).
  eauto.
Qed.

(** X14. When [main] leaves through [sys.exit], no tool has run and
    the world is as it was.  The status is 1 (too few arguments, a start
    time that does not parse, or a missing directory), the status chosen
    by the argument parser, or 0 when the directory holds no regular
    file. *)
Theorem main_exit_before_any_run argc parsed st status :
  (main argc parsed st).2 = Ok (Exit status) ->
  world (main argc parsed st).1 = world st
  /\ (exists new, trace (main argc parsed st).1 = trace st ++ new
                  /\ count_where is_run new = 0%nat)
  /\ (status = 1
      \/ parsed = inr status
      \/ status = 0
         /\ exists args, parsed = inl args
                         /\ listed (world st) (directory args) = []).
Proof.
  destruct (main argc parsed st) as [st' r] eqn:E. cbn [fst snd]. intros ->.
  revert E. main_exec.
  all: try discriminate.
  all: intros [= <- <-]; cbn [world trace].
  all: try match goal with
       | H : get_sorted_files ?d ?k ?s0 = (_, _) |- _ =>
           destruct (get_sorted_files_state d k s0) as (new & Hst & _ & Hrun & Hnil);
           rewrite H in Hst, Hnil; cbn [fst snd world trace] in Hst, Hnil;
           rewrite Hst; specialize (Hnil eq_refl)
       end.
  all: split; [done|].
  all: split; [eexists; split; [cbn [trace world]; rewrite <- ?app_assoc; reflexivity|];
               rewrite ?count_where_app, ?Hrun; done|].
  all: eauto 10.
Qed.

(** A dry run of [process_files] produces read-only events. *)
Lemma process_files_dry files start delta fix_id st :
  Datetime.valid start = true ->
  exists new,
    trace (process_files files start delta fix_id true st).1 = trace st ++ new
    /\ forallb read_only new = true.
Proof.
  intros Hv.
  destruct (process_from_dry (length files) start delta fix_id
              (Counters 0 0 0 0) 0 files st Hv eq_refl)
    as (st1 & c1 & new & E & Htr & Hro & _).
  destruct (process_files_unfold _ _ _ _ _ _ _ _ E) as (summary & -> & Hs & _).
  exists (new ++ summary). cbn [fst trace].
  split; [by rewrite Htr, app_assoc|].
  by rewrite forallb_app, Hro, Hs.
Qed.

(** X15. With [--dry-run], whatever the arguments and the directory,
    [main] from its first line to its last only reads: it never calls the
    update operation or the writability check, never tests permissions,
    and never runs the tool with a command that writes. *)
Theorem main_dry_run_reads_only argc args st :
  dry_run args = true ->
  exists new,
    trace (main argc (inl args) st).1 = trace st ++ new
    /\ forallb read_only new = true.
Proof.
  intros Hd. main_exec; try congruence.
  all: try match goal with
       | H : get_sorted_files ?d ?k ?s0 = (_, _) |- _ =>
           destruct (get_sorted_files_state d k s0) as (new1 & Hst & Hro1 & _);
           rewrite H in Hst; cbn [fst snd world trace] in Hst; subst; clear H
       end.
  all: try match goal with
       | H : process_files ?f ?a ?dl ?fx true ?s0 = (_, _),
         Hp : parse_datetime _ = Ok ?a |- _ =>
           destruct (process_files_dry f a dl fx s0
                       (proj1 (strptime_valid _ _ Hp))) as (new2 & Htr2 & Hro2);
           rewrite H in Htr2; cbn [fst snd world trace] in Htr2; rewrite ?Htr2;
           clear H
       end.
  all: eexists; (split; [cbn [trace world]; rewrite <- ?app_assoc; reflexivity|]).
  all: rewrite ?forallb_app, ?Hro1, ?Hro2; done.
Qed.

End MainFacts.

(* ===================================================================== *)
(** ** Formatting, then parsing *)
(* ===================================================================== *)

Lemma digit_char_spec (d : Z) :
  Py.is_digit (Py.digit_char d) = true
  /\ Py.digit_val (Py.digit_char d) = d mod 10.
Proof.
  unfold Py.digit_char.
  assert (0 <= d mod 10 < 10) as Hr by (apply Z.mod_pos_bound; lia).
  assert (d mod 10 = 0 \/ d mod 10 = 1 \/ d mod 10 = 2 \/ d mod 10 = 3
          \/ d mod 10 = 4 \/ d mod 10 = 5 \/ d mod 10 = 6 \/ d mod 10 = 7
          \/ d mod 10 = 8 \/ d mod 10 = 9) as H by lia.
  repeat destruct H as [-> | H]; try rewrite H; by vm_compute.
Qed.

Lemma pad2_digits (v : Z) :
  0 <= v <= 99 ->
  exists a b, Py.is_digit a = true /\ Py.is_digit b = true /\ v = Spec.num2 a b.
Proof.
  intros Hv. exists (Py.digit_char (v / 10)), (Py.digit_char v).
  destruct (digit_char_spec (v / 10)) as [H1 E1].
  destruct (digit_char_spec v) as [H2 E2].
  split; [done|]. split; [done|].
  unfold Spec.num2. rewrite E1, E2.
  rewrite (Z.mod_small (v / 10)) by (Z.div_mod_to_equations; lia).
  Z.div_mod_to_equations; lia.
Qed.

Lemma pad4_digits (v : Z) :
  0 <= v <= 9999 ->
  exists a b c d,
    Py.is_digit a = true /\ Py.is_digit b = true
    /\ Py.is_digit c = true /\ Py.is_digit d = true
    /\ v = Spec.num4 a b c d.
Proof.
  intros Hv.
  exists (Py.digit_char (v / 1000)), (Py.digit_char (v / 100)),
         (Py.digit_char (v / 10)), (Py.digit_char v).
  destruct (digit_char_spec (v / 1000)) as [H1 E1].
  destruct (digit_char_spec (v / 100)) as [H2 E2].
  destruct (digit_char_spec (v / 10)) as [H3 E3].
  destruct (digit_char_spec v) as [H4 E4].
  repeat (split; [done|]).
  unfold Spec.num4, Spec.num2. rewrite E1, E2, E3, E4.
  rewrite (Z.mod_small (v / 1000)) by (Z.div_mod_to_equations; lia).
  Z.div_mod_to_equations; lia.
Qed.

Lemma canonical_fields_digits (y1 y2 y3 y4 m1 m2 d1 d2 h1 h2 n1 n2 s1 s2 : ascii) :
  forallb Py.is_digit [y1; y2; y3; y4; m1; m2; d1; d2; h1; h2; n1; n2; s1; s2] = true ->
  Spec.canonical_fields
    (String y1 (String y2 (String y3 (String y4 (String ":" (String m1 (String m2
    (String ":" (String d1 (String d2 (String " " (String h1 (String h2 (String ":"
    (String n1 (String n2 (String ":" (String s1 (String s2 "")))))))))))))))))))
  = Some (Datetime (Spec.num4 y1 y2 y3 y4) (Spec.num2 m1 m2) (Spec.num2 d1 d2)
                   (Spec.num2 h1 h2) (Spec.num2 n1 n2) (Spec.num2 s1 s2) 0).
Proof.
  intros H. unfold Spec.canonical_fields. cbn [list_ascii_of_string].
  rewrite H. reflexivity.
Qed.

(** The text of a valid [datetime] is canonical when the year is printed
    with four digits. *)
Lemma strftime_canonical (pad : bool) (dt : datetime) :
  Datetime.valid dt = true ->
  pad = true \/ 1000 <= year dt ->
  Spec.canonical_fields (Datetime.strftime pad dt)
  = Some (Datetime (year dt) (month dt) (day dt) (hour dt) (minute dt) (second dt) 0).
Proof.
  intros Hv Hp.
  apply valid_fields in Hv as [Hdate Htime].
  pose proof (date_fields_range _ _ _ Hdate) as (Hy & Hm & Hd).
  pose proof (time_fields_range _ _ _ _ Htime) as (Hh & Hn & Hs & _).
  destruct (pad4_digits (year dt)) as (y1 & y2 & y3 & y4 & ? & ? & ? & ? & Ey); [lia|].
  destruct (pad2_digits (month dt)) as (m1 & m2 & ? & ? & Em); [lia|].
  destruct (pad2_digits (day dt)) as (d1 & d2 & ? & ? & Ed); [lia|].
  destruct (pad2_digits (hour dt)) as (h1 & h2 & ? & ? & Eh); [lia|].
  destruct (pad2_digits (minute dt)) as (n1 & n2 & ? & ? & En); [lia|].
  destruct (pad2_digits (second dt)) as (s1 & s2 & ? & ? & Es); [lia|].
  assert (forallb Py.is_digit [y1; y2; y3; y4; m1; m2; d1; d2; h1; h2; n1; n2; s1; s2]
          = true) as Hdig.
  { cbn [forallb]. rewrite !andb_true_iff. repeat split; done. }
  pose proof (canonical_fields_digits _ _ _ _ _ _ _ _ _ _ _ _ _ _ Hdig) as Hc.
  rewrite <- Ey, <- Em, <- Ed, <- Eh, <- En, <- Es in Hc.
  rewrite <- Hc. f_equal.
  pose proof (canonical_strftime _ _ pad Hc) as Hf.
  cbn [year] in Hf. rewrite <- Hf by done.
  by destruct dt.
Qed.

(** The text of a year below 1000 printed without padding is no
    timestamp that [strptime] accepts. *)
Lemma short_year_rejected (y : Z) (rest : string) (dt : datetime) :
  1 <= y < 1000 ->
  Datetime.strptime (Py.str_small y +:+ ":" +:+ rest) <> Ok dt.
Proof.
  intros Hy H. apply strptime_sound in H.
  destruct H as (Y & m & pad & d & ws & H & M & S & E & HY & HYl & _).
  destruct Y as [|a [|b [|c [|e [|? ?]]]]]; try done.
  cbn [Py.all_digits] in HY.
  repeat (apply andb_true_iff in HY as [? HY]).
  unfold Py.str_small in E.
  destruct (Z.ltb_spec y 10); [|destruct (Z.ltb_spec y 100);
                                 [|destruct (Z.ltb_spec y 1000); [|lia]]].
  all: unfold Py.pad2 in E; autorewrite with strs in E.
  all: simplify_eq.
  all: match goal with H : Py.is_digit ":" = true |- _ => by vm_compute in H end.
Qed.

(** Parsing the text of a valid [datetime] whose year is printed with
    four digits gives the [datetime] back, without its microseconds. *)
Lemma strptime_strftime (pad : bool) (dt : datetime) :
  Datetime.valid dt = true ->
  pad = true \/ 1000 <= year dt ->
  Datetime.strptime (Datetime.strftime pad dt)
  = Ok (Datetime (year dt) (month dt) (day dt) (hour dt) (minute dt) (second dt) 0).
Proof.
  intros Hv Hp.
  pose proof (strftime_canonical pad dt Hv Hp) as Hc.
  apply strptime_complete, canonical_accepted; [done|].
  apply valid_fields in Hv as [Hdate Htime].
  unfold Datetime.valid.
  cbn [year month day hour minute second microsecond].
  rewrite Hdate. cbn [andb].
  apply time_fields_range in Htime as (? & ? & ? & _).
  unfold Datetime.check_time_fields.
  rewrite !andb_true_iff, !Z.leb_le. lia.
Qed.

Section RoundTrip.

Context {W : Type} {sys : System W}.

(** X16. Formatting a valid [datetime] and parsing the text gives the
    [datetime] back without its microseconds, provided the year is
    printed with four digits: the C library pads it, or it is 1000 or
    later.  Otherwise the text starts with fewer than four digits and
    [parse_datetime] raises [ValueError]. *)
Theorem parse_format_roundtrip (dt : datetime) :
  Datetime.valid dt = true ->
  parse_datetime (format_datetime dt)
  = if pad_year || (1000 <=? year dt)
    then Ok (Datetime (year dt) (month dt) (day dt)
                      (hour dt) (minute dt) (second dt) 0)
    else Raise ValueError.
Proof.
  intros Hv. unfold parse_datetime, format_datetime.
  destruct (pad_year || (1000 <=? year dt)) eqn:Hp.
  - apply strptime_strftime; [done|].
    apply orb_true_iff in Hp as [?|?%Z.leb_le]; auto.
  - apply orb_false_iff in Hp as [Hpad Hy]. apply Z.leb_gt in Hy.
    apply valid_fields in Hv as [Hdate _].
    apply date_fields_range in Hdate as (? & _).
    rewrite Hpad. unfold Datetime.strftime.
    destruct (Datetime.strptime _) as [dt'|ex] eqn:E.
    + exfalso. revert E. rewrite <- !string_app_assoc.
      rewrite !string_app_assoc. apply short_year_rejected. lia.
    + by rewrite (strptime_raises _ _ E).
Qed.

(** C4.  A canonical text parses, and formatting the result gives the
    text back when the year is printed with four digits: the year is
    1000 or later, or the C library pads it.  Where the C library prints
    the plain year, the round trip fails for every canonical text with a
    year below 1000: what [format_datetime] returns is not the text, is
    not of the shape [YYYY:MM:DD HH:MM:SS], and is rejected with
    [ValueError] by [parse_datetime]. *)
Theorem format_parse_roundtrip (s : string) :
  Spec.is_canonical s = true ->
  exists dt,
    parse_datetime s = Ok dt
    /\ (pad_year = true \/ 1000 <= year dt -> format_datetime dt = s)
    /\ (pad_year = false -> year dt < 1000 ->
        format_datetime dt <> s
        /\ Spec.is_canonical (format_datetime dt) = false
        /\ parse_datetime (format_datetime dt) = Raise ValueError).
Proof.
  unfold Spec.is_canonical at 1.
  destruct (Spec.canonical_fields s) as [dt|] eqn:E; [|done].
  intros Hv. exists dt.
  assert (parse_datetime s = Ok dt) as Hparse
    by (by apply strptime_complete, canonical_accepted).
  split; [done|]. split.
  { intros Hp. by apply canonical_strftime. }
  intros Hpad Hy.
  pose proof (valid_fields dt Hv) as [Hdate _].
  apply date_fields_range in Hdate as (Hy1 & _).
  assert (forall dt', parse_datetime (format_datetime dt) <> Ok dt') as Hrej.
  { intros dt'. unfold parse_datetime, format_datetime, Datetime.strftime.
    rewrite Hpad. apply short_year_rejected. lia. }
  split; [|split].
  - intros Heq. rewrite Heq in Hrej. by apply (Hrej dt).
  - unfold Spec.is_canonical.
    destruct (Spec.canonical_fields (format_datetime dt)) as [dt2|] eqn:E2; [|done].
    destruct (Datetime.valid dt2) eqn:Hv2; [|done].
    exfalso. apply (Hrej dt2).
    by apply strptime_complete, canonical_accepted.
  - unfold parse_datetime in *.
    destruct (Datetime.strptime (format_datetime dt)) as [dt'|ex] eqn:Ep.
    + by destruct (Hrej dt').
    + by rewrite (strptime_raises _ _ Ep).
Qed.

End RoundTrip.

(* ===================================================================== *)
(** ** Reading the output of the tool *)
(* ===================================================================== *)

Lemma snoc_app (cur : string) (c : ascii) (s : string) :
  Py.snoc cur c +:+ s = cur +:+ String c s.
Proof. unfold Py.snoc. by rewrite string_app_assoc, string_app_cons, string_app_empty_l. Qed.

Lemma not_linebreak_not_cr (c : ascii) :
  Py.is_linebreak c = false -> (Py.code c =? 13)%N = false.
Proof.
  unfold Py.is_linebreak. intros H. apply N.eqb_neq. intros E. rewrite E in H.
  by vm_compute in H.
Qed.

(** A text without line boundary is one line, unless it is empty. *)
Lemma splitlines_from_last (cur line : string) :
  forallb (fun c => negb (Py.is_linebreak c)) (list_ascii_of_string line) = true ->
  Py.splitlines_from cur line
  = if Py.truthy (cur +:+ line) then [cur +:+ line] else [].
Proof.
  revert cur. induction line as [|c line IH]; intros cur H.
  - cbn [Py.splitlines_from]. by rewrite string_app_empty_r.
  - cbn [list_ascii_of_string forallb] in H.
    apply andb_true_iff in H as [Hc H]. apply negb_true_iff in Hc.
    cbn [Py.splitlines_from]. rewrite (not_linebreak_not_cr c Hc), Hc.
    rewrite IH by done. by rewrite snoc_app.
Qed.

(** A line feed after a text without line boundary ends a line. *)
Lemma splitlines_from_line (cur line rest : string) :
  forallb (fun c => negb (Py.is_linebreak c)) (list_ascii_of_string line) = true ->
  Py.splitlines_from cur (line +:+ String "010" rest)
  = (cur +:+ line) :: Py.splitlines_from "" rest.
Proof.
  revert cur. induction line as [|c line IH]; intros cur H.
  - rewrite string_app_empty_l, string_app_empty_r. reflexivity.
  - cbn [list_ascii_of_string forallb] in H.
    apply andb_true_iff in H as [Hc H]. apply negb_true_iff in Hc.
    rewrite string_app_cons.
    cbn [Py.splitlines_from]. rewrite (not_linebreak_not_cr c Hc), Hc.
    rewrite IH by done. by rewrite snoc_app.
Qed.

(** Folding a step that only adds to the dictionary. *)
Lemma fold_left_union (f : gmap string string -> string -> gmap string string) :
  (forall m x, f m x = f ∅ x ∪ m) ->
  forall lines m, fold_left f lines m = fold_left f lines ∅ ∪ m.
Proof.
  intros Hf lines. induction lines as [|x lines IH]; intros m; cbn [fold_left].
  - by rewrite (left_id_L ∅ (∪)).
  - rewrite IH, (IH (f ∅ x)), <- (assoc_L (∪)). f_equal. apply Hf.
Qed.


Lemma split_colon_space_cons (c c' : ascii) (r : string) :
  Py.split_colon_space (String c (String c' r))
  = if (Py.code c =? 58)%N && (Py.code c' =? 32)%N then Some ("", r)
    else match Py.split_colon_space (String c' r) with
         | Some (a, b) => Some (String c a, b)
         | None => None
         end.
Proof. reflexivity. Qed.

Lemma split_colon_space_first (tag value : string) :
  Py.split_colon_space tag = None ->
  Py.split_colon_space (tag +:+ ": " +:+ value) = Some (tag, value).
Proof.
  induction tag as [|c tag IH]; intros H.
  - reflexivity.
  - rewrite string_app_cons. destruct tag as [|c' tag].
    + rewrite string_app_empty_l, !string_app_cons, string_app_empty_l.
      rewrite !split_colon_space_cons.
      change (Py.code ":" =? 32)%N with false.
      change (Py.code ":" =? 58)%N with true.
      change (Py.code " " =? 32)%N with true.
      rewrite andb_false_r. reflexivity.
    + rewrite split_colon_space_cons in H.
      destruct ((Py.code c =? 58)%N && (Py.code c' =? 32)%N) eqn:E; [done|].
      destruct (Py.split_colon_space (String c' tag)) as [[? ?]|] eqn:E'; [done|].
      specialize (IH eq_refl). rewrite string_app_cons in IH |- *.
      by rewrite split_colon_space_cons, E, IH.
Qed.


(* ===================================================================== *)
(** ** The calendar *)
(* ===================================================================== *)

Section CalendarFacts.
Import Datetime.

(** The month and the day of the [r]-th day of a year, as [_ord2ymd]
    finds them: the estimate [(r + 50) >> 5] of the month is right or one
    too large. *)
Lemma month_day_table (r : Z) (lp : bool) :
  0 <= r < 365 ->
  let m := Z.shiftr (r + 50) 5 in
  let preceding := table DAYS_BEFORE_MONTH m + (if (2 <? m) && lp then 1 else 0) in
  let before :=
    preceding - (table DAYS_IN_MONTH (m - 1) + (if (m - 1 =? 2) && lp then 1 else 0)) in
  let ok (m' d' : Z) :=
    1 <= m' <= 12
    /\ 1 <= d' <= (if (m' =? 2) && lp then 29 else table DAYS_IN_MONTH m')
    /\ table DAYS_BEFORE_MONTH m' + (if (2 <? m') && lp then 1 else 0) + d' = r + 1 in
  if r <? preceding then ok (m - 1) (r - before + 1) else ok m (r - preceding + 1).
Proof.
  intros Hr.
  assert (exists i, (i < 365)%nat /\ r = Z.of_nat i) as (i & Hi & ->)
    by (exists (Z.to_nat r); lia).
  clear Hr.
  do 365 (destruct i as [|i];
          [destruct lp; vm_compute; repeat split; (reflexivity || discriminate)|]).
  lia.
Qed.

Lemma is_leap_digits (a b c d : Z) :
  0 <= b <= 3 -> 0 <= c <= 24 -> 0 <= d <= 3 ->
  is_leap (a * 400 + 1 + b * 100 + c * 4 + d)
  = (d =? 3) && (negb (c =? 24) || (b =? 3)).
Proof.
  intros Hb Hc Hd. unfold is_leap.
  destruct (Z.eqb_spec d 3), (Z.eqb_spec c 24), (Z.eqb_spec b 3);
    cbn [negb andb orb];
    repeat match goal with
    | |- context [?x mod ?k =? 0] => destruct (Z.eqb_spec (x mod k) 0)
    end; cbn [negb andb orb]; try reflexivity;
    exfalso; Z.div_mod_to_equations; lia.
Qed.

Lemma days_before_year_digits (a b c d : Z) :
  0 <= b <= 3 -> 0 <= c <= 24 -> 0 <= d <= 3 ->
  days_before_year (a * 400 + 1 + b * 100 + c * 4 + d)
  = 146097 * a + 36524 * b + 1461 * c + 365 * d.
Proof.
  intros Hb Hc Hd. unfold days_before_year.
  Z.div_mod_to_equations. lia.
Qed.

(** The date of an ordinal: a date of the calendar, whose ordinal it is. *)
Lemma ord2ymd_spec (n : Z) :
  1 <= n ->
  let '(y, m, d) := ord2ymd n in
  1 <= y /\ (n <= MAXORDINAL -> y <= 9999)
  /\ 1 <= m <= 12 /\ 1 <= d <= days_in_month y m
  /\ ymd2ord y m d = n.
Proof.
  intros Hn. unfold ord2ymd. cbv zeta.
  unfold DI400Y, DI100Y, DI4Y, MAXORDINAL.
  set (a := (n - 1) / 146097). set (r1 := (n - 1) mod 146097).
  set (b := r1 / 36524). set (r2 := r1 mod 36524).
  set (c := r2 / 1461). set (r3 := r2 mod 1461).
  set (d1 := r3 / 365). set (r4 := r3 mod 365).
  assert (n - 1 = 146097 * a + r1 /\ 0 <= r1 < 146097) as [E1 B1]
    by (subst a r1; split; [apply Z.div_mod; lia|apply Z.mod_pos_bound; lia]).
  assert (r1 = 36524 * b + r2 /\ 0 <= r2 < 36524) as [E2 B2]
    by (subst b r2; split; [apply Z.div_mod; lia|apply Z.mod_pos_bound; lia]).
  assert (r2 = 1461 * c + r3 /\ 0 <= r3 < 1461) as [E3 B3]
    by (subst c r3; split; [apply Z.div_mod; lia|apply Z.mod_pos_bound; lia]).
  assert (r3 = 365 * d1 + r4 /\ 0 <= r4 < 365) as [E4 B4]
    by (subst d1 r4; split; [apply Z.div_mod; lia|apply Z.mod_pos_bound; lia]).
  clearbody a r1 b r2 c r3 d1 r4.
  assert (0 <= a /\ 0 <= b <= 4 /\ 0 <= c <= 24 /\ 0 <= d1 <= 4) as (Ha & Hb & Hc & Hd)
    by lia.
  destruct ((d1 =? 4) || (b =? 4)) eqn:Hlast.
  - (* the last day of a leap year *)
    assert (exists a' b' c', 0 <= b' <= 3 /\ 0 <= c' <= 24
              /\ a * 400 + 1 + b * 100 + c * 4 + d1 - 1
                 = a' * 400 + 1 + b' * 100 + c' * 4 + 3
              /\ n = 146097 * a' + 36524 * b' + 1461 * c' + 365 * 3 + 366
              /\ (negb (c' =? 24) || (b' =? 3)) = true) as
      (a' & b' & c' & Hb' & Hc' & -> & En & Hl).
    { apply orb_true_iff in Hlast as [?%Z.eqb_eq | ?%Z.eqb_eq].
      - exists a, b, c. repeat split; lia.
      - exists a, 3, 24. repeat split; lia. }
    pose proof (is_leap_digits a' b' c' 3 Hb' Hc' ltac:(lia)) as Hleap.
    rewrite Hl in Hleap. cbn in Hleap.
    pose proof (days_before_year_digits a' b' c' 3 Hb' Hc' ltac:(lia)) as Hdby.
    unfold ymd2ord, days_before_month, days_in_month. rewrite Hleap, Hdby.
    change (table DAYS_BEFORE_MONTH 12) with 334.
    change (table DAYS_IN_MONTH 12) with 31.
    cbn [Z.eqb Z.ltb Z.compare Pos.compare Pos.compare_cont Pos.eqb andb].
    lia.
  - apply orb_false_iff in Hlast as [?%Z.eqb_neq ?%Z.eqb_neq].
    pose proof (is_leap_digits a b c d1 ltac:(lia) Hc ltac:(lia)) as Hleap.
    pose proof (days_before_year_digits a b c d1 ltac:(lia) Hc ltac:(lia)) as Hdby.
    set (lp := (d1 =? 3) && (negb (c =? 24) || (b =? 3))) in *.
    pose proof (month_day_table r4 lp B4) as Ht. cbv zeta in Ht.
    unfold ymd2ord, days_before_month, days_in_month.
    destruct (r4 <? _); rewrite Hleap, Hdby; lia.
Qed.

Ltac month_cases m :=
  let Hc := fresh "Hc" in
  assert (m = 1 \/ m = 2 \/ m = 3 \/ m = 4 \/ m = 5 \/ m = 6 \/ m = 7 \/ m = 8
          \/ m = 9 \/ m = 10 \/ m = 11 \/ m = 12) as Hc by lia;
  repeat destruct Hc as [-> | Hc]; try subst m.

Ltac tables :=
  cbn [Z.eqb Z.ltb Z.compare Pos.compare Pos.compare_cont andb Pos.eqb] in *;
  repeat match goal with
  | |- context [table ?t ?k] =>
      let v := eval vm_compute in (table t k) in change (table t k) with v
  | H : context [table ?t ?k] |- _ =>
      let v := eval vm_compute in (table t k) in change (table t k) with v in H
  end.

Lemma ymd2ord_in_year (y m d : Z) :
  1 <= m <= 12 -> 1 <= d <= days_in_month y m ->
  days_before_year y < ymd2ord y m d <= days_before_year (y + 1).
Proof.
  intros Hm Hd. rewrite days_before_year_step.
  unfold ymd2ord, days_before_month, days_in_month in *.
  destruct (is_leap y); month_cases m; tables; lia.
Qed.

Lemma days_before_year_mono (y y' : Z) :
  y <= y' -> days_before_year y <= days_before_year y'.
Proof. unfold days_before_year. intros H. Z.div_mod_to_equations. lia. Qed.

(** Two dates of the calendar with the same ordinal are the same date. *)
Lemma ymd2ord_inj (y m d y' m' d' : Z) :
  1 <= m <= 12 -> 1 <= d <= days_in_month y m ->
  1 <= m' <= 12 -> 1 <= d' <= days_in_month y' m' ->
  ymd2ord y m d = ymd2ord y' m' d' ->
  y = y' /\ m = m' /\ d = d'.
Proof.
  intros Hm Hd Hm' Hd' E.
  pose proof (ymd2ord_in_year y m d Hm Hd) as B.
  pose proof (ymd2ord_in_year y' m' d' Hm' Hd') as B'.
  assert (y = y') as <-.
  { destruct (Z.lt_trichotomy y y') as [Hlt | [? | Hlt]]; [|done|].
    - pose proof (days_before_year_mono (y + 1) y' ltac:(lia)). lia.
    - pose proof (days_before_year_mono (y' + 1) y ltac:(lia)). lia. }
  split; [done|]. clear B B'.
  unfold ymd2ord, days_before_month, days_in_month in *.
  destruct (is_leap y); month_cases m; month_cases m'; tables; lia.
Qed.

(** The ordinal of a date of the calendar is the ordinal of that date
    only. *)
Lemma ord2ymd_ymd2ord (y m d : Z) :
  check_date_fields y m d = true -> ord2ymd (ymd2ord y m d) = (y, m, d).
Proof.
  intros H. pose proof (ymd2ord_bounds y m d H) as [Hlo _].
  pose proof (date_fields_range _ _ _ H) as (_ & Hm & Hd1).
  unfold check_date_fields in H. apply andb_true_iff in H as [_ Hd2%Z.leb_le].
  pose proof (ord2ymd_spec (ymd2ord y m d) Hlo) as Hs.
  destruct (ord2ymd (ymd2ord y m d)) as [[y' m'] d'].
  destruct Hs as (_ & _ & Hm' & Hd' & E).
  destruct (ymd2ord_inj y' m' d' y m d) as (-> & -> & ->); try done. lia.
Qed.

(** What [datetime + timedelta] returns is a valid [datetime], exactly
    that many microseconds later. *)
Lemma add_spec (dt dt' : datetime) (td : timedelta) :
  add dt td = Ok dt' ->
  valid dt' = true /\ elapsed_us dt' = elapsed_us dt + total_us td.
Proof.
  unfold add, elapsed_us.
  set (total := _ + total_us td).
  destruct ((0 <? total / US_PER_DAY) && (total / US_PER_DAY <=? MAXORDINAL)) eqn:Hr;
    [|done].
  apply andb_true_iff in Hr as [Hlo%Z.ltb_lt Hhi%Z.leb_le].
  pose proof (ord2ymd_spec (total / US_PER_DAY) ltac:(lia)) as Hs.
  destruct (ord2ymd (total / US_PER_DAY)) as [[y m] d].
  destruct Hs as (Hy1 & Hy2 & Hm & Hd & Eo). specialize (Hy2 Hhi).
  intros [= <-]. cbn [year month day hour minute second microsecond].
  rewrite Eo. clear Eo. unfold valid, check_date_fields, check_time_fields.
  cbn [year month day hour minute second microsecond].
  unfold MINYEAR, MAXYEAR, US_PER_DAY in *.
  rewrite !andb_true_iff, !Z.leb_le.
  clearbody total. Z.div_mod_to_equations. lia.
Qed.

(** Adding in two steps is adding the sum. *)
Lemma add_add (dt dt1 : datetime) (a b : Z) :
  add dt (Timedelta a) = Ok dt1 ->
  add dt1 (Timedelta b) = add dt (Timedelta (a + b)).
Proof.
  intros H. apply add_spec in H as [_ E]. unfold elapsed_us in E.
  cbn [total_us] in E. unfold add. cbn [total_us]. rewrite E.
  by rewrite Z.add_assoc.
Qed.

(** Adding nothing changes nothing. *)
Lemma add_zero (dt : datetime) : valid dt = true -> add dt (Timedelta 0) = Ok dt.
Proof.
  intros Hv. apply valid_fields in Hv as [Hd Ht].
  pose proof (ymd2ord_bounds _ _ _ Hd) as Ho.
  pose proof (time_fields_range _ _ _ _ Ht) as (? & ? & ? & ?).
  pose proof (ord2ymd_ymd2ord _ _ _ Hd) as Hinv.
  unfold add. cbn [total_us]. rewrite Z.add_0_r.
  set (o := ymd2ord _ _ _) in *.
  set (total := o * US_PER_DAY + _ + _).
  assert (total / US_PER_DAY = o) as ->.
  { subst total. unfold US_PER_DAY. Z.div_mod_to_equations. lia. }
  unfold MAXORDINAL in *.
  destruct (Z.ltb_spec 0 o); [|lia]. destruct (Z.leb_spec o 3652059); [|lia].
  cbn [andb]. rewrite Hinv. destruct dt as [y m d h mi s us].
  cbn [year month day hour minute second microsecond] in *.
  f_equal. f_equal; subst total; unfold US_PER_DAY;
    clearbody o; Z.div_mod_to_equations; lia.
Qed.

End CalendarFacts.

(* ===================================================================== *)
(** ** The timestamps of the slots *)
(* ===================================================================== *)

Section SlotFacts.

Context {W : Type} {sys : System W}.

(** X19. The timestamp of a slot, when there is one, is the text of a
    valid date and time that lies [k] intervals after the start, to the
    microsecond; and when its year is printed with four digits, it is a
    text that the program's own validation accepts. *)
Theorem slot_timestamp_wellformed (start : datetime) (delta : timedelta)
    (k : nat) (ts : string) :
  slot_timestamp start delta k = Ok ts ->
  exists dt,
    Datetime.valid dt = true
    /\ ts = format_datetime dt
    /\ elapsed_us dt = elapsed_us start + total_us delta * Z.of_nat k
    /\ (pad_year = true \/ 1000 <= year dt -> is_valid_datetime_format ts = true).
Proof.
  unfold slot_timestamp, Datetime.delta_mul, Datetime.make_delta.
  destruct (_ && _); cbn [rbind]; [|done].
  destruct (Datetime.add start _) as [dt|ex] eqn:E; cbn [rbind]; [|done].
  intros [= <-]. apply add_spec in E as [Hv He]. cbn [total_us] in He.
  exists dt. split; [done|]. split; [done|]. split; [done|].
  intros Hp. unfold is_valid_datetime_format, format_datetime.
  by rewrite (strptime_strftime _ _ Hv Hp).
Qed.

(** X20. The first slot is the start: its timestamp is the text of the
    start time, whatever the interval; and with an interval of zero every
    slot has that timestamp. *)
Theorem slot_zero_is_start (start : datetime) (delta : timedelta) :
  Datetime.valid start = true ->
  slot_timestamp start delta 0 = Ok (format_datetime start)
  /\ forall k, slot_timestamp start (Timedelta 0) k = Ok (format_datetime start).
Proof.
  intros Hv. split.
  - unfold slot_timestamp. cbn [Z.of_nat]. rewrite delta_mul_0. cbn [rbind].
    by rewrite (add_zero start Hv).
  - intros k. unfold slot_timestamp, Datetime.delta_mul, Datetime.make_delta.
    cbn [total_us]. rewrite Z.mul_0_l. cbn [rbind].
    change (Z.div 0 Datetime.US_PER_DAY) with 0.
    cbn. by rewrite (add_zero start Hv).
Qed.

(** X21. The timestamp of the next slot is one interval after the
    date and time of the current one: multiplying the interval by the
    slot number and adding it to the start is the same as adding the
    interval once more, an [OverflowError] included. *)
Theorem next_slot_is_one_interval_later (start dt : datetime) (delta s : timedelta)
    (k : nat) :
  Datetime.valid start = true ->
  Datetime.delta_mul delta (Z.of_nat k) = Ok s ->
  Datetime.add start s = Ok dt ->
  slot_timestamp start delta (S k)
  = (let* dt' := Datetime.add dt delta in Ok (format_datetime dt'))%result.
Proof.
  intros Hv Hs Ha.
  unfold Datetime.delta_mul, Datetime.make_delta in Hs.
  destruct (_ && _) in Hs; [|done]. injection Hs as <-.
  destruct delta as [us]. cbn [total_us] in *.
  rewrite (add_add _ _ _ us Ha).
  unfold slot_timestamp, Datetime.delta_mul, Datetime.make_delta. cbn [total_us].
  replace (us * Z.of_nat (S k)) with (us * Z.of_nat k + us) by lia.
  destruct (_ && _) eqn:Hr; cbn [rbind]; [done|].
  (* the scaled interval is no [timedelta]: the sum is no [datetime] *)
  apply valid_fields in Hv as [Hd Ht].
  pose proof (ymd2ord_bounds _ _ _ Hd) as Ho.
  pose proof (time_fields_range _ _ _ _ Ht) as (? & ? & ? & ?).
  unfold Datetime.add. cbn [total_us].
  set (total := _ + (us * Z.of_nat k + us)).
  assert ((0 <? total / Datetime.US_PER_DAY)
          && (total / Datetime.US_PER_DAY <=? Datetime.MAXORDINAL) = false) as ->; [|done].
  subst total. unfold Datetime.US_PER_DAY, Datetime.MAXORDINAL in *.
  set (o := Datetime.ymd2ord _ _ _) in *. clearbody o.
  generalize dependent (us * Z.of_nat k + us). intros t Hr.
  apply andb_false_iff in Hr. apply andb_false_iff.
  rewrite Z.ltb_ge, !Z.leb_gt in *.
  Z.div_mod_to_equations. lia.
Qed.

(** X22. In a dry run every timestamp that is displayed is the text
    of the start time: no file is shown a later slot, however many files
    there are. *)
Theorem dry_run_displays_the_start
    (files : list string) (start : datetime) (delta : timedelta)
    (fix_id : string) (st : state W) :
  Datetime.valid start = true ->
  exists new,
    trace (process_files files start delta fix_id true st).1 = trace st ++ new
    /\ Forall (eq (format_datetime start)) (omap displayed new).
Proof.
  intros Hv.
  exact (dry_run_displays_slot_zero files start delta fix_id st start Hv
           (add_zero start Hv)).
Qed.

End SlotFacts.

(* ===================================================================== *)
(** ** The further properties on concrete inputs *)
(* ===================================================================== *)

Section FurtherRuns.

Import Examples SimHost Cases.

(** [read_metadata_idempotent] on [a.jpg]. *)
Lemma read_metadata_idempotent_witness :
  read_metadata fresh three_photos
  = ((read_metadata fresh three_photos).1, Ok (true, cached))
  /\ _metadata_read cached = true
  /\ forall st2 : state Sim.fs,
       read_metadata cached st2
       = (State (world st2) (trace st2 ++ [EvCall MReadMetadata (file_path cached)]),
          Ok (true, cached)).
Proof.
  split; [vm_compute; reflexivity|].
  apply (@read_metadata_idempotent Sim.fs Sim.system fresh cached three_photos
           (read_metadata fresh three_photos).1).
  vm_compute; reflexivity.
Defined.

(** [read_metadata_failure_keeps_accessor] on a file the tool cannot
    read. *)
Lemma read_metadata_failure_keeps_accessor_witness :
  read_metadata fresh unreadable = ((read_metadata fresh unreadable).1, Ok (false, fresh))
  /\ fresh = fresh /\ _metadata_read fresh = false
  /\ exists new, trace (read_metadata fresh unreadable).1 = trace unreadable ++ new
                 /\ count_where is_run new = 1%nat
                 /\ count_where is_read_run new = 1%nat.
Proof.
  split; [vm_compute; reflexivity|].
  apply (@read_metadata_failure_keeps_accessor Sim.fs Sim.system fresh fresh unreadable).
  vm_compute; reflexivity.
Defined.

(** [is_writable_memoized] on [a.jpg]. *)
Lemma is_writable_memoized_witness :
  is_writable fresh three_photos
  = ((is_writable fresh three_photos).1, Ok (true, set_writable fresh true))
  /\ _writable (set_writable fresh true) = Some true
  /\ set_writable fresh true = set_writable fresh true
  /\ forall st2 : state Sim.fs,
       is_writable (set_writable fresh true) st2
       = (State (world st2)
                (trace st2 ++ [EvCall MIsWritable (file_path (set_writable fresh true))]),
          Ok (true, set_writable fresh true)).
Proof.
  split; [vm_compute; reflexivity|].
  apply (@is_writable_memoized Sim.fs Sim.system fresh (set_writable fresh true)
           three_photos (is_writable fresh three_photos).1 true).
  vm_compute; reflexivity.
Defined.

(** [missing_file_is_an_error] on a path that does not exist. *)
Lemma missing_file_is_an_error_witness :
  isfile (world three_photos) "z.jpg" = false
  /\ exists new,
       process_file 1 start thirty_seconds "123" false (Counters 0 0 0 0) 0 "z.jpg"
                    three_photos
       = (State (world three_photos) (trace three_photos ++ new),
          Ok (count_error (Counters 0 0 0 0)))
       /\ count_where is_run new = 0%nat.
Proof.
  split; [reflexivity|].
  apply (@missing_file_is_an_error Sim.fs Sim.system). reflexivity.
Defined.

(** [missing_tool_fails_every_file] on the three photos, without the
    tool. *)
Lemma missing_tool_fails_every_file_witness :
  (forall w cmd, Sim.installed w = false ->
     Sim.installed (subprocess_run w cmd).1 = false
     /\ (subprocess_run w cmd).2 = NotFound)
  /\ Sim.installed (world no_tool) = false
  /\ (process_files ["a.jpg"; "b.jpg"; "c.jpg"] start thirty_seconds "123" false
                    no_tool).2
     = Ok (Counters 0 0 (length ["a.jpg"; "b.jpg"; "c.jpg"]) 0)
  /\ commits (trace (process_files ["a.jpg"; "b.jpg"; "c.jpg"] start thirty_seconds
                                   "123" false no_tool).1)
     = commits (trace no_tool).
Proof.
  assert (forall w cmd, Sim.installed w = false ->
            Sim.installed (subprocess_run w cmd).1 = false
            /\ (subprocess_run w cmd).2 = NotFound) as Hg.
  { intros w cmd H. cbn [subprocess_run Sim.system]. unfold Sim.exiftool.
    rewrite H. cbn [negb fst snd]. by split. }
  split; [exact Hg|]. split; [reflexivity|].
  apply (@missing_tool_fails_every_file Sim.fs Sim.system
           (fun w => Sim.installed w = false)); [exact Hg|reflexivity].
Defined.

(** [out_of_range_slot_stops_updates] at the end of the calendar. *)
Lemma out_of_range_slot_stops_updates_witness :
  slot_timestamp last_moment thirty_seconds (file_index (Counters 1 0 0 1))
  = Raise OverflowError
  /\ exists st' c',
       process_from 3 last_moment thirty_seconds "123" false (Counters 1 0 0 1) 1
                    ["b.jpg"; "c.jpg"] three_photos = (st', Ok c')
       /\ processed_count c' = processed_count (Counters 1 0 0 1)
       /\ file_index c' = file_index (Counters 1 0 0 1)
       /\ (skipped_count c' + error_count c'
           = skipped_count (Counters 1 0 0 1) + error_count (Counters 1 0 0 1)
             + length ["b.jpg"; "c.jpg"])%nat
       /\ commits (trace st') = commits (trace three_photos).
Proof.
  split; [reflexivity|].
  apply (@out_of_range_slot_stops_updates Sim.fs Sim.system) with (ex := OverflowError).
  reflexivity.
Defined.

(** [committed_annotation_keeps_the_read_one] on [a.jpg]. *)
Lemma committed_annotation_keeps_the_read_one_witness :
  process_file 1 start thirty_seconds "123" false (Counters 0 0 0 0) 0 "a.jpg"
               three_photos
  = ((process_file 1 start thirty_seconds "123" false (Counters 0 0 0 0) 0 "a.jpg"
                   three_photos).1,
     Ok (count_processed true (Counters 0 0 0 0)))
  /\ exists w1 out err ts,
       subprocess_run (world three_photos)
                      (command_line (Editor "a.jpg" None None None false) read_args)
       = (w1, Completed out err 0)
       /\ slot_timestamp start thirty_seconds (file_index (Counters 0 0 0 0)) = Ok ts
       /\ let metadata := parse_metadata (Py.strip out) in
          let original :=
            match metadata !! "DateTimeOriginal" with
            | Some d => if Py.truthy d then d else "None"
            | None => "None"
            end in
          commits (trace (process_file 1 start thirty_seconds "123" false
                                       (Counters 0 0 0 0) 0 "a.jpg" three_photos).1)
          = commits (trace three_photos)
            ++ [("a.jpg", "-DateTimeOriginal=" +:+ ts,
                 "-UserComment="
                 +:+ new_comment (default "" (metadata !! "UserComment"))
                                 (fix_comment "123" original ts))].
Proof.
  split; [vm_compute; reflexivity|].
  apply (@committed_annotation_keeps_the_read_one Sim.fs Sim.system 1%nat start
           thirty_seconds "123" (Counters 0 0 0 0) 0%nat "a.jpg" three_photos _).
  vm_compute; reflexivity.
Defined.

(** [get_sorted_files_lists_regular_files] on the directory [shots]:
    the subdirectory is left out and the three photos come in the order
    of their names. *)
Lemma get_sorted_files_lists_regular_files_witness :
  get_sorted_files "shots" "name" shots
  = ((get_sorted_files "shots" "name" shots).1,
     Ok ["shots/a.jpg"; "shots/b.jpg"; "shots/c.jpg"])
  /\ Permutation ["shots/a.jpg"; "shots/b.jpg"; "shots/c.jpg"]
                 (listed (world shots) "shots")
  /\ Forall (fun p => isfile (world shots) p = true)
            ["shots/a.jpg"; "shots/b.jpg"; "shots/c.jpg"]
  /\ exists lv template args,
       (get_sorted_files "shots" "name" shots).1
       = State (world shots) (trace shots ++ [EvLog lv template args]).
Proof.
  split; [vm_compute; reflexivity|].
  apply (get_sorted_files_lists_regular_files "shots" "name" shots).
  vm_compute; reflexivity.
Defined.

(** [get_sorted_files_by_time] on [shots]: [b.jpg] and [c.jpg] have the
    same time stamp and keep the order of the listing, [c.jpg] first. *)
Lemma get_sorted_files_by_time_witness :
  (("created" : string) = "created"
   /\ by_letter = getctime (world shots)
   \/ ("created" : string) = "modified"
      /\ by_letter = getmtime (world shots))
  /\ (get_sorted_files "shots" "created" shots).2
     = Ok ["shots/c.jpg"; "shots/b.jpg"; "shots/a.jpg"]
  /\ match (get_sorted_files "shots" "created" shots).2 with
     | Ok l =>
         (exists ks, sort_keys by_letter l = Ok ks /\ ascending Z.ltb ks)
         /\ forall t, List.filter (has_key by_letter t) l
                      = List.filter (has_key by_letter t) (listed (world shots) "shots")
     | Raise ex =>
         (listdir (world shots) "shots" = Raise ex /\ ex <> FileNotFoundError)
         \/ (exists p, In p (listed (world shots) "shots") /\ by_letter p = Raise ex)
     end
  /\ (forall p ex, In p (listed (world shots) "shots") -> by_letter p = Raise ex ->
                   exists ex', (get_sorted_files "shots" "created" shots).2 = Raise ex').
Proof.
  split; [left; split; reflexivity|].
  split; [vm_compute; reflexivity|].
  apply (get_sorted_files_by_time "shots" "created" by_letter shots).
  left; split; reflexivity.
Defined.

(** A directory that may not be listed: the error of [os.listdir] leaves
    [get_sorted_files]; a missing directory gives the empty list. *)
Example unlisted_directory :
  (get_sorted_files "locked" "name" shots).2 = Raise OSError
  /\ (get_sorted_files "nowhere" "name" shots).2 = Ok [].
Proof. vm_compute. done. Qed.

(** [format_parse_roundtrip] on a year below 1000, where the C library
    prints the plain year. *)
Lemma format_parse_roundtrip_witness :
  Spec.is_canonical "0999:01:01 00:00:00" = true
  /\ exists dt,
       parse_datetime "0999:01:01 00:00:00" = Ok dt
       /\ (@pad_year Sim.fs Sim.system_unpadded = true \/ 1000 <= year dt ->
           @format_datetime Sim.fs Sim.system_unpadded dt = "0999:01:01 00:00:00")
       /\ (@pad_year Sim.fs Sim.system_unpadded = false -> year dt < 1000 ->
           @format_datetime Sim.fs Sim.system_unpadded dt <> "0999:01:01 00:00:00"
           /\ Spec.is_canonical (@format_datetime Sim.fs Sim.system_unpadded dt) = false
           /\ parse_datetime (@format_datetime Sim.fs Sim.system_unpadded dt)
              = Raise ValueError).
Proof.
  split; [reflexivity|].
  apply (@format_parse_roundtrip Sim.fs Sim.system_unpadded "0999:01:01 00:00:00").
  reflexivity.
Defined.

(** [parse_arguments_validates] on a command line that passes. *)
Lemma parse_arguments_validates_witness :
  parse_arguments 4 (inl (namespace false)) shots
  = (shots, Ok (Return (namespace false)))
  /\ shots = shots /\ inl (namespace false) = (inl (namespace false) : Namespace + Z)
  /\ (4 <= 4)%nat
  /\ isdir (world shots) (directory (namespace false)) = true
  /\ exists dt, parse_datetime (start_time (namespace false)) = Ok dt
                /\ Datetime.valid dt = true /\ microsecond dt = 0.
Proof.
  split; [reflexivity|].
  apply (parse_arguments_validates 4%nat (inl (namespace false)) shots shots
           (namespace false)).
  reflexivity.
Defined.

(** [main_exit_before_any_run] with too few arguments. *)
Lemma main_exit_before_any_run_witness :
  (main 2 (inl (namespace false)) shots).2 = Ok (Exit 1)
  /\ world (main 2 (inl (namespace false)) shots).1 = world shots
  /\ (exists new, trace (main 2 (inl (namespace false)) shots).1 = trace shots ++ new
                  /\ count_where is_run new = 0%nat)
  /\ ((1 : Z) = 1
      \/ (inl (namespace false) : Namespace + Z) = inr 1
      \/ (1 : Z) = 0
         /\ exists args, (inl (namespace false) : Namespace + Z) = inl args
                         /\ listed (world shots) (directory args) = []).
Proof.
  split; [reflexivity|].
  apply (main_exit_before_any_run 2%nat (inl (namespace false)) shots 1).
  reflexivity.
Defined.

(** [main_dry_run_reads_only] on the directory [shots]. *)
Lemma main_dry_run_reads_only_witness :
  dry_run (namespace true) = true
  /\ exists new,
       trace (main 4 (inl (namespace true)) shots).1 = trace shots ++ new
       /\ forallb read_only new = true.
Proof.
  split; [reflexivity|].
  apply (main_dry_run_reads_only 4%nat (namespace true) shots). reflexivity.
Defined.

(** [parse_format_roundtrip] on the start time of the examples. *)
Lemma parse_format_roundtrip_witness :
  Datetime.valid start = true
  /\ parse_datetime (@format_datetime Sim.fs Sim.system start)
     = if @pad_year Sim.fs Sim.system || (1000 <=? year start)
       then Ok (Datetime (year start) (month start) (day start)
                         (hour start) (minute start) (second start) 0)
       else Raise ValueError.
Proof.
  split; [reflexivity|].
  apply (@parse_format_roundtrip Sim.fs Sim.system start). reflexivity.
Defined.



(** [slot_timestamp_wellformed] on the third slot of the examples. *)
Lemma slot_timestamp_wellformed_witness :
  @slot_timestamp Sim.fs Sim.system start thirty_seconds 2 = Ok "2023:10:26 10:01:00"
  /\ exists dt,
       Datetime.valid dt = true
       /\ "2023:10:26 10:01:00" = @format_datetime Sim.fs Sim.system dt
       /\ elapsed_us dt = elapsed_us start + total_us thirty_seconds * Z.of_nat 2
       /\ (@pad_year Sim.fs Sim.system = true \/ 1000 <= year dt ->
           is_valid_datetime_format "2023:10:26 10:01:00" = true).
Proof.
  split; [reflexivity|].
  apply (@slot_timestamp_wellformed Sim.fs Sim.system start thirty_seconds 2%nat).
  reflexivity.
Defined.

(** [slot_zero_is_start] on the start time of the examples. *)
Lemma slot_zero_is_start_witness :
  Datetime.valid start = true
  /\ @slot_timestamp Sim.fs Sim.system start thirty_seconds 0
     = Ok (@format_datetime Sim.fs Sim.system start)
  /\ forall k, @slot_timestamp Sim.fs Sim.system start (Timedelta 0) k
               = Ok (@format_datetime Sim.fs Sim.system start).
Proof.
  split; [reflexivity|].
  apply (@slot_zero_is_start Sim.fs Sim.system start thirty_seconds). reflexivity.
Defined.

(** [next_slot_is_one_interval_later] from the second slot of the
    examples to the third. *)
Lemma next_slot_is_one_interval_later_witness :
  Datetime.valid start = true
  /\ Datetime.delta_mul thirty_seconds (Z.of_nat 1) = Ok thirty_seconds
  /\ Datetime.add start thirty_seconds = Ok (Datetime 2023 10 26 10 0 30 0)
  /\ @slot_timestamp Sim.fs Sim.system start thirty_seconds 2
     = (let* dt' := Datetime.add (Datetime 2023 10 26 10 0 30 0) thirty_seconds in
        Ok (@format_datetime Sim.fs Sim.system dt'))%result.
Proof.
  split; [reflexivity|]. split; [reflexivity|]. split; [reflexivity|].
  apply (@next_slot_is_one_interval_later Sim.fs Sim.system start
           (Datetime 2023 10 26 10 0 30 0) thirty_seconds thirty_seconds 1%nat);
    reflexivity.
Defined.

(** [dry_run_displays_the_start] on the three photos. *)
Lemma dry_run_displays_the_start_witness :
  Datetime.valid start = true
  /\ exists new,
       trace (process_files ["a.jpg"; "b.jpg"; "c.jpg"] start thirty_seconds "123" true
                            three_photos).1
       = trace three_photos ++ new
       /\ Forall (eq (@format_datetime Sim.fs Sim.system start)) (omap displayed new).
Proof.
  split; [reflexivity|].
  apply (@dry_run_displays_the_start Sim.fs Sim.system). reflexivity.
Defined.

End FurtherRuns.
